(** * AVR energy-meter telemetry bridge: a shallow embedding of [AVR_code.c]

    The firmware polls a digital energy meter over UART0, captures its
    44-byte frames in a receive interrupt, and relays the decoded readings
    through a GPRS modem on UART1 with two timer-paced state machines.

    The embedding keeps the program's globals in one record and turns every
    C function that the properties below talk about into a Rocq function on
    that record.  Fixed-width unsigned integers are [Z] with the wrap-around
    written out, the frame buffer is a list updated by index, the two UART
    data registers are output traces, and single-precision arithmetic is
    IEEE-754 binary32 as specified by [SpecFloat].

    Left out: the peripheral set-up ([uart0_init], [uart1_init],
    [timer0_init]), the reload of TCNT0, and the UART1 receive handler,
    which only reads and drops a byte.  The busy-wait of the two send
    helpers on the data-register-empty flag is taken to end. *)

From Stdlib Require Import ZArith List String Ascii Bool Lia.
From Stdlib Require Import Floats.SpecFloat DecimalString.
From stdpp Require Import base list.
Import ListNotations.

Local Open Scope Z_scope.

(** ** Fixed-width unsigned arithmetic *)

Definition wrap8 (z : Z) : Z := z mod 2 ^ 8.
Definition wrap16 (z : Z) : Z := z mod 2 ^ 16.
Definition wrap32 (z : Z) : Z := z mod 2 ^ 32.

(** [a - b] on two [uint32_t] operands. *)
Definition sub32 (a b : Z) : Z := wrap32 (a - b).

(** ** Configuration constants *)

Definition CR : ascii := "013"%char.
Definition LF : ascii := "010"%char.
Definition DQUOTE : ascii := "034"%char.
Definition NUL : ascii := "000"%char.

(** A C string literal, without its terminating NUL. *)
Definition lit (s : string) : list ascii := list_ascii_of_string s.
Definition CRLF : list ascii := [CR; LF].

Definition APN_STRING : list ascii := lit "airtelgprs.com".
Definition URL_BASE : list ascii := lit "http://2e40139af09b.ngrok-free.app/meter".

Definition COMMAND_DELAY_MS : Z := 2000.
Definition HTTP_DELAY_MS : Z := 1500.

(** ** Meter data layout ([meter_index_t]) *)

Definition IDX_VOLTAGE : Z := 0.
Definition IDX_CURRENT : Z := 2.
Definition IDX_POWER_FACTOR : Z := 4.
Definition IDX_LOAD_KW : Z := 5.
Definition IDX_KWH_TOTAL : Z := 11.
Definition IDX_DATE : Z := 29.
Definition IDX_MONTH : Z := 30.
Definition IDX_YEAR : Z := 31.
Definition IDX_HOUR : Z := 32.
Definition IDX_MINUTE : Z := 33.
Definition IDX_SECOND : Z := 34.
Definition IDX_FREQUENCY : Z := 35.
Definition IDX_FRAME_END : Z := 43.

(** [sizeof meterBuf] and [sizeof httpUrl]. *)
Definition METER_BUF_LEN : Z := 44.
Definition sizeof_httpUrl : nat := 256.

(** ** The two sequencers' state types *)

Inductive gprs_state_t : Set :=
| GPRS_IDLE | GPRS_AT | GPRS_ATE0 | GPRS_CPIN | GPRS_CREG
| GPRS_CSQ | GPRS_APN | GPRS_ATTACH | GPRS_NETOPEN | GPRS_READY.

Inductive http_state_t : Set :=
| HTTP_IDLE | HTTP_TERM | HTTP_INIT | HTTP_CID | HTTP_URL
| HTTP_ACTION | HTTP_COMPLETE.

#[global] Instance gprs_state_eq_dec : EqDecision gprs_state_t.
Proof. solve_decision. Defined.

#[global] Instance http_state_eq_dec : EqDecision http_state_t.
Proof. solve_decision. Defined.

(** ** Program state

    One field per global of the C file, under the C name.  [meterKickTimer]
    is the [uint16_t] local of [main] that lives across loop iterations;
    [portb1] is bit 1 of PORTB (the heartbeat LED); [uart0_tx] and
    [uart1_tx] collect the bytes written to UDR0 and UDR1, oldest first. *)

Record state : Type := mkState {
  meterBuf : list Z;
  meterIdx : Z;
  frameReady : bool;
  tick10ms : Z;
  millisCnt : Z;
  gprsState : gprs_state_t;
  gprsTimer : Z;
  gprsReady : bool;
  httpState : http_state_t;
  httpTimer : Z;
  httpUrl : list ascii;
  meterKickTimer : Z;
  portb1 : bool;
  uart0_tx : list Z;
  uart1_tx : list ascii
}.

Definition with_meterBuf (v : list Z) (s : state) : state :=
  mkState v (meterIdx s) (frameReady s) (tick10ms s) (millisCnt s)
          (gprsState s) (gprsTimer s) (gprsReady s)
          (httpState s) (httpTimer s) (httpUrl s)
          (meterKickTimer s) (portb1 s) (uart0_tx s) (uart1_tx s).

Definition with_meterIdx (v : Z) (s : state) : state :=
  mkState (meterBuf s) v (frameReady s) (tick10ms s) (millisCnt s)
          (gprsState s) (gprsTimer s) (gprsReady s)
          (httpState s) (httpTimer s) (httpUrl s)
          (meterKickTimer s) (portb1 s) (uart0_tx s) (uart1_tx s).

Definition with_frameReady (v : bool) (s : state) : state :=
  mkState (meterBuf s) (meterIdx s) v (tick10ms s) (millisCnt s)
          (gprsState s) (gprsTimer s) (gprsReady s)
          (httpState s) (httpTimer s) (httpUrl s)
          (meterKickTimer s) (portb1 s) (uart0_tx s) (uart1_tx s).

Definition with_tick10ms (v : Z) (s : state) : state :=
  mkState (meterBuf s) (meterIdx s) (frameReady s) v (millisCnt s)
          (gprsState s) (gprsTimer s) (gprsReady s)
          (httpState s) (httpTimer s) (httpUrl s)
          (meterKickTimer s) (portb1 s) (uart0_tx s) (uart1_tx s).

Definition with_millisCnt (v : Z) (s : state) : state :=
  mkState (meterBuf s) (meterIdx s) (frameReady s) (tick10ms s) v
          (gprsState s) (gprsTimer s) (gprsReady s)
          (httpState s) (httpTimer s) (httpUrl s)
          (meterKickTimer s) (portb1 s) (uart0_tx s) (uart1_tx s).

Definition with_gprsState (v : gprs_state_t) (s : state) : state :=
  mkState (meterBuf s) (meterIdx s) (frameReady s) (tick10ms s) (millisCnt s)
          v (gprsTimer s) (gprsReady s)
          (httpState s) (httpTimer s) (httpUrl s)
          (meterKickTimer s) (portb1 s) (uart0_tx s) (uart1_tx s).

Definition with_gprsTimer (v : Z) (s : state) : state :=
  mkState (meterBuf s) (meterIdx s) (frameReady s) (tick10ms s) (millisCnt s)
          (gprsState s) v (gprsReady s)
          (httpState s) (httpTimer s) (httpUrl s)
          (meterKickTimer s) (portb1 s) (uart0_tx s) (uart1_tx s).

Definition with_gprsReady (v : bool) (s : state) : state :=
  mkState (meterBuf s) (meterIdx s) (frameReady s) (tick10ms s) (millisCnt s)
          (gprsState s) (gprsTimer s) v
          (httpState s) (httpTimer s) (httpUrl s)
          (meterKickTimer s) (portb1 s) (uart0_tx s) (uart1_tx s).

Definition with_httpState (v : http_state_t) (s : state) : state :=
  mkState (meterBuf s) (meterIdx s) (frameReady s) (tick10ms s) (millisCnt s)
          (gprsState s) (gprsTimer s) (gprsReady s)
          v (httpTimer s) (httpUrl s)
          (meterKickTimer s) (portb1 s) (uart0_tx s) (uart1_tx s).

Definition with_httpTimer (v : Z) (s : state) : state :=
  mkState (meterBuf s) (meterIdx s) (frameReady s) (tick10ms s) (millisCnt s)
          (gprsState s) (gprsTimer s) (gprsReady s)
          (httpState s) v (httpUrl s)
          (meterKickTimer s) (portb1 s) (uart0_tx s) (uart1_tx s).

Definition with_httpUrl (v : list ascii) (s : state) : state :=
  mkState (meterBuf s) (meterIdx s) (frameReady s) (tick10ms s) (millisCnt s)
          (gprsState s) (gprsTimer s) (gprsReady s)
          (httpState s) (httpTimer s) v
          (meterKickTimer s) (portb1 s) (uart0_tx s) (uart1_tx s).

Definition with_meterKickTimer (v : Z) (s : state) : state :=
  mkState (meterBuf s) (meterIdx s) (frameReady s) (tick10ms s) (millisCnt s)
          (gprsState s) (gprsTimer s) (gprsReady s)
          (httpState s) (httpTimer s) (httpUrl s)
          v (portb1 s) (uart0_tx s) (uart1_tx s).

Definition with_portb1 (v : bool) (s : state) : state :=
  mkState (meterBuf s) (meterIdx s) (frameReady s) (tick10ms s) (millisCnt s)
          (gprsState s) (gprsTimer s) (gprsReady s)
          (httpState s) (httpTimer s) (httpUrl s)
          (meterKickTimer s) v (uart0_tx s) (uart1_tx s).

Definition with_uart0_tx (v : list Z) (s : state) : state :=
  mkState (meterBuf s) (meterIdx s) (frameReady s) (tick10ms s) (millisCnt s)
          (gprsState s) (gprsTimer s) (gprsReady s)
          (httpState s) (httpTimer s) (httpUrl s)
          (meterKickTimer s) (portb1 s) v (uart1_tx s).

Definition with_uart1_tx (v : list ascii) (s : state) : state :=
  mkState (meterBuf s) (meterIdx s) (frameReady s) (tick10ms s) (millisCnt s)
          (gprsState s) (gprsTimer s) (gprsReady s)
          (httpState s) (httpTimer s) (httpUrl s)
          (meterKickTimer s) (portb1 s) (uart0_tx s) v.

(** ** Timing and UART helpers *)

Definition millis (s : state) : Z := millisCnt s.

(** The busy-wait on the data-register-empty flag is hardware behaviour;
    the byte then goes to the data register. *)
Definition uart0_send (byte : Z) (s : state) : state :=
  with_uart0_tx (uart0_tx s ++ [byte]) s.

Definition uart1_send_byte (byte : ascii) (s : state) : state :=
  with_uart1_tx (uart1_tx s ++ [byte]) s.

(** The characters of a C string held in [mem]: everything before the
    first NUL. *)
Fixpoint c_str (mem : list ascii) : list ascii :=
  match mem with
  | [] => []
  | c :: rest => if Ascii.eqb c NUL then [] else c :: c_str rest
  end.

(** [while ( *str) uart1_send_byte( *str++)]. *)
Fixpoint uart1_send_chars (chars : list ascii) (s : state) : state :=
  match chars with
  | [] => s
  | c :: rest => uart1_send_chars rest (uart1_send_byte c s)
  end.

Definition uart1_send_str (str : list ascii) (s : state) : state :=
  uart1_send_chars (c_str str) s.

(** ** Interrupt handlers *)

(** Timer0 overflow: the 10 ms tick (the reload of TCNT0 is a hardware
    register write). *)
Definition TIMER0_OVF_vect (s : state) : state :=
  with_millisCnt (wrap32 (millisCnt s + 10))
    (with_tick10ms (wrap32 (tick10ms s + 1)) s).

(** Read of [meterBuf[i]].  The program reads the buffer at constant
    offsets below 44 only; an index past the end of the list reads 0. *)
Definition buf_get (buf : list Z) (i : Z) : Z :=
  default 0 (buf !! Z.to_nat i).

(** UART0 receive: [udr0] is the content of the data register.  A store
    outside the 44-byte array has no defined behaviour, so the handler
    yields [None] there. *)
Definition USART0_RX_vect (udr0 : Z) (s : state) : option state :=
  let byte := wrap8 udr0 in
  let i := meterIdx s in
  if (0 <=? i) && (i <? METER_BUF_LEN) then
    let s1 := with_meterIdx (wrap8 (i + 1))
                (with_meterBuf (<[Z.to_nat i := byte]> (meterBuf s)) s) in
    if meterIdx s1 =? 44 then
      let s2 := if buf_get (meterBuf s1) IDX_FRAME_END =? 0xDD
                then with_frameReady true s1 else s1 in
      Some (with_meterIdx 0 s2)
    else Some s1
  else None.

(** ** Meter data helpers *)

Definition get_u16 (s : state) (idx : Z) : Z :=
  wrap16 (Z.lor (wrap16 (Z.shiftl (buf_get (meterBuf s) idx) 8))
                (buf_get (meterBuf s) (idx + 1))).

Definition get_u24 (s : state) (idx : Z) : Z :=
  wrap32 (Z.lor (Z.lor (wrap32 (Z.shiftl (buf_get (meterBuf s) idx) 16))
                       (wrap32 (Z.shiftl (buf_get (meterBuf s) (idx + 1)) 8)))
                (buf_get (meterBuf s) (idx + 2))).

(** ** GPRS initialisation state machine *)

Definition gprs_fsm (s : state) : state :=
  if gprsReady s then s
  else
    let now := millis s in
    match gprsState s with
    | GPRS_IDLE =>
        with_gprsState GPRS_AT
          (with_gprsTimer now (uart1_send_str (lit "AT" ++ CRLF) s))
    | GPRS_AT =>
        if COMMAND_DELAY_MS <=? sub32 now (gprsTimer s) then
          with_gprsState GPRS_ATE0
            (with_gprsTimer now (uart1_send_str (lit "ATE0" ++ CRLF) s))
        else s
    | GPRS_ATE0 =>
        if COMMAND_DELAY_MS <=? sub32 now (gprsTimer s) then
          with_gprsState GPRS_CPIN
            (with_gprsTimer now (uart1_send_str (lit "AT+CPIN?" ++ CRLF) s))
        else s
    | GPRS_CPIN =>
        if COMMAND_DELAY_MS <=? sub32 now (gprsTimer s) then
          with_gprsState GPRS_CREG
            (with_gprsTimer now (uart1_send_str (lit "AT+CREG?" ++ CRLF) s))
        else s
    | GPRS_CREG =>
        if COMMAND_DELAY_MS <=? sub32 now (gprsTimer s) then
          with_gprsState GPRS_CSQ
            (with_gprsTimer now (uart1_send_str (lit "AT+CSQ" ++ CRLF) s))
        else s
    | GPRS_CSQ =>
        if COMMAND_DELAY_MS <=? sub32 now (gprsTimer s) then
          with_gprsState GPRS_APN
            (with_gprsTimer now
               (uart1_send_str
                  (lit "AT+CGDCONT=1," ++ [DQUOTE] ++ lit "IP" ++ [DQUOTE]
                   ++ lit "," ++ [DQUOTE] ++ APN_STRING ++ [DQUOTE] ++ CRLF) s))
        else s
    | GPRS_APN =>
        if COMMAND_DELAY_MS <=? sub32 now (gprsTimer s) then
          with_gprsState GPRS_ATTACH
            (with_gprsTimer now (uart1_send_str (lit "AT+CGATT=1" ++ CRLF) s))
        else s
    | GPRS_ATTACH =>
        if COMMAND_DELAY_MS <=? sub32 now (gprsTimer s) then
          with_gprsState GPRS_NETOPEN
            (with_gprsTimer now (uart1_send_str (lit "AT+NETOPEN" ++ CRLF) s))
        else s
    | GPRS_NETOPEN =>
        if COMMAND_DELAY_MS <=? sub32 now (gprsTimer s) then
          with_gprsState GPRS_READY (with_gprsReady true s)
        else s
    | GPRS_READY => s
    end.

(** ** Formatting ([snprintf] of the C library)

    The conversions follow ISO C: [%0Wu] prints an unsigned decimal padded
    with zeros to width [W]; [%.Pf] prints the exact value of its argument
    rounded to [P] fractional digits (ties to even, as the default rounding
    mode gives); [snprintf] stores at most [size - 1] characters and then a
    NUL, leaving the rest of the destination as it was. *)

Definition dec (n : Z) : list ascii :=
  list_ascii_of_string (NilZero.string_of_uint (N.to_uint (Z.to_N n))).

Definition pad0 (width : nat) (digits : list ascii) : list ascii :=
  repeat "0"%char (width - length digits) ++ digits.

Definition fmt_u (width : nat) (n : Z) : list ascii := pad0 width (dec n).

Definition round_half_even (num den : Z) : Z :=
  let q := num / den in
  match 2 * (num mod den) ?= den with
  | Lt => q
  | Gt => q + 1
  | Eq => if Z.even q then q else q + 1
  end.

(** [m * 2^e * 10^p] rounded to an integer. *)
Definition scale10 (p : nat) (m : positive) (e : Z) : Z :=
  if 0 <=? e then Z.pos m * 2 ^ e * 10 ^ Z.of_nat p
  else round_half_even (Z.pos m * 10 ^ Z.of_nat p) (2 ^ (- e)).

Definition fmt_fixed (p : nat) (neg : bool) (n : Z) : list ascii :=
  (if neg then lit "-" else [])
  ++ dec (n / 10 ^ Z.of_nat p)
  ++ match p with
     | O => []
     | _ => lit "." ++ pad0 p (dec (n mod 10 ^ Z.of_nat p))
     end.

Definition fmt_f (p : nat) (x : spec_float) : list ascii :=
  match x with
  | S754_zero neg => fmt_fixed p neg 0
  | S754_finite neg m e => fmt_fixed p neg (scale10 p m e)
  | S754_infinity neg => (if neg then lit "-" else []) ++ lit "inf"
  | S754_nan => lit "nan"
  end.

Definition snprintf (dst : list ascii) (size : nat) (out : list ascii)
  : list ascii :=
  match size with
  | O => dst
  | S n => let written := firstn n out ++ [NUL] in
           written ++ skipn (length written) dst
  end.

(** ** Single-precision arithmetic ([float] is IEEE-754 binary32) *)

Definition f32_of_Z (n : Z) : spec_float := binary_normalize 24 128 n 0 false.
Definition f32_div (x y : spec_float) : spec_float := SFdiv 24 128 x y.

(** ** HTTP transmission state machine *)

(** The text [snprintf] formats in [build_http_url]. *)
Definition http_url_text (s : state) : list ascii :=
  let voltage := f32_div (f32_of_Z (get_u16 s IDX_VOLTAGE)) (f32_of_Z 100) in
  let current := f32_div (f32_of_Z (get_u16 s IDX_CURRENT)) (f32_of_Z 1000) in
  let pf := f32_div (f32_of_Z (buf_get (meterBuf s) IDX_POWER_FACTOR))
                    (f32_of_Z 100) in
  let load := f32_div (f32_of_Z (get_u24 s IDX_LOAD_KW)) (f32_of_Z 100000) in
  let kwh := f32_div (f32_of_Z (get_u24 s IDX_KWH_TOTAL)) (f32_of_Z 100) in
  let freq := f32_div (f32_of_Z (get_u16 s IDX_FREQUENCY)) (f32_of_Z 10) in
  URL_BASE
  ++ lit "?v=" ++ fmt_f 2 voltage
  ++ lit "&c=" ++ fmt_f 3 current
  ++ lit "&pf=" ++ fmt_f 2 pf
  ++ lit "&l=" ++ fmt_f 5 load
  ++ lit "&k=" ++ fmt_f 2 kwh
  ++ lit "&f=" ++ fmt_f 1 freq
  ++ lit "&d=" ++ fmt_u 2 (buf_get (meterBuf s) IDX_DATE)
  ++ lit "-" ++ fmt_u 2 (buf_get (meterBuf s) IDX_MONTH)
  ++ lit "-" ++ fmt_u 2 (buf_get (meterBuf s) IDX_YEAR)
  ++ lit "%20" ++ fmt_u 2 (buf_get (meterBuf s) IDX_HOUR)
  ++ lit ":" ++ fmt_u 2 (buf_get (meterBuf s) IDX_MINUTE)
  ++ lit ":" ++ fmt_u 2 (buf_get (meterBuf s) IDX_SECOND)
  ++ lit "&s=atmega328pb".

Definition build_http_url (s : state) : state :=
  with_httpUrl (snprintf (httpUrl s) sizeof_httpUrl (http_url_text s)) s.

Definition http_fsm (s : state) : state :=
  if negb (gprsReady s) || negb (frameReady s) then s
  else
    let now := millis s in
    match httpState s with
    | HTTP_IDLE =>
        with_httpState HTTP_TERM
          (with_httpTimer now
             (uart1_send_str (lit "AT+HTTPTERM" ++ CRLF) (build_http_url s)))
    | HTTP_TERM =>
        if HTTP_DELAY_MS <=? sub32 now (httpTimer s) then
          with_httpState HTTP_INIT
            (with_httpTimer now
               (uart1_send_str (lit "AT+HTTPINIT" ++ CRLF) s))
        else s
    | HTTP_INIT =>
        if HTTP_DELAY_MS <=? sub32 now (httpTimer s) then
          with_httpState HTTP_CID
            (with_httpTimer now
               (uart1_send_str
                  (lit "AT+HTTPPARA=" ++ [DQUOTE] ++ lit "CID" ++ [DQUOTE]
                   ++ lit ",1" ++ CRLF) s))
        else s
    | HTTP_CID =>
        if HTTP_DELAY_MS <=? sub32 now (httpTimer s) then
          with_httpState HTTP_URL
            (with_httpTimer now
               (uart1_send_str ([DQUOTE] ++ CRLF)
                  (uart1_send_str (httpUrl s)
                     (uart1_send_str
                        (lit "AT+HTTPPARA=" ++ [DQUOTE] ++ lit "URL"
                         ++ [DQUOTE] ++ lit "," ++ [DQUOTE]) s))))
        else s
    | HTTP_URL =>
        if HTTP_DELAY_MS <=? sub32 now (httpTimer s) then
          with_httpState HTTP_ACTION
            (with_httpTimer now
               (uart1_send_str (lit "AT+HTTPACTION=0" ++ CRLF) s))
        else s
    | HTTP_ACTION =>
        if HTTP_DELAY_MS * 2 <=? sub32 now (httpTimer s) then
          with_httpState HTTP_COMPLETE (with_frameReady false s)
        else s
    | HTTP_COMPLETE =>
        if HTTP_DELAY_MS <=? sub32 now (httpTimer s) then
          with_httpState HTTP_IDLE s
        else s
    end.

(** ** Main program *)

(** The poll-period block at the top of the main loop body. *)
Definition poll (s : state) : state :=
  if 100 <=? wrap16 (wrap32 (tick10ms s - meterKickTimer s)) then
    let s1 := with_meterKickTimer (wrap16 (tick10ms s)) s in
    let s2 := with_portb1 (negb (portb1 s1)) s1 in
    let s3 := with_meterIdx 0 s2 in
    uart0_send 0xDD (uart0_send 0x91 (uart0_send 0xCC s3))
  else s.

(** One iteration of [for (;;)]. *)
Definition main_loop_body (s : state) : state :=
  http_fsm (gprs_fsm (poll s)).

(** The globals as the C start-up code leaves them (static storage is
    zeroed), after [main] has lit the LED and before the loop is entered. *)
Definition init_state : state :=
  mkState (repeat 0 44) 0 false 0 0
          GPRS_IDLE 0 false
          HTTP_IDLE 0 (repeat NUL sizeof_httpUrl)
          0 true [] [].

(** ** Execution model

    Interrupts are enabled while the main loop runs, so a tick or a
    received byte can arrive between any two of the three steps of the loop
    body.  [pc] records which step the main context executes next; an
    [EvMain] event executes it.  Each handler and each step is one atomic
    transition: a step sees one value of the counters throughout, and its
    multi-byte reads of them are not torn by an interrupt. *)

Inductive phase : Set := AtPoll | AtGprs | AtHttp.

Record machine : Type := mkMachine { pc : phase; st : state }.

Inductive event : Type :=
| EvTick
| EvRx (udr0 : Z)
| EvMain.

Definition step (ev : event) (m : machine) : option machine :=
  match ev with
  | EvTick => Some (mkMachine (pc m) (TIMER0_OVF_vect (st m)))
  | EvRx b =>
      match USART0_RX_vect b (st m) with
      | Some s' => Some (mkMachine (pc m) s')
      | None => None
      end
  | EvMain =>
      Some match pc m with
           | AtPoll => mkMachine AtGprs (poll (st m))
           | AtGprs => mkMachine AtHttp (gprs_fsm (st m))
           | AtHttp => mkMachine AtPoll (http_fsm (st m))
           end
  end.

Fixpoint run (evs : list event) (m : machine) : option machine :=
  match evs with
  | [] => Some m
  | ev :: rest =>
      match step ev m with
      | Some m' => run rest m'
      | None => None
      end
  end.

Definition init_machine : machine := mkMachine AtPoll init_state.

Inductive reachable : machine -> Prop :=
| reach_init : reachable init_machine
| reach_step ev m m' : reachable m -> step ev m = Some m' -> reachable m'.

(** ** Vocabulary of the properties *)

(** The frame buffer has its declared size and the capture cursor indexes
    into it. *)
Definition cursor_inv (s : state) : Prop :=
  length (meterBuf s) = 44%nat /\ 0 <= meterIdx s < 44.

(** Successive receive interrupts, one per byte of [bs]. *)
Fixpoint feed (bs : list Z) (s : state) : option state :=
  match bs with
  | [] => Some s
  | b :: rest =>
      match USART0_RX_vect b s with
      | Some s' => feed rest s'
      | None => None
      end
  end.

(** The sentinel test applied to a received frame. *)
Definition frame_valid (bs : list Z) : bool :=
  wrap8 (nth 43 bs 0) =? 0xDD.

(** The bring-up states in the order of the enumeration. *)
Definition gprs_order : list gprs_state_t :=
  [GPRS_IDLE; GPRS_AT; GPRS_ATE0; GPRS_CPIN; GPRS_CREG;
   GPRS_CSQ; GPRS_APN; GPRS_ATTACH; GPRS_NETOPEN; GPRS_READY].

Definition gprs_rank (g : gprs_state_t) : nat :=
  match g with
  | GPRS_IDLE => 0 | GPRS_AT => 1 | GPRS_ATE0 => 2 | GPRS_CPIN => 3
  | GPRS_CREG => 4 | GPRS_CSQ => 5 | GPRS_APN => 6 | GPRS_ATTACH => 7
  | GPRS_NETOPEN => 8 | GPRS_READY => 9
  end.

(** Position of an uplink state in the enumeration. *)
Definition http_rank (h : http_state_t) : nat :=
  match h with
  | HTTP_IDLE => 0 | HTTP_TERM => 1 | HTTP_INIT => 2 | HTTP_CID => 3
  | HTTP_URL => 4 | HTTP_ACTION => 5 | HTTP_COMPLETE => 6
  end.

(** The machines an event schedule passes through, the starting one first;
    the list stops where a step has no defined outcome. *)
Fixpoint trace (evs : list event) (m : machine) : list machine :=
  m :: match evs with
       | [] => []
       | ev :: rest =>
           match step ev m with
           | Some m' => trace rest m'
           | None => []
           end
       end.

Definition gprs_trace (evs : list event) (m : machine) : list gprs_state_t :=
  map (fun m' => gprsState (st m')) (trace evs m).

(** A list with every run of equal neighbours collapsed to one element. *)
Fixpoint compress (l : list gprs_state_t) : list gprs_state_t :=
  match l with
  | [] => []
  | x :: rest =>
      match rest with
      | [] => [x]
      | y :: _ => if decide (x = y) then compress rest else x :: compress rest
      end
  end.

(** Schedules built from rounds: some interrupts, then one iteration of
    the main loop (poll block, [gprs_fsm], [http_fsm]). *)
Definition is_isr (ev : event) : bool :=
  match ev with EvMain => false | _ => true end.

Fixpoint ticks_in (evs : list event) : Z :=
  match evs with
  | [] => 0
  | EvTick :: rest => 1 + ticks_in rest
  | _ :: rest => ticks_in rest
  end.

Definition loop_iter : list event := [EvMain; EvMain; EvMain].

Fixpoint schedule (rounds : list (list event)) : list event :=
  match rounds with
  | [] => []
  | isr :: rest => isr ++ loop_iter ++ schedule rest
  end.

(** The interrupts of a round let at least [delay] milliseconds pass, and
    less than one full turn of the 32-bit millisecond counter. *)
Definition paced (delay : Z) (isr : list event) : Prop :=
  forallb is_isr isr = true /\ delay <= 10 * ticks_in isr < 2 ^ 32.

(** No received byte of the schedule is the frame sentinel. *)
Fixpoint no_sentinel (evs : list event) : bool :=
  match evs with
  | [] => true
  | EvRx b :: rest => negb (wrap8 b =? 0xDD) && no_sentinel rest
  | _ :: rest => no_sentinel rest
  end.

(** [gprsReady] is set exactly in the READY state. *)
Definition gprs_inv (s : state) : Prop :=
  gprsReady s = true <-> gprsState s = GPRS_READY.


(** At the top of a loop iteration the timer of a waiting state holds the
    current time: nothing has ticked since the state was entered. *)
Definition gprs_armed (s : state) : Prop :=
  gprsState s = GPRS_IDLE \/ gprsState s = GPRS_READY
  \/ gprsTimer s = millisCnt s.

Definition http_armed (s : state) : Prop :=
  httpState s = HTTP_IDLE \/ httpState s = HTTP_COMPLETE
  \/ httpTimer s = millisCnt s.


(** Successor in the uplink cycle, and the delay each state waits for. *)
Definition http_next (h : http_state_t) : http_state_t :=
  match h with
  | HTTP_IDLE => HTTP_TERM | HTTP_TERM => HTTP_INIT | HTTP_INIT => HTTP_CID
  | HTTP_CID => HTTP_URL | HTTP_URL => HTTP_ACTION
  | HTTP_ACTION => HTTP_COMPLETE | HTTP_COMPLETE => HTTP_IDLE
  end.

Definition http_delay_of (h : http_state_t) : Z :=
  match h with
  | HTTP_ACTION => HTTP_DELAY_MS * 2
  | _ => HTTP_DELAY_MS
  end.


(** A concrete history: bring-up in nine rounds of 2 s, one valid frame,
    one uplink cycle in six rounds of 3 s. *)
Definition bringup_schedule : list event :=
  schedule (repeat (repeat EvTick 200) 9).

Definition valid_frame : list Z := repeat 0 43 ++ [0xDD].

Definition cycle_schedule : list event :=
  schedule (repeat (repeat EvTick 300) 6).

Definition one_cycle : list event :=
  bringup_schedule ++ map EvRx valid_frame ++ cycle_schedule.


(** One tick followed by one full iteration of the main loop, as a step
    from loop top to loop top. *)
Definition tick_and_loop (m : machine) : machine :=
  mkMachine AtPoll (main_loop_body (TIMER0_OVF_vect (st m))).

(** Ticks after which the millisecond counter, 3000 ms past a timestamp,
    stands 4 ms past it again: 3000 + 10 * 429496430 = 2^32 + 4. *)
Definition ticks_to_wrap : N := 429496430.


(** The frame of the end-to-end scenario: voltage 230.00 (23000),
    current 5.000 (5000), power factor 0.98 (98), load 1.23456 (123456),
    energy 456.78 (45678), date 01-01-24, time 12:00:00, frequency 50.0
    (500), sentinel 0xDD; the bytes no field covers are zero. *)
Definition example_frame : list Z :=
  [0x59; 0xD8; 0x13; 0x88; 0x62; 0x01; 0xE2; 0x40; 0; 0; 0; 0x00; 0xB2; 0x6E]
  ++ repeat 0 15
  ++ [1; 1; 24; 12; 0; 0; 0x01; 0xF4]
  ++ repeat 0 6
  ++ [0xDD].

Definition example_query : list ascii :=
  lit "v=230.00&c=5.000&pf=0.98&l=1.23456&k=456.78&f=50.0&d=01-01-24%2012:00:00".




(** The end-to-end history: bring-up, the example frame byte by byte, one
    uplink cycle; and everything the modem link should have carried. *)
Definition example_run : list event :=
  bringup_schedule ++ map EvRx example_frame ++ cycle_schedule.

Definition example_url : list ascii :=
  URL_BASE ++ lit "?" ++ example_query ++ lit "&s=atmega328pb".

Definition example_uart1 : list ascii :=
  lit "AT" ++ CRLF
  ++ lit "ATE0" ++ CRLF
  ++ lit "AT+CPIN?" ++ CRLF
  ++ lit "AT+CREG?" ++ CRLF
  ++ lit "AT+CSQ" ++ CRLF
  ++ lit "AT+CGDCONT=1," ++ [DQUOTE] ++ lit "IP" ++ [DQUOTE] ++ lit ","
     ++ [DQUOTE] ++ APN_STRING ++ [DQUOTE] ++ CRLF
  ++ lit "AT+CGATT=1" ++ CRLF
  ++ lit "AT+NETOPEN" ++ CRLF
  ++ lit "AT+HTTPTERM" ++ CRLF
  ++ lit "AT+HTTPINIT" ++ CRLF
  ++ lit "AT+HTTPPARA=" ++ [DQUOTE] ++ lit "CID" ++ [DQUOTE] ++ lit ",1" ++ CRLF
  ++ lit "AT+HTTPPARA=" ++ [DQUOTE] ++ lit "URL" ++ [DQUOTE] ++ lit ","
     ++ [DQUOTE] ++ example_url ++ [DQUOTE] ++ CRLF
  ++ lit "AT+HTTPACTION=0" ++ CRLF.


(** ** Schedules that keep a sequencer served *)

Definition next_phase (p : phase) : phase :=
  match p with AtPoll => AtGprs | AtGprs => AtHttp | AtHttp => AtPoll end.

Definition same_phase (p q : phase) : bool :=
  match p, q with
  | AtPoll, AtPoll | AtGprs, AtGprs | AtHttp, AtHttp => true
  | _, _ => false
  end.

(** [served target K p g evs]: along [evs], started in phase [p] with [g]
    ticks counted since the main-loop step [target] last ran, never more
    than [K] ticks pass without that step running.  Interrupts may fall
    anywhere, also between the steps of one loop iteration. *)
Fixpoint served (target : phase) (K : Z) (p : phase) (g : Z)
    (evs : list event) : bool :=
  match evs with
  | [] => true
  | EvTick :: rest => (g + 1 <=? K) && served target K p (g + 1) rest
  | EvRx _ :: rest => served target K p g rest
  | EvMain :: rest =>
      served target K (next_phase p) (if same_phase p target then 0 else g) rest
  end.

(** Progress of the bring-up while it is served: [T] ticks since start-up,
    [g] since the last call of [gprs_fsm], [e] since the current state was
    entered.  The gate was closed at the last call, and the time spent so
    far is covered by the states passed. *)
Definition gprs_progress (K : Z) (s : state) (T g : Z) : Prop :=
  0 <= g <= K
  /\ ((gprsReady s = true /\ gprsState s = GPRS_READY)
      \/ (gprsReady s = false /\ gprsState s = GPRS_IDLE /\ T <= g)
      \/ (gprsReady s = false /\ gprsState s <> GPRS_IDLE
          /\ gprsState s <> GPRS_READY
          /\ exists e, g <= e
               /\ 10 * e < COMMAND_DELAY_MS + 10 * g
               /\ sub32 (millis s) (gprsTimer s) = wrap32 (10 * e)
               /\ 10 * T <= 10 * K
                            + (COMMAND_DELAY_MS + 10 * K)
                              * (Z.of_nat (gprs_rank (gprsState s)) - 1)
                            + 10 * e)).

(** The same for an uplink cycle that has not reached COMPLETE yet; both
    flags are still set. *)
Definition http_progress (K : Z) (s : state) (T g : Z) : Prop :=
  0 <= g <= K
  /\ gprsReady s = true /\ frameReady s = true
  /\ ((httpState s = HTTP_IDLE /\ T <= g)
      \/ (httpState s <> HTTP_IDLE /\ httpState s <> HTTP_COMPLETE
          /\ exists e, g <= e
               /\ 10 * e < http_delay_of (httpState s) + 10 * g
               /\ sub32 (millis s) (httpTimer s) = wrap32 (10 * e)
               /\ 10 * T <= 10 * K
                            + (HTTP_DELAY_MS + 10 * K)
                              * (Z.of_nat (http_rank (httpState s)) - 1)
                            + 10 * e)).

(** ** Further operations of the program *)

(** UART1 receive: the modem's byte is read into a local and dropped. *)
Definition USART1_RX_vect (udr1 : Z) (s : state) : state := s.

(** The three bytes of the meter poll command, in the order [main] sends
    them. *)
Definition poll_cmd : list Z := [0xCC; 0x91; 0xDD].

(** The eight bring-up commands in the order [gprs_fsm] sends them, and
    what has gone out by the time the machine is in a given state. *)
Definition gprs_cmds : list (list ascii) :=
  [ lit "AT" ++ CRLF;
    lit "ATE0" ++ CRLF;
    lit "AT+CPIN?" ++ CRLF;
    lit "AT+CREG?" ++ CRLF;
    lit "AT+CSQ" ++ CRLF;
    lit "AT+CGDCONT=1," ++ [DQUOTE] ++ lit "IP" ++ [DQUOTE] ++ lit ","
      ++ [DQUOTE] ++ APN_STRING ++ [DQUOTE] ++ CRLF;
    lit "AT+CGATT=1" ++ CRLF;
    lit "AT+NETOPEN" ++ CRLF ].

Definition gprs_sent (g : gprs_state_t) : list ascii :=
  concat (take (gprs_rank g) gprs_cmds).

(** The commands of one uplink cycle, and what the current cycle has sent
    by the time the machine is in a given state. *)
Definition http_term_cmd : list ascii := lit "AT+HTTPTERM" ++ CRLF.
Definition http_init_cmd : list ascii := lit "AT+HTTPINIT" ++ CRLF.
Definition http_cid_cmd : list ascii :=
  lit "AT+HTTPPARA=" ++ [DQUOTE] ++ lit "CID" ++ [DQUOTE] ++ lit ",1" ++ CRLF.
Definition http_url_cmd (url : list ascii) : list ascii :=
  lit "AT+HTTPPARA=" ++ [DQUOTE] ++ lit "URL" ++ [DQUOTE] ++ lit ","
  ++ [DQUOTE] ++ url ++ [DQUOTE] ++ CRLF.
Definition http_action_cmd : list ascii := lit "AT+HTTPACTION=0" ++ CRLF.

Definition http_sent (h : http_state_t) (url : list ascii) : list ascii :=
  match h with
  | HTTP_IDLE => []
  | HTTP_TERM => http_term_cmd
  | HTTP_INIT => http_term_cmd ++ http_init_cmd
  | HTTP_CID => http_term_cmd ++ http_init_cmd ++ http_cid_cmd
  | HTTP_URL =>
      http_term_cmd ++ http_init_cmd ++ http_cid_cmd ++ http_url_cmd url
  | HTTP_ACTION | HTTP_COMPLETE =>
      http_term_cmd ++ http_init_cmd ++ http_cid_cmd ++ http_url_cmd url
      ++ http_action_cmd
  end.

(** Everything a finished cycle with target [url] has sent. *)
Definition http_cycle (url : list ascii) : list ascii :=
  http_sent HTTP_COMPLETE url.

(** The difference the poll block compares with 100: ticks since
    [meterKickTimer] was last set, as the 16-bit subtraction sees them. *)
Definition since_poll (s : state) : Z :=
  wrap16 (wrap32 (tick10ms s - meterKickTimer s)).

(** The least time, in milliseconds, the delay gates of [gprs_fsm] put
    between the first command and the entry into a bring-up state. *)
Definition gprs_min_ms (g : gprs_state_t) : Z :=
  COMMAND_DELAY_MS * (Z.of_nat (gprs_rank g) - 1).

(** The same for [http_fsm], counted from the start of an uplink cycle. *)
Definition http_min_ms (h : http_state_t) : Z :=
  match h with
  | HTTP_IDLE | HTTP_TERM => 0
  | HTTP_INIT => HTTP_DELAY_MS
  | HTTP_CID => 2 * HTTP_DELAY_MS
  | HTTP_URL => 3 * HTTP_DELAY_MS
  | HTTP_ACTION => 4 * HTTP_DELAY_MS
  | HTTP_COMPLETE => 4 * HTTP_DELAY_MS + HTTP_DELAY_MS * 2
  end.

(** The bring-up clock: [e] ticks have passed since the state was entered,
    and the states before it took their delays. *)
Definition gprs_clock (s : state) (T : Z) : Prop :=
  0 <= T
  /\ exists e, 0 <= e
       /\ gprs_min_ms (gprsState s) + 10 * e <= 10 * T
       /\ (gprsReady s = false -> gprsState s <> GPRS_IDLE ->
           sub32 (millis s) (gprsTimer s) = wrap32 (10 * e)).

(** Ticks the timestamp of an uplink state is older than its entry: the
    step into [HTTP_COMPLETE] keeps the timestamp of [HTTP_ACTION]. *)
Definition http_carry (h : http_state_t) : Z :=
  match h with
  | HTTP_COMPLETE => HTTP_DELAY_MS * 2 / 10
  | _ => 0
  end.

(** The uplink clock, as [gprs_clock]. *)
Definition http_clock (s : state) (T : Z) : Prop :=
  0 <= T
  /\ exists e, 0 <= e
       /\ http_min_ms (httpState s) + 10 * e <= 10 * T
       /\ (httpState s <> HTTP_IDLE ->
           sub32 (millis s) (httpTimer s)
           = wrap32 (10 * (e + http_carry (httpState s)))).

(** The buffer offsets [build_http_url] reads. *)
Definition url_offsets : list Z :=
  [IDX_VOLTAGE; IDX_VOLTAGE + 1; IDX_CURRENT; IDX_CURRENT + 1;
   IDX_POWER_FACTOR;
   IDX_LOAD_KW; IDX_LOAD_KW + 1; IDX_LOAD_KW + 2;
   IDX_KWH_TOTAL; IDX_KWH_TOTAL + 1; IDX_KWH_TOTAL + 2;
   IDX_DATE; IDX_MONTH; IDX_YEAR; IDX_HOUR; IDX_MINUTE; IDX_SECOND;
   IDX_FREQUENCY; IDX_FREQUENCY + 1].

(** Two states agree on those offsets. *)
Definition same_fields (s s' : state) : bool :=
  forallb (fun i => buf_get (meterBuf s) i =? buf_get (meterBuf s') i)
          url_offsets.

(** * Properties *)

(** Field projections of an updated state. *)
Ltac project :=
  cbn [meterBuf meterIdx frameReady tick10ms millisCnt gprsState gprsTimer
       gprsReady httpState httpTimer httpUrl meterKickTimer portb1 uart0_tx
       uart1_tx with_meterBuf with_meterIdx with_frameReady with_tick10ms
       with_millisCnt with_gprsState with_gprsTimer with_gprsReady
       with_httpState with_httpTimer with_httpUrl with_meterKickTimer
       with_portb1 with_uart0_tx with_uart1_tx] in *.

(** ** The operations on small inputs *)

Example wrap8_cursor : wrap8 (255 + 1) = 0.
Proof. reflexivity. Qed.

Example rx_first_byte :
  option_map meterIdx (USART0_RX_vect 0xAB init_state) = Some 1
  /\ option_map (fun s => buf_get (meterBuf s) 0) (USART0_RX_vect 0xAB init_state)
     = Some 0xAB.
Proof. split; reflexivity. Qed.

Example rx_out_of_bounds : USART0_RX_vect 0 (with_meterIdx 44 init_state) = None.
Proof. reflexivity. Qed.

Example tick_advances :
  millisCnt (TIMER0_OVF_vect init_state) = 10
  /\ tick10ms (TIMER0_OVF_vect init_state) = 1.
Proof. split; reflexivity. Qed.

Example gprs_first_call :
  gprsState (gprs_fsm init_state) = GPRS_AT
  /\ uart1_tx (gprs_fsm init_state) = lit "AT" ++ CRLF.
Proof. split; reflexivity. Qed.

Example http_idle_without_frame : http_fsm init_state = init_state.
Proof. reflexivity. Qed.

Example poll_before_period : poll (with_tick10ms 99 init_state) = with_tick10ms 99 init_state.
Proof. reflexivity. Qed.

Example poll_at_period :
  uart0_tx (poll (with_tick10ms 100 init_state)) = [0xCC; 0x91; 0xDD]
  /\ meterKickTimer (poll (with_tick10ms 100 init_state)) = 100.
Proof. split; reflexivity. Qed.

Example fmt_f_rounds_half_to_even :
  fmt_f 0 (f32_div (f32_of_Z 5) (f32_of_Z 2)) = lit "2"
  /\ fmt_f 0 (f32_div (f32_of_Z 7) (f32_of_Z 2)) = lit "4".
Proof. split; vm_compute; reflexivity. Qed.

Example fmt_u_pads : fmt_u 2 7 = lit "07" /\ fmt_u 2 255 = lit "255".
Proof. split; vm_compute; reflexivity. Qed.

Example snprintf_truncates :
  snprintf (repeat NUL 4) 4 (lit "hello") = lit "hel" ++ [NUL].
Proof. reflexivity. Qed.

Example snprintf_keeps_tail :
  snprintf (lit "abcdef") 6 (lit "xy") = lit "xy" ++ [NUL] ++ lit "def".
Proof. reflexivity. Qed.

(** ** Fixed-width arithmetic *)

Lemma wrap8_small z : 0 <= z < 256 -> wrap8 z = z.
Proof. intros H. unfold wrap8. apply Z.mod_small. lia. Qed.


Lemma wrap32_small z : 0 <= z < 4294967296 -> wrap32 z = z.
Proof. intros H. unfold wrap32. apply Z.mod_small. lia. Qed.


Lemma wrap32_range z : 0 <= wrap32 z < 4294967296.
Proof. unfold wrap32. apply Z.mod_pos_bound. lia. Qed.

(** ** Frame capture *)

Lemma rx_before_last s udr0 :
  0 <= meterIdx s < 43 ->
  USART0_RX_vect udr0 s =
    Some (with_meterIdx (meterIdx s + 1)
            (with_meterBuf (<[Z.to_nat (meterIdx s) := wrap8 udr0]> (meterBuf s)) s)).
Proof.
  intros Hi. unfold USART0_RX_vect, METER_BUF_LEN.
  replace ((0 <=? meterIdx s) && (meterIdx s <? 44)) with true
    by (symmetry; apply andb_true_iff; split; [apply Z.leb_le | apply Z.ltb_lt]; lia).
  cbn [meterIdx with_meterIdx with_meterBuf].
  rewrite wrap8_small by lia.
  replace (meterIdx s + 1 =? 44) with false by (symmetry; apply Z.eqb_neq; lia).
  reflexivity.
Qed.

Lemma rx_last s udr0 :
  length (meterBuf s) = 44%nat ->
  meterIdx s = 43 ->
  USART0_RX_vect udr0 s =
    Some (with_meterIdx 0
            (with_frameReady (frameReady s || (wrap8 udr0 =? 0xDD))
               (with_meterBuf (<[43%nat := wrap8 udr0]> (meterBuf s)) s))).
Proof.
  intros Hlen Hi. unfold USART0_RX_vect, METER_BUF_LEN. rewrite Hi.
  cbn [andb Z.leb Z.ltb Z.compare Pos.compare Pos.compare_cont
       meterIdx meterBuf with_meterIdx with_meterBuf].
  change (wrap8 (43 + 1) =? 44) with true. cbn iota.
  unfold buf_get, IDX_FRAME_END.
  change (Z.to_nat 43) with 43%nat.
  rewrite list_lookup_insert_eq by lia.
  cbn [from_option id].
  destruct (wrap8 udr0 =? 0xDD); destruct (frameReady s) eqn:E;
    cbn [orb]; unfold with_frameReady, with_meterIdx, with_meterBuf; cbn;
    rewrite ?E; reflexivity.
Qed.

Lemma feed_app bs1 bs2 s :
  feed (bs1 ++ bs2) s =
    match feed bs1 s with Some s' => feed bs2 s' | None => None end.
Proof.
  revert s. induction bs1 as [|b bs1 IH]; intros s; cbn [feed app]; [reflexivity|].
  destruct (USART0_RX_vect b s); [apply IH | reflexivity].
Qed.

(** Bytes that do not complete the frame only fill the buffer and advance
    the cursor. *)
Lemma feed_partial bs : forall s,
  0 <= meterIdx s ->
  meterIdx s + Z.of_nat (length bs) <= 43 ->
  feed bs s =
    Some (with_meterIdx (meterIdx s + Z.of_nat (length bs))
            (with_meterBuf
               (list_inserts (Z.to_nat (meterIdx s)) (map wrap8 bs) (meterBuf s)) s)).
Proof.
  induction bs as [|b bs IH]; intros s H0 Hle.
  - cbn [feed length map list_inserts]. f_equal. destruct s; cbn.
    now rewrite Z.add_0_r.
  - cbn [length] in Hle. cbn [feed].
    rewrite rx_before_last by lia.
    rewrite IH; cbn [meterIdx meterBuf with_meterIdx with_meterBuf]; try lia.
    f_equal. cbn [length map list_inserts].
    replace (Z.to_nat (meterIdx s + 1)) with (S (Z.to_nat (meterIdx s))) by lia.
    rewrite list_insert_inserts_lt by lia.
    unfold with_meterIdx, with_meterBuf; cbn. f_equal. lia.
Qed.

Lemma frame_stored (bs buf : list Z) :
  length bs = 44%nat -> length buf = 44%nat ->
  <[43%nat := wrap8 (nth 43 bs 0)]> (list_inserts 0 (map wrap8 (take 43 bs)) buf)
  = map wrap8 bs.
Proof.
  intros Hbs Hbuf. apply list_eq. intros j.
  change (map wrap8) with (fmap (M:=list) wrap8).
  destruct (decide (j = 43%nat)) as [->|Hne].
  - rewrite list_lookup_insert_eq by (rewrite length_inserts; lia).
    rewrite list_lookup_fmap.
    destruct (nth_lookup_or_length bs 43 0) as [->|]; [reflexivity | lia].
  - rewrite list_lookup_insert_ne by congruence.
    rewrite list_lookup_fmap.
    destruct (decide (j < 43)%nat) as [Hlt|Hge].
    + rewrite list_lookup_inserts
        by (rewrite ?length_fmap, ?length_take; lia).
      rewrite Nat.sub_0_r, list_lookup_fmap, lookup_take_lt by lia.
      reflexivity.
    + rewrite list_lookup_inserts_ge
        by (rewrite ?length_fmap, ?length_take; lia).
      rewrite (proj2 (lookup_ge_None buf j)) by lia.
      rewrite (proj2 (lookup_ge_None bs j)) by lia.
      reflexivity.
Qed.

Lemma frame_last_byte (bs : list Z) :
  length bs = 44%nat -> bs = take 43 bs ++ [nth 43 bs 0].
Proof.
  intros Hbs.
  destruct (nth_lookup_or_length bs 43 0) as [Hl|]; [|lia].
  rewrite <- (take_drop 43 bs) at 1.
  rewrite (drop_S _ _ _ Hl), drop_ge by lia. reflexivity.
Qed.

(** A whole frame received from cursor zero: the buffer holds the frame,
    the cursor is back at zero, and the flag has been raised exactly when
    the sentinel matched. *)
Lemma feed_frame s bs :
  length (meterBuf s) = 44%nat -> meterIdx s = 0 -> length bs = 44%nat ->
  feed bs s =
    Some (with_meterIdx 0
            (with_frameReady (frameReady s || frame_valid bs)
               (with_meterBuf (map wrap8 bs) s))).
Proof.
  intros Hbuf Hidx Hbs.
  rewrite (frame_last_byte bs Hbs) at 1.
  rewrite feed_app, feed_partial by (rewrite ?length_take; lia).
  cbn [feed]. rewrite rx_last.
  - cbn [meterIdx meterBuf frameReady with_meterIdx with_meterBuf with_frameReady].
    rewrite Hidx. change (Z.to_nat 0) with 0%nat.
    rewrite frame_stored by assumption.
    reflexivity.
  - cbn [meterBuf with_meterIdx with_meterBuf]. rewrite length_inserts. exact Hbuf.
  - cbn [meterIdx with_meterIdx]. rewrite length_take. lia.
Qed.

Lemma buf_get_frame_end (bs : list Z) :
  length bs = 44%nat ->
  buf_get (map wrap8 bs) IDX_FRAME_END = wrap8 (nth 43 bs 0).
Proof.
  intros Hbs. unfold buf_get, IDX_FRAME_END. change (Z.to_nat 43) with 43%nat.
  change (map wrap8) with (fmap (M:=list) wrap8). rewrite list_lookup_fmap.
  destruct (nth_lookup_or_length bs 43 0) as [->|]; [reflexivity | lia].
Qed.

(** C2.  From cursor zero, the first 43 bytes of a frame leave the
    frame-ready flag as it was and only advance the cursor; the 44th byte
    stores the frame, resets the cursor to zero whatever the terminal byte
    is, and raises the flag exactly when the byte stored at offset 43 is
    0xDD.  In particular, with the flag initially clear, it is set after the
    frame if and only if the stored terminal byte equals 0xDD. *)
Theorem frame_ready_iff_sentinel (s : state) (bs : list Z) :
  length (meterBuf s) = 44%nat -> meterIdx s = 0 -> length bs = 44%nat ->
  (forall k, (k < 44)%nat ->
     exists sk, feed (take k bs) s = Some sk
                /\ frameReady sk = frameReady s /\ meterIdx sk = Z.of_nat k)
  /\ exists s', feed bs s = Some s'
       /\ meterIdx s' = 0
       /\ meterBuf s' = map wrap8 bs
       /\ frameReady s' =
            (frameReady s || (buf_get (meterBuf s') IDX_FRAME_END =? 0xDD))
       /\ (frameReady s = false ->
           (frameReady s' = true <-> buf_get (meterBuf s') IDX_FRAME_END = 0xDD)).
Proof.
  intros Hbuf Hidx Hbs. split.
  - intros k Hk. eexists. split.
    + apply feed_partial; rewrite ?length_take; lia.
    + cbn [frameReady meterIdx with_meterIdx with_meterBuf].
      rewrite length_take. split; [reflexivity | lia].
  - eexists. split; [apply feed_frame; assumption|].
    cbn [frameReady meterIdx meterBuf with_meterIdx with_meterBuf with_frameReady].
    rewrite buf_get_frame_end by assumption.
    split; [reflexivity|]. split; [reflexivity|]. split; [reflexivity|].
    intros Hclear. rewrite Hclear. cbn [orb]. unfold frame_valid.
    apply Z.eqb_eq.
Qed.

(** The example frame of the end-to-end scenario, and the same frame with a
    wrong terminal byte. *)
Lemma frame_ready_iff_sentinel_witness :
  (exists s', feed (repeat 0 43 ++ [0xDD]) init_state = Some s'
              /\ frameReady s' = true /\ meterIdx s' = 0)
  /\ (exists s', feed (repeat 0 43 ++ [0xDC]) init_state = Some s'
                 /\ frameReady s' = false /\ meterIdx s' = 0).
Proof.
  split.
  - destruct (frame_ready_iff_sentinel init_state (repeat 0 43 ++ [0xDD])
                eq_refl eq_refl eq_refl) as [_ (s' & Hf & Hi & Hb & Hr & _)].
    exists s'. rewrite Hr, Hb. repeat split; assumption.
  - destruct (frame_ready_iff_sentinel init_state (repeat 0 43 ++ [0xDC])
                eq_refl eq_refl eq_refl) as [_ (s' & Hf & Hi & Hb & Hr & _)].
    exists s'. rewrite Hr, Hb. repeat split; assumption.
Defined.

(** Frame after frame: the cursor is back at zero after each one, and the
    flag is set after a stream of whole frames exactly when it was set
    before or one of the frames ended in the sentinel. *)
Lemma feed_frames (fs : list (list Z)) : forall s,
  length (meterBuf s) = 44%nat -> meterIdx s = 0 ->
  Forall (fun f => length f = 44%nat) fs ->
  exists s', feed (concat fs) s = Some s'
    /\ meterIdx s' = 0 /\ length (meterBuf s') = 44%nat
    /\ frameReady s' = (frameReady s || existsb frame_valid fs).
Proof.
  induction fs as [|f fs IH]; intros s Hbuf Hidx Hall.
  - exists s. cbn. rewrite orb_false_r. auto.
  - inversion Hall as [|? ? Hf Hrest]; subst.
    cbn [concat]. rewrite feed_app, (feed_frame s f Hbuf Hidx Hf).
    destruct (IH (with_meterIdx 0
                    (with_frameReady (frameReady s || frame_valid f)
                       (with_meterBuf (map wrap8 f) s))))
      as (s' & Hfeed & Hi & Hl & Hr); try assumption; try reflexivity.
    + project. rewrite length_map. exact Hf.
    + exists s'. split; [exact Hfeed|]. split; [exact Hi|]. split; [exact Hl|].
      rewrite Hr. project. cbn [existsb]. rewrite orb_assoc. reflexivity.
Qed.

(** ** What each operation leaves alone *)

Lemma uart1_send_chars_eq chars : forall s,
  uart1_send_chars chars s = with_uart1_tx (uart1_tx s ++ chars) s.
Proof.
  induction chars as [|c chars IH]; intros s; cbn [uart1_send_chars].
  - rewrite app_nil_r. destruct s; reflexivity.
  - rewrite IH. unfold uart1_send_byte, with_uart1_tx; cbn.
    rewrite <- app_assoc. reflexivity.
Qed.

Lemma uart1_send_str_eq str s :
  uart1_send_str str s = with_uart1_tx (uart1_tx s ++ c_str str) s.
Proof. apply uart1_send_chars_eq. Qed.

(** The parts of the state each context owns. *)
Lemma gprs_fsm_frame s :
  meterBuf (gprs_fsm s) = meterBuf s /\ meterIdx (gprs_fsm s) = meterIdx s
  /\ frameReady (gprs_fsm s) = frameReady s
  /\ tick10ms (gprs_fsm s) = tick10ms s /\ millisCnt (gprs_fsm s) = millisCnt s
  /\ httpState (gprs_fsm s) = httpState s /\ httpTimer (gprs_fsm s) = httpTimer s
  /\ httpUrl (gprs_fsm s) = httpUrl s
  /\ meterKickTimer (gprs_fsm s) = meterKickTimer s
  /\ uart0_tx (gprs_fsm s) = uart0_tx s.
Proof.
  unfold gprs_fsm; rewrite ?uart1_send_str_eq.
  destruct (gprsReady s); [repeat split|].
  destruct (gprsState s); try destruct (_ <=? _); repeat split.
Qed.

Lemma http_fsm_frame s :
  meterBuf (http_fsm s) = meterBuf s /\ meterIdx (http_fsm s) = meterIdx s
  /\ tick10ms (http_fsm s) = tick10ms s /\ millisCnt (http_fsm s) = millisCnt s
  /\ gprsState (http_fsm s) = gprsState s /\ gprsTimer (http_fsm s) = gprsTimer s
  /\ gprsReady (http_fsm s) = gprsReady s
  /\ meterKickTimer (http_fsm s) = meterKickTimer s
  /\ uart0_tx (http_fsm s) = uart0_tx s.
Proof.
  unfold http_fsm, build_http_url; rewrite ?uart1_send_str_eq.
  destruct (negb (gprsReady s) || negb (frameReady s)); [repeat split|].
  destruct (httpState s); try destruct (_ <=? _); repeat split.
Qed.

Lemma poll_frame s :
  meterBuf (poll s) = meterBuf s /\ frameReady (poll s) = frameReady s
  /\ tick10ms (poll s) = tick10ms s /\ millisCnt (poll s) = millisCnt s
  /\ gprsState (poll s) = gprsState s /\ gprsTimer (poll s) = gprsTimer s
  /\ gprsReady (poll s) = gprsReady s
  /\ httpState (poll s) = httpState s /\ httpTimer (poll s) = httpTimer s
  /\ httpUrl (poll s) = httpUrl s
  /\ uart1_tx (poll s) = uart1_tx s
  /\ (meterIdx (poll s) = meterIdx s \/ meterIdx (poll s) = 0).
Proof.
  unfold poll. destruct (100 <=? _); repeat split; auto.
Qed.

Lemma tick_frame s :
  meterBuf (TIMER0_OVF_vect s) = meterBuf s
  /\ meterIdx (TIMER0_OVF_vect s) = meterIdx s
  /\ frameReady (TIMER0_OVF_vect s) = frameReady s
  /\ gprsState (TIMER0_OVF_vect s) = gprsState s
  /\ gprsTimer (TIMER0_OVF_vect s) = gprsTimer s
  /\ gprsReady (TIMER0_OVF_vect s) = gprsReady s
  /\ httpState (TIMER0_OVF_vect s) = httpState s
  /\ httpTimer (TIMER0_OVF_vect s) = httpTimer s
  /\ httpUrl (TIMER0_OVF_vect s) = httpUrl s
  /\ meterKickTimer (TIMER0_OVF_vect s) = meterKickTimer s
  /\ uart0_tx (TIMER0_OVF_vect s) = uart0_tx s
  /\ uart1_tx (TIMER0_OVF_vect s) = uart1_tx s
  /\ millisCnt (TIMER0_OVF_vect s) = wrap32 (millisCnt s + 10)
  /\ tick10ms (TIMER0_OVF_vect s) = wrap32 (tick10ms s + 1).
Proof. repeat split. Qed.

(** The receive interrupt, summarised: it never fails on a state that
    satisfies the cursor invariant, keeps the invariant, touches only the
    capture variables, and can raise but never clear the frame-ready flag. *)
Lemma rx_frame s udr0 :
  cursor_inv s ->
  exists s', USART0_RX_vect udr0 s = Some s'
    /\ cursor_inv s'
    /\ (frameReady s = true -> frameReady s' = true)
    /\ (frameReady s' = true -> frameReady s = true \/ wrap8 udr0 = 0xDD)
    /\ tick10ms s' = tick10ms s /\ millisCnt s' = millisCnt s
    /\ gprsState s' = gprsState s /\ gprsTimer s' = gprsTimer s
    /\ gprsReady s' = gprsReady s
    /\ httpState s' = httpState s /\ httpTimer s' = httpTimer s
    /\ httpUrl s' = httpUrl s
    /\ meterKickTimer s' = meterKickTimer s
    /\ uart0_tx s' = uart0_tx s /\ uart1_tx s' = uart1_tx s.
Proof.
  intros [Hlen Hidx].
  destruct (Z.eq_dec (meterIdx s) 43) as [E|E].
  - eexists. split; [apply rx_last; assumption|].
    unfold cursor_inv.
    cbn [meterBuf meterIdx frameReady with_meterIdx with_meterBuf with_frameReady].
    rewrite length_insert.
    repeat split; try assumption; try lia.
    + intros ->. reflexivity.
    + intros H. apply orb_true_iff in H. destruct H as [H|H]; [left; exact H|].
      right. apply Z.eqb_eq. exact H.
  - eexists. split; [apply rx_before_last; lia|].
    unfold cursor_inv.
    cbn [meterBuf meterIdx frameReady with_meterIdx with_meterBuf].
    rewrite length_insert.
    repeat split; try assumption; try lia; auto.
Qed.

(** ** The capture cursor stays inside the buffer *)

Lemma cursor_inv_init : cursor_inv init_state.
Proof. split; [reflexivity | cbn; lia]. Qed.

Lemma cursor_inv_tick s : cursor_inv s -> cursor_inv (TIMER0_OVF_vect s).
Proof. intros H. exact H. Qed.

Lemma cursor_inv_poll s : cursor_inv s -> cursor_inv (poll s).
Proof.
  intros [Hlen Hidx]. destruct (poll_frame s) as (Hb & _ & _ & _ & _ & _ & _ & _ & _ & _ & _ & Hi).
  unfold cursor_inv. rewrite Hb. split; [exact Hlen|].
  destruct Hi as [-> | ->]; lia.
Qed.

Lemma cursor_inv_gprs s : cursor_inv s -> cursor_inv (gprs_fsm s).
Proof.
  intros H. destruct (gprs_fsm_frame s) as (Hb & Hi & _).
  unfold cursor_inv. rewrite Hb, Hi. exact H.
Qed.

Lemma cursor_inv_http s : cursor_inv s -> cursor_inv (http_fsm s).
Proof.
  intros H. destruct (http_fsm_frame s) as (Hb & Hi & _).
  unfold cursor_inv. rewrite Hb, Hi. exact H.
Qed.

Lemma cursor_inv_step ev m m' :
  cursor_inv (st m) -> step ev m = Some m' -> cursor_inv (st m').
Proof.
  intros Hinv Hstep. destruct ev as [|udr0|]; cbn [step] in Hstep.
  - inversion Hstep; subst; cbn [st]. apply cursor_inv_tick, Hinv.
  - destruct (rx_frame (st m) udr0 Hinv) as (s' & Hrx & Hinv' & _).
    rewrite Hrx in Hstep. inversion Hstep; subst; cbn [st]. exact Hinv'.
  - inversion Hstep; subst.
    destruct (pc m); cbn [st];
      auto using cursor_inv_poll, cursor_inv_gprs, cursor_inv_http.
Qed.

Lemma reachable_cursor_inv m : reachable m -> cursor_inv (st m).
Proof.
  induction 1 as [|ev m m' _ IH Hstep].
  - exact cursor_inv_init.
  - exact (cursor_inv_step ev m m' IH Hstep).
Qed.

(** C9.  In every reachable state the capture cursor lies in 0..43 and the
    buffer has its 44 bytes; from such a state the receive handler performs
    its store inside the buffer (it never takes the out-of-bounds branch)
    and leaves the cursor in range again, and so does the main loop's
    periodic reset. *)
Theorem capture_cursor_in_bounds (m : machine) :
  reachable m ->
  cursor_inv (st m)
  /\ (forall udr0, exists s',
        USART0_RX_vect udr0 (st m) = Some s' /\ cursor_inv s')
  /\ cursor_inv (poll (st m)).
Proof.
  intros Hr. pose proof (reachable_cursor_inv m Hr) as Hinv.
  split; [exact Hinv|]. split.
  - intros udr0. destruct (rx_frame (st m) udr0 Hinv) as (s' & Hrx & Hinv' & _).
    exists s'. split; assumption.
  - apply cursor_inv_poll, Hinv.
Qed.

Lemma capture_cursor_in_bounds_witness :
  cursor_inv (st init_machine)
  /\ (forall udr0, exists s',
        USART0_RX_vect udr0 (st init_machine) = Some s' /\ cursor_inv s')
  /\ cursor_inv (poll (st init_machine)).
Proof. exact (capture_cursor_in_bounds init_machine reach_init). Defined.

(** ** Modem bring-up sequencer *)

Ltac gprs_cases s :=
  unfold gprs_fsm, millis; rewrite ?uart1_send_str_eq;
  destruct (gprsReady s) eqn:?;
  destruct (gprsState s) eqn:?;
  repeat match goal with
         | |- context [if ?c <=? ?d then _ else _] => destruct (c <=? d) eqn:?
         end;
  cbn [gprsState gprsTimer gprsReady millisCnt
       with_gprsState with_gprsTimer with_gprsReady with_uart1_tx gprs_rank].

Lemma gprs_fsm_rank s :
  gprs_rank (gprsState (gprs_fsm s)) = gprs_rank (gprsState s)
  \/ gprs_rank (gprsState (gprs_fsm s)) = S (gprs_rank (gprsState s)).
Proof.
  gprs_cases s;
    repeat match goal with H : gprsState s = _ |- _ => rewrite H end;
    cbn [gprs_rank]; auto.
Qed.

Lemma gprs_fsm_sticky s : gprsState s = GPRS_READY -> gprs_fsm s = s.
Proof. intros H. unfold gprs_fsm. rewrite H. destruct (gprsReady s); reflexivity. Qed.

Lemma gprs_fsm_done s : gprsReady s = true -> gprs_fsm s = s.
Proof. intros H. unfold gprs_fsm. rewrite H. reflexivity. Qed.

Lemma gprs_fsm_gated s :
  gprsState s <> GPRS_IDLE ->
  gprsState (gprs_fsm s) <> gprsState s ->
  COMMAND_DELAY_MS <= sub32 (millis s) (gprsTimer s).
Proof.
  intros Hidle Hmove. revert Hmove.
  gprs_cases s;
    repeat match goal with H : gprsState s = _ |- _ => rewrite H in * end;
    intros Hmove; try congruence;
    unfold millis; apply Z.leb_le; assumption.
Qed.

Lemma gprs_fsm_from_idle s :
  gprsReady s = false -> gprsState s = GPRS_IDLE ->
  gprs_fsm s =
    with_gprsState GPRS_AT
      (with_gprsTimer (millisCnt s)
         (with_uart1_tx (uart1_tx s ++ lit "AT" ++ CRLF) s)).
Proof.
  intros Hr Hs. unfold gprs_fsm, millis. rewrite Hr, Hs, uart1_send_str_eq.
  reflexivity.
Qed.

(** With its gate open a waiting state hands over to its successor. *)
Lemma gprs_fsm_fires s :
  gprsReady s = false ->
  gprsState s <> GPRS_READY ->
  gprsState s = GPRS_IDLE \/ COMMAND_DELAY_MS <= sub32 (millisCnt s) (gprsTimer s) ->
  gprs_rank (gprsState (gprs_fsm s)) = S (gprs_rank (gprsState s))
  /\ (gprsState (gprs_fsm s) <> GPRS_READY -> gprsTimer (gprs_fsm s) = millisCnt s)
  /\ (gprsReady (gprs_fsm s) = true <-> gprsState (gprs_fsm s) = GPRS_READY).
Proof.
  intros Hr Hnr Hgate.
  unfold gprs_fsm, millis. rewrite ?uart1_send_str_eq, Hr.
  destruct (gprsState s) eqn:Hs; try congruence;
    try (destruct Hgate as [Hi | Hg]; [discriminate|];
         apply Z.leb_le in Hg; rewrite Hg);
    project; rewrite ?Hr;
    repeat split; intros; try reflexivity; try discriminate; try congruence.
Qed.

(** ** Schedules *)

Lemma run_app evs1 evs2 m :
  run (evs1 ++ evs2) m =
    match run evs1 m with Some m' => run evs2 m' | None => None end.
Proof.
  revert m. induction evs1 as [|ev evs1 IH]; intros m; cbn [run app]; [reflexivity|].
  destruct (step ev m); [apply IH | reflexivity].
Qed.

Lemma run_loop_iter m :
  pc m = AtPoll ->
  run loop_iter m = Some (mkMachine AtPoll (main_loop_body (st m))).
Proof. intros Hpc. unfold loop_iter, main_loop_body. cbn. rewrite Hpc. reflexivity. Qed.

Lemma sub32_elapsed now t d :
  wrap32 now = wrap32 (t + d) -> 0 <= d < 2 ^ 32 -> sub32 now t = d.
Proof.
  intros Hnow Hd. unfold sub32, wrap32 in *.
  rewrite <- Zminus_mod_idemp_l, Hnow, Zminus_mod_idemp_l.
  replace (t + d - t) with d by lia.
  apply Z.mod_small. exact Hd.
Qed.

Lemma wrap32_add_l a b : wrap32 (wrap32 a + b) = wrap32 (a + b).
Proof. unfold wrap32. apply Zplus_mod_idemp_l. Qed.

Lemma wrap32_idem a : wrap32 (wrap32 a) = wrap32 a.
Proof. unfold wrap32. apply Zmod_mod. Qed.

(** Interrupts alone: they advance the clocks, may raise the frame-ready
    flag, and leave both sequencers and the main context where they are. *)
Lemma run_isr isr : forall m,
  forallb is_isr isr = true ->
  cursor_inv (st m) ->
  exists m', run isr m = Some m'
    /\ pc m' = pc m
    /\ cursor_inv (st m')
    /\ wrap32 (millisCnt (st m')) = wrap32 (millisCnt (st m) + 10 * ticks_in isr)
    /\ wrap32 (tick10ms (st m')) = wrap32 (tick10ms (st m) + ticks_in isr)
    /\ (frameReady (st m) = true -> frameReady (st m') = true)
    /\ gprsState (st m') = gprsState (st m)
    /\ gprsTimer (st m') = gprsTimer (st m)
    /\ gprsReady (st m') = gprsReady (st m)
    /\ httpState (st m') = httpState (st m)
    /\ httpTimer (st m') = httpTimer (st m)
    /\ httpUrl (st m') = httpUrl (st m)
    /\ meterKickTimer (st m') = meterKickTimer (st m)
    /\ uart0_tx (st m') = uart0_tx (st m)
    /\ uart1_tx (st m') = uart1_tx (st m).
Proof.
  induction isr as [|ev isr IH]; intros m Hisr Hinv.
  - exists m. cbn [run ticks_in]. rewrite Z.mul_0_r, !Z.add_0_r.
    repeat split; auto; apply Hinv.
  - cbn [forallb] in Hisr. apply andb_true_iff in Hisr. destruct Hisr as [Hev Hisr].
    destruct ev as [|udr0|]; [| |discriminate]; cbn [run step ticks_in].
    + destruct (IH (mkMachine (pc m) (TIMER0_OVF_vect (st m))) Hisr
                  (cursor_inv_tick _ Hinv))
        as (m' & Hrun & Hpc & Hinv' & Hms & Htk & Hfr & Hrest).
      exists m'. cbn [st pc] in *.
      split; [exact Hrun|]. split; [exact Hpc|]. split; [exact Hinv'|].
      split; [|split; [|split; [exact Hfr | exact Hrest]]].
      * rewrite Hms. unfold TIMER0_OVF_vect; project.
        rewrite wrap32_add_l. f_equal. lia.
      * rewrite Htk. unfold TIMER0_OVF_vect; project.
        rewrite wrap32_add_l. f_equal. lia.
    + destruct (rx_frame (st m) udr0 Hinv)
        as (s' & Hrx & Hinv1 & Hup & _ & Htk1 & Hms1 & Hg1 & Hg2 & Hg3
            & Hh1 & Hh2 & Hh3 & Hk1 & Hu0 & Hu1).
      rewrite Hrx.
      destruct (IH (mkMachine (pc m) s') Hisr Hinv1)
        as (m' & Hrun & Hpc & Hinv' & Hms & Htk & Hfr & Hrest).
      exists m'. cbn [st pc] in *.
      rewrite Hms1, Htk1, Hg1, Hg2, Hg3, Hh1, Hh2, Hh3, Hk1, Hu0, Hu1 in *.
      split; [exact Hrun|]. split; [exact Hpc|]. split; [exact Hinv'|].
      split; [exact Hms|]. split; [exact Htk|].
      split; [intros H; apply Hfr, Hup, H | exact Hrest].
Qed.

Lemma gprs_rank_ready g : gprs_rank g = 9%nat -> g = GPRS_READY.
Proof. destruct g; cbn; intros H; congruence. Qed.

Lemma gprs_rank_le g : (gprs_rank g <= 9)%nat.
Proof. destruct g; cbn; lia. Qed.

Lemma gprs_rank_inj g1 g2 : gprs_rank g1 = gprs_rank g2 -> g1 = g2.
Proof. destruct g1, g2; cbn; intros H; congruence. Qed.

(** One paced round advances the bring-up sequencer by exactly one state
    until READY, where it stays. *)
Lemma gprs_round isr m :
  pc m = AtPoll -> cursor_inv (st m) -> gprs_inv (st m) -> gprs_armed (st m) ->
  paced COMMAND_DELAY_MS isr ->
  exists m', run (isr ++ loop_iter) m = Some m'
    /\ pc m' = AtPoll /\ cursor_inv (st m') /\ gprs_inv (st m')
    /\ gprs_armed (st m')
    /\ gprs_rank (gprsState (st m'))
       = Nat.min 9 (S (gprs_rank (gprsState (st m)))).
Proof.
  intros Hpc Hinv Hgi Harm [Hisr Hpace].
  destruct (run_isr isr m Hisr Hinv)
    as (m1 & Hrun & Hpc1 & Hinv1 & Hms1 & _ & _ & Hgs1 & Hgt1 & Hgr1 & _).
  rewrite run_app, Hrun, run_loop_iter by congruence.
  eexists. split; [reflexivity|]. cbn [pc st]. unfold main_loop_body.
  set (s1 := st m1) in *. set (s2 := poll s1).
  destruct (poll_frame s1) as (_ & _ & _ & Hms2 & Hgs2 & Hgt2 & Hgr2 & _).
  fold s2 in Hms2, Hgs2, Hgt2, Hgr2.
  set (s3 := gprs_fsm s2).
  destruct (gprs_fsm_frame s2) as (_ & _ & _ & _ & Hms3 & _). fold s3 in Hms3.
  destruct (http_fsm_frame s3) as (_ & _ & _ & Hms4 & Hgs4 & Hgt4 & Hgr4 & _).
  assert (Hinv4 : cursor_inv (http_fsm s3))
    by (apply cursor_inv_http, cursor_inv_gprs, cursor_inv_poll, Hinv1).
  split; [reflexivity|]. split; [exact Hinv4|].
  unfold gprs_inv, gprs_armed. rewrite Hgs4, Hgt4, Hgr4, Hms4.
  destruct (decide (gprsState (st m) = GPRS_READY)) as [Hrdy|Hnr].
  - assert (Hs3 : s3 = s2)
      by (apply gprs_fsm_sticky; congruence).
    rewrite Hs3, Hgs2, Hgs1, Hgr2, Hgr1.
    split; [exact Hgi|]. rewrite Hrdy. cbn [gprs_rank].
    split; [auto | reflexivity].
  - assert (Hnot : gprsReady s2 = false).
    { rewrite Hgr2, Hgr1. destruct (gprsReady (st m)) eqn:E; [|reflexivity].
      exfalso. apply Hnr, Hgi, E. }
    destruct (gprs_fsm_fires s2 Hnot) as (Hrank & Htimer & Hready).
    + congruence.
    + destruct Harm as [Hi | [Hr | Ht]].
      * left. congruence.
      * congruence.
      * right. rewrite Hms2, Hgt2, Hgt1, Ht.
        rewrite (sub32_elapsed _ (millisCnt (st m)) (10 * ticks_in isr));
          [lia | exact Hms1 | unfold COMMAND_DELAY_MS in Hpace; lia].
    + fold s3 in Hrank, Htimer, Hready.
      split; [exact Hready|]. split.
      * destruct (decide (gprsState s3 = GPRS_READY)) as [E|E]; [auto|].
        right; right. rewrite (Htimer E). congruence.
      * rewrite Hrank, Hgs2, Hgs1.
        pose proof (gprs_rank_le (gprsState (st m))) as Hle.
        assert (gprs_rank (gprsState (st m)) <> 9%nat)
          by (intros E; apply Hnr, gprs_rank_ready, E).
        lia.
Qed.

Lemma gprs_rounds rounds : forall m,
  pc m = AtPoll -> cursor_inv (st m) -> gprs_inv (st m) -> gprs_armed (st m) ->
  Forall (paced COMMAND_DELAY_MS) rounds ->
  exists m', run (schedule rounds) m = Some m'
    /\ pc m' = AtPoll /\ cursor_inv (st m') /\ gprs_inv (st m')
    /\ gprs_armed (st m')
    /\ gprs_rank (gprsState (st m'))
       = Nat.min 9 (gprs_rank (gprsState (st m)) + length rounds).
Proof.
  induction rounds as [|isr rounds IH]; intros m Hpc Hinv Hgi Harm Hall.
  - exists m. cbn [schedule run length].
    pose proof (gprs_rank_le (gprsState (st m))).
    split; [reflexivity|]. split; [exact Hpc|]. split; [exact Hinv|].
    split; [exact Hgi|]. split; [exact Harm | lia].
  - inversion Hall as [|? ? Hp Hrest]; subst.
    destruct (gprs_round isr m Hpc Hinv Hgi Harm Hp)
      as (m1 & Hrun1 & Hpc1 & Hinv1 & Hgi1 & Harm1 & Hrank1).
    destruct (IH m1 Hpc1 Hinv1 Hgi1 Harm1 Hrest)
      as (m' & Hrun & Hpc' & Hinv' & Hgi' & Harm' & Hrank').
    exists m'. cbn [schedule]. rewrite app_assoc, run_app, Hrun1.
    split; [exact Hrun|]. split; [exact Hpc'|]. split; [exact Hinv'|].
    split; [exact Hgi'|]. split; [exact Harm'|].
    rewrite Hrank', Hrank1. cbn [length]. lia.
Qed.

(** *** The order in which the bring-up states are visited *)

Lemma step_gprs_rank ev m m' :
  step ev m = Some m' ->
  gprs_rank (gprsState (st m')) = gprs_rank (gprsState (st m))
  \/ gprs_rank (gprsState (st m')) = S (gprs_rank (gprsState (st m))).
Proof.
  intros Hstep. destruct ev as [|udr0|]; cbn [step] in Hstep.
  - inversion Hstep; subst; cbn [st]. left. reflexivity.
  - destruct (USART0_RX_vect udr0 (st m)) as [s'|] eqn:Hrx; [|discriminate].
    inversion Hstep; subst; cbn [st]. left. f_equal.
    unfold USART0_RX_vect in Hrx.
    destruct ((0 <=? meterIdx (st m)) && (meterIdx (st m) <? METER_BUF_LEN));
      [|discriminate].
    project. destruct (wrap8 (meterIdx (st m) + 1) =? 44).
    + destruct (buf_get _ IDX_FRAME_END =? 0xDD);
        inversion Hrx; subst; reflexivity.
    + inversion Hrx; subst; reflexivity.
  - inversion Hstep; subst. destruct (pc m); cbn [st].
    + left. f_equal. apply (poll_frame (st m)).
    + apply gprs_fsm_rank.
    + left. f_equal. apply (http_fsm_frame (st m)).
Qed.

Lemma gprs_order_drop g :
  drop (gprs_rank g) gprs_order = g :: drop (S (gprs_rank g)) gprs_order.
Proof. destruct g; reflexivity. Qed.

Lemma gprs_trace_cons evs m :
  exists rest, gprs_trace evs m = gprsState (st m) :: rest.
Proof. unfold gprs_trace. destruct evs; cbn [trace map]; eauto. Qed.

Lemma compress_head x r : exists l', compress (x :: r) = x :: l'.
Proof.
  revert x. induction r as [|y r IH]; intros x; cbn [compress]; [eauto|].
  destruct (decide (x = y)) as [->|]; [apply IH | eauto].
Qed.

Lemma compress_last l : last (compress l) = last l.
Proof.
  induction l as [|x [|y r] IH]; [reflexivity | reflexivity |].
  change (compress (x :: y :: r))
    with (if decide (x = y) then compress (y :: r) else x :: compress (y :: r)).
  rewrite last_cons_cons.
  destruct (decide (x = y)); [exact IH|].
  destruct (compress_head y r) as [l' Hl']. rewrite Hl' in *.
  rewrite last_cons_cons. exact IH.
Qed.

(** Along any schedule the run-compressed sequence of bring-up states is a
    contiguous stretch of the enumeration that begins at the starting
    state. *)
Lemma gprs_trace_ordered evs : forall m,
  exists n,
    compress (gprs_trace evs m)
    = take (S n) (drop (gprs_rank (gprsState (st m))) gprs_order)
    /\ (gprs_rank (gprsState (st m)) + n <= 9)%nat.
Proof.
  pose proof gprs_rank_le as Hle.
  assert (Hone : forall g,
            [g] = take 1 (drop (gprs_rank g) gprs_order))
    by (intros g; rewrite gprs_order_drop; reflexivity).
  induction evs as [|ev evs IH]; intros m.
  - exists 0%nat. unfold gprs_trace; cbn [trace map compress].
    split; [apply Hone | specialize (Hle (gprsState (st m))); lia].
  - unfold gprs_trace. cbn [trace].
    destruct (step ev m) as [m'|] eqn:Hstep.
    + fold (gprs_trace evs m'). cbn [map].
      destruct (IH m') as (n' & Hc & Hn').
      destruct (gprs_trace_cons evs m') as [rest Hrest].
      fold (gprs_trace evs m'). rewrite Hrest in *.
      change (compress (gprsState (st m) :: gprsState (st m') :: rest))
        with (if decide (gprsState (st m) = gprsState (st m'))
              then compress (gprsState (st m') :: rest)
              else gprsState (st m) :: compress (gprsState (st m') :: rest)).
      destruct (step_gprs_rank ev m m' Hstep) as [Hsame | Hnext].
      * apply gprs_rank_inj in Hsame.
        destruct (decide (gprsState (st m) = gprsState (st m'))); [|congruence].
        exists n'. rewrite Hc, Hsame. split; [reflexivity|]. rewrite <- Hsame. exact Hn'.
      * destruct (decide (gprsState (st m) = gprsState (st m'))) as [E|_].
        { rewrite E in Hnext. lia. }
        exists (S n'). rewrite Hc, Hnext, (gprs_order_drop (gprsState (st m))).
        split; [reflexivity | lia].
    + exists 0%nat. cbn [map compress].
      split; [apply Hone | specialize (Hle (gprsState (st m))); lia].
Qed.

Lemma trace_last evs : forall m m',
  run evs m = Some m' -> last (trace evs m) = Some m'.
Proof.
  induction evs as [|ev evs IH]; intros m m' Hrun; cbn [run trace] in *.
  - inversion Hrun; subst. reflexivity.
  - destruct (step ev m) as [m1|]; [|discriminate].
    specialize (IH m1 m' Hrun).
    destruct (trace evs m1) as [|x l] eqn:E; [discriminate|].
    rewrite last_cons_cons. exact IH.
Qed.

Lemma gprs_order_prefix_ready n :
  (n <= 9)%nat -> last (take (S n) gprs_order) = Some GPRS_READY -> n = 9%nat.
Proof.
  intros Hn. do 10 (destruct n as [|n]; [cbn; congruence|]). lia.
Qed.

Lemma gprs_inv_init : gprs_inv init_state.
Proof. split; discriminate. Qed.

Lemma gprs_armed_init : gprs_armed init_state.
Proof. left. reflexivity. Qed.

(** *** Progress of a served bring-up *)

Lemma sub32_tick ms t e :
  sub32 ms t = wrap32 (10 * e) ->
  sub32 (wrap32 (ms + 10)) t = wrap32 (10 * (e + 1)).
Proof.
  unfold sub32, wrap32. intros H.
  rewrite Zminus_mod_idemp_l.
  replace (ms + 10 - t) with (ms - t + 10) by lia.
  rewrite <- Zplus_mod_idemp_l, H, Zplus_mod_idemp_l.
  f_equal. lia.
Qed.

Lemma sub32_self t : sub32 t t = wrap32 (10 * 0).
Proof. unfold sub32. rewrite Z.sub_diag. reflexivity. Qed.

Lemma wrap32_exact e K d :
  0 <= e -> 0 <= K -> d + 10 * K < 2 ^ 32 -> 10 * e < d + 10 * K ->
  wrap32 (10 * e) = 10 * e.
Proof. intros. apply wrap32_small. lia. Qed.

Lemma gprs_progress_fsm K s T g :
  0 <= K -> COMMAND_DELAY_MS + 10 * K < 2 ^ 32 ->
  gprs_progress K s T g -> gprs_progress K (gprs_fsm s) T 0.
Proof.
  intros HK Hbig ((Hg0 & HgK) & Hcases).
  split; [lia|].
  destruct Hcases as [(Hr & Hs) | [(Hr & Hs & HT) | (Hr & Hn0 & Hn9 & e & Hge & Hlt & Hclk & HT)]].
  - left. unfold gprs_fsm. rewrite Hr. auto.
  - right. right. unfold gprs_fsm. rewrite Hr, Hs, ?uart1_send_str_eq. project.
    split; [exact Hr|]. split; [discriminate|]. split; [discriminate|].
    exists 0. unfold COMMAND_DELAY_MS in *. cbn [gprs_rank].
    split; [lia|]. split; [lia|]. split; [apply sub32_self | lia].
  - assert (Hex : sub32 (millis s) (gprsTimer s) = 10 * e).
    { rewrite Hclk. apply (wrap32_exact e K COMMAND_DELAY_MS); lia. }
    unfold gprs_fsm. rewrite Hr, ?uart1_send_str_eq.
    destruct (gprsState s) eqn:Hs; try congruence;
      (destruct (COMMAND_DELAY_MS <=? sub32 _ _) eqn:Hd;
       [ apply Z.leb_le in Hd; rewrite Hex in Hd
       | apply Z.leb_gt in Hd; rewrite Hex in Hd;
         right; right; rewrite Hs; split; [exact Hr|];
         split; [exact Hn0|]; split; [exact Hn9|];
         exists e; split; [lia|]; split; [lia|];
         split; [exact Hclk | exact HT] ]);
      project;
      try (right; right; split; [exact Hr|];
           split; [discriminate|]; split; [discriminate|];
           exists 0; unfold COMMAND_DELAY_MS in *; cbn [gprs_rank] in *;
           split; [lia|]; split; [lia|]; split; [apply sub32_self | lia]).
    left. split; reflexivity.
Qed.

Lemma gprs_progress_same K s s' T g :
  millisCnt s' = millisCnt s -> gprsState s' = gprsState s ->
  gprsTimer s' = gprsTimer s -> gprsReady s' = gprsReady s ->
  gprs_progress K s T g -> gprs_progress K s' T g.
Proof.
  intros Hms Hgs Hgt Hgr H. unfold gprs_progress, millis in *.
  rewrite Hms, Hgs, Hgt, Hgr. exact H.
Qed.

Lemma gprs_progress_tick K s T g :
  g + 1 <= K ->
  gprs_progress K s T g -> gprs_progress K (TIMER0_OVF_vect s) (T + 1) (g + 1).
Proof.
  intros HgK ((Hg0 & _) & Hcases).
  destruct (tick_frame s)
    as (_ & _ & _ & Hgs & Hgt & Hgr & _ & _ & _ & _ & _ & _ & Hms & _).
  unfold gprs_progress, millis. rewrite Hgs, Hgt, Hgr, Hms.
  split; [lia|].
  destruct Hcases as [H | [(Hr & Hs & HT) | (Hr & Hn0 & Hn9 & e & Hge & Hlt & Hclk & HT)]].
  - left. exact H.
  - right. left. repeat split; [exact Hr | exact Hs | lia].
  - right. right. split; [exact Hr|]. split; [exact Hn0|]. split; [exact Hn9|].
    exists (e + 1). split; [lia|]. split; [lia|].
    split; [apply sub32_tick; exact Hclk | lia].
Qed.

(** A served bring-up: the run is defined and the progress bound holds at
    its end. *)
Lemma gprs_progress_run K :
  0 <= K -> COMMAND_DELAY_MS + 10 * K < 2 ^ 32 ->
  forall evs m T g,
    cursor_inv (st m) -> gprs_progress K (st m) T g ->
    served AtGprs K (pc m) g evs = true ->
    exists m' g',
      run evs m = Some m' /\ gprs_progress K (st m') (T + ticks_in evs) g'.
Proof.
  intros HK Hbig.
  induction evs as [|ev evs IH]; intros m T g Hinv Hp Hsv.
  - exists m, g. cbn [run ticks_in]. rewrite Z.add_0_r. auto.
  - destruct ev as [|udr0|]; cbn [served] in Hsv; cbn [run step ticks_in].
    + apply andb_true_iff in Hsv. destruct Hsv as [HgK Hsv].
      apply Z.leb_le in HgK.
      replace (T + (1 + ticks_in evs)) with (T + 1 + ticks_in evs) by lia.
      apply (IH (mkMachine (pc m) (TIMER0_OVF_vect (st m))) (T + 1) (g + 1));
        [apply cursor_inv_tick, Hinv | apply gprs_progress_tick; assumption
        | exact Hsv].
    + destruct (rx_frame (st m) udr0 Hinv)
        as (s' & Hrx & Hinv' & _ & _ & _ & Hms & Hgs & Hgt & Hgr & _).
      rewrite Hrx.
      apply (IH (mkMachine (pc m) s') T g);
        [exact Hinv' | exact (gprs_progress_same K _ _ T g Hms Hgs Hgt Hgr Hp)
        | exact Hsv].
    + destruct (pc m) eqn:Hpc; cbn [next_phase same_phase] in Hsv.
      * destruct (poll_frame (st m)) as (_ & _ & _ & Hms & Hgs & Hgt & Hgr & _).
        apply (IH (mkMachine AtGprs (poll (st m))) T g);
          [apply cursor_inv_poll, Hinv
          | exact (gprs_progress_same K _ _ T g Hms Hgs Hgt Hgr Hp) | exact Hsv].
      * apply (IH (mkMachine AtHttp (gprs_fsm (st m))) T 0);
          [apply cursor_inv_gprs, Hinv
          | apply (gprs_progress_fsm K (st m) T g); assumption | exact Hsv].
      * destruct (http_fsm_frame (st m)) as (_ & _ & _ & Hms & Hgs & Hgt & Hgr & _).
        apply (IH (mkMachine AtPoll (http_fsm (st m))) T g);
          [apply cursor_inv_http, Hinv
          | exact (gprs_progress_same K _ _ T g Hms Hgs Hgt Hgr Hp) | exact Hsv].
Qed.

(** Start-up plus enough served time ends in READY. *)
Lemma gprs_served_reaches_ready K evs :
  0 <= K -> COMMAND_DELAY_MS + 10 * K < 2 ^ 32 ->
  served AtGprs K AtPoll 0 evs = true ->
  8 * COMMAND_DELAY_MS + 90 * K <= 10 * ticks_in evs ->
  exists m', run evs init_machine = Some m'
    /\ gprsState (st m') = GPRS_READY /\ gprsReady (st m') = true.
Proof.
  intros HK Hbig Hsv Hlong.
  assert (H0 : gprs_progress K (st init_machine) 0 0).
  { split; [lia|]. right. left. repeat split. lia. }
  destruct (gprs_progress_run K HK Hbig evs init_machine 0 0
              cursor_inv_init H0 Hsv) as (m' & g' & Hrun & (Hg & Hcases)).
  exists m'. split; [exact Hrun|]. rewrite Z.add_0_l in Hcases.
  destruct Hcases as [(Hr & Hs) | [(Hr & Hs & HT) | (Hr & Hn0 & Hn9 & e & Hge & Hlt & Hclk & HT)]].
  - auto.
  - unfold COMMAND_DELAY_MS in *. lia.
  - exfalso. unfold COMMAND_DELAY_MS in *.
    destruct (gprsState (st m')); cbn [gprs_rank] in HT; try congruence; lia.
Qed.

(** C3.  Along every schedule from start-up the bring-up states are
    visited in the order of the enumeration: the sequence of states, with
    repeated neighbours collapsed, is an initial stretch of the ten states
    idle, AT, ATE0, CPIN, CREG, CSQ, APN, ATTACH, NETOPEN, ready, so no state
    is entered twice and no transition goes backwards; a single service call
    keeps the state or moves to its successor.  In READY a service call
    returns the state unchanged, output included.  All ten states are
    visited, and the machine ends in READY, on every schedule that keeps
    the sequencer served and lasts long enough: whatever the interleaving
    of interrupts and main-loop steps, if never more than [K] ticks pass
    without a call of [gprs_fsm] and the schedule has 1600 + 9 K ticks or
    more (a main loop that spins many times per tick, or once per tick,
    included).  So do nine rounds that each let the command delay pass. *)
Theorem gprs_visits_states_in_order :
  (forall evs, exists n,
      compress (gprs_trace evs init_machine) = take (S n) gprs_order)
  /\ (forall s,
        gprs_rank (gprsState (gprs_fsm s)) = gprs_rank (gprsState s)
        \/ gprs_rank (gprsState (gprs_fsm s)) = S (gprs_rank (gprsState s)))
  /\ (forall s, gprsState s = GPRS_READY -> gprs_fsm s = s)
  /\ (forall K evs,
        0 <= K -> COMMAND_DELAY_MS + 10 * K < 2 ^ 32 ->
        served AtGprs K AtPoll 0 evs = true ->
        8 * COMMAND_DELAY_MS + 90 * K <= 10 * ticks_in evs ->
        exists m',
          run evs init_machine = Some m'
          /\ gprsState (st m') = GPRS_READY
          /\ gprsReady (st m') = true
          /\ compress (gprs_trace evs init_machine) = gprs_order)
  /\ (forall rounds,
        length rounds = 9%nat ->
        Forall (paced COMMAND_DELAY_MS) rounds ->
        exists m',
          run (schedule rounds) init_machine = Some m'
          /\ gprsState (st m') = GPRS_READY
          /\ gprsReady (st m') = true
          /\ compress (gprs_trace (schedule rounds) init_machine) = gprs_order).
Proof.
  assert (Hprefix : forall evs, exists n,
             compress (gprs_trace evs init_machine) = take (S n) gprs_order
             /\ (n <= 9)%nat).
  { intros evs. destruct (gprs_trace_ordered evs init_machine) as (n & Hc & Hn).
    exists n. split; [exact Hc | cbn in Hn; lia]. }
  assert (Hall10 : forall evs m',
            run evs init_machine = Some m' -> gprsState (st m') = GPRS_READY ->
            compress (gprs_trace evs init_machine) = gprs_order).
  { intros evs m' Hrun Hrank.
    destruct (Hprefix evs) as (n & Hc & Hn).
    assert (Hlast : last (take (S n) gprs_order) = Some GPRS_READY).
    { rewrite <- Hc, compress_last. unfold gprs_trace.
      change (map (fun m0 => gprsState (st m0)) (trace evs init_machine))
        with ((fun m0 => gprsState (st m0)) <$> trace evs init_machine).
      rewrite fmap_last, (trace_last _ _ _ Hrun). cbn. congruence. }
    rewrite Hc, (gprs_order_prefix_ready n Hn Hlast). reflexivity. }
  split; [|split; [exact gprs_fsm_rank | split; [exact gprs_fsm_sticky|split]]].
  - intros evs. destruct (Hprefix evs) as (n & Hc & _). eauto.
  - intros K evs HK Hbig Hsv Hlong.
    destruct (gprs_served_reaches_ready K evs HK Hbig Hsv Hlong)
      as (m' & Hrun & Hs & Hr).
    exists m'. split; [exact Hrun|]. split; [exact Hs|]. split; [exact Hr|].
    exact (Hall10 evs m' Hrun Hs).
  - intros rounds Hlen Hall.
    destruct (gprs_rounds rounds init_machine eq_refl cursor_inv_init
                gprs_inv_init gprs_armed_init Hall)
      as (m' & Hrun & _ & _ & Hgi & _ & Hrank).
    rewrite Hlen in Hrank. cbn in Hrank. apply gprs_rank_ready in Hrank.
    exists m'. split; [exact Hrun|]. split; [exact Hrank|].
    split; [apply Hgi, Hrank|].
    exact (Hall10 (schedule rounds) m' Hrun Hrank).
Qed.

(** A main loop that runs once per tick brings the modem up in 1609
    ticks. *)
Lemma gprs_visits_states_in_order_witness :
  exists m',
    run (concat (repeat (EvTick :: loop_iter) 1609)) init_machine = Some m'
    /\ gprsState (st m') = GPRS_READY
    /\ gprsReady (st m') = true
    /\ compress (gprs_trace (concat (repeat (EvTick :: loop_iter) 1609))
                   init_machine)
       = gprs_order.
Proof.
  apply (proj1 (proj2 (proj2 (proj2 gprs_visits_states_in_order))) 1).
  - lia.
  - vm_compute. reflexivity.
  - vm_compute. reflexivity.
  - vm_compute. discriminate.
Defined.


(** C4 as stated fails on the first transition: at start-up the machine is
    in idle with no time elapsed, and the first service call already moves
    it to the AT state. *)
Lemma gprs_idle_exit_ungated :
  gprsState init_state = GPRS_IDLE
  /\ sub32 (millis init_state) (gprsTimer init_state) = 0
  /\ sub32 (millis init_state) (gprsTimer init_state) < COMMAND_DELAY_MS
  /\ gprsState (gprs_fsm init_state) = GPRS_AT.
Proof. split; [|split; [|split]]; reflexivity. Qed.

(** C4, amended.  Every transition out of a state other than idle happens
    only when [now - gprsTimer], computed modulo 2^32, is at least the
    command delay; the transition out of idle is taken by the first service
    call whatever the time; and every transition into a state other than
    READY stamps [gprsTimer] with the time of the call. *)
Theorem gprs_transitions_gated_after_idle (s : state) :
  (gprsState s <> GPRS_IDLE ->
   gprsState (gprs_fsm s) <> gprsState s ->
   COMMAND_DELAY_MS <= sub32 (millis s) (gprsTimer s))
  /\ (gprsReady s = false -> gprsState s = GPRS_IDLE ->
      gprsState (gprs_fsm s) = GPRS_AT)
  /\ (gprsState (gprs_fsm s) <> gprsState s ->
      gprsState (gprs_fsm s) <> GPRS_READY ->
      gprsTimer (gprs_fsm s) = millis s).
Proof.
  split; [exact (gprs_fsm_gated s)|]. split.
  - intros Hr Hs. rewrite gprs_fsm_from_idle by assumption. reflexivity.
  - unfold gprs_fsm, millis. rewrite ?uart1_send_str_eq.
    destruct (gprsReady s); [intros; congruence|].
    destruct (gprsState s) eqn:Hs; try destruct (_ <=? _); project;
      rewrite ?Hs; intros; try reflexivity; congruence.
Qed.

Lemma gprs_transitions_gated_after_idle_witness :
  COMMAND_DELAY_MS
  <= sub32 (millis (with_millisCnt 2000 (with_gprsState GPRS_AT init_state)))
           (gprsTimer (with_millisCnt 2000 (with_gprsState GPRS_AT init_state)))
  /\ gprsState (gprs_fsm init_state) = GPRS_AT.
Proof.
  split.
  - apply (proj1 (gprs_transitions_gated_after_idle
                    (with_millisCnt 2000 (with_gprsState GPRS_AT init_state))));
      vm_compute; discriminate.
  - apply (proj1 (proj2 (gprs_transitions_gated_after_idle init_state)));
      reflexivity.
Defined.

(** ** Uplink sequencer *)

Lemma http_fsm_waits s :
  gprsReady s = false \/ frameReady s = false -> http_fsm s = s.
Proof.
  intros [H | H]; unfold http_fsm; rewrite H; cbn [negb orb];
    [reflexivity | rewrite orb_true_r; reflexivity].
Qed.

Lemma http_fsm_gated s :
  httpState s <> HTTP_IDLE ->
  httpState (http_fsm s) <> httpState s ->
  http_delay_of (httpState s) <= sub32 (millis s) (httpTimer s).
Proof.
  unfold http_fsm. rewrite ?uart1_send_str_eq.
  destruct (negb (gprsReady s) || negb (frameReady s)); [congruence|].
  destruct (httpState s) eqn:Hs; [congruence | ..];
    cbn [http_delay_of];
    (destruct (_ <=? _) eqn:Hg; project;
     [intros; apply Z.leb_le; exact Hg | congruence]).
Qed.

(** With both flags set, an uplink state whose gate is open (idle has
    none) hands over to its successor. *)
Lemma http_fsm_fires s :
  gprsReady s = true -> frameReady s = true ->
  httpState s = HTTP_IDLE
  \/ http_delay_of (httpState s) <= sub32 (millisCnt s) (httpTimer s) ->
  httpState (http_fsm s) = http_next (httpState s)
  /\ frameReady (http_fsm s)
     = (if decide (httpState s = HTTP_ACTION) then false else true)
  /\ httpTimer (http_fsm s)
     = (if decide (httpState s = HTTP_ACTION \/ httpState s = HTTP_COMPLETE)
        then httpTimer s else millisCnt s).
Proof.
  intros Hg Hf Hgate. unfold http_fsm, millis, build_http_url.
  rewrite ?uart1_send_str_eq, Hg, Hf. cbn [negb orb].
  destruct (httpState s) eqn:Hs; cbn [http_delay_of] in Hgate;
    try (destruct Hgate as [Hi | Hgate]; [discriminate|];
         apply Z.leb_le in Hgate; rewrite Hgate);
    project; rewrite ?Hf; cbn [http_next];
    repeat split; try reflexivity;
    repeat case_decide; try reflexivity; try tauto; try congruence;
    try (exfalso; intuition congruence).
Qed.

(** C5.  A service call with either flag false returns the whole state
    unchanged (so nothing is emitted); the machine leaves idle only on a
    call at which both flags are true, and then it does leave. *)
Theorem http_start_needs_both_flags (s : state) :
  (gprsReady s = false \/ frameReady s = false -> http_fsm s = s)
  /\ (httpState s = HTTP_IDLE -> httpState (http_fsm s) <> HTTP_IDLE ->
      gprsReady s = true /\ frameReady s = true)
  /\ (httpState s = HTTP_IDLE -> gprsReady s = true -> frameReady s = true ->
      httpState (http_fsm s) = HTTP_TERM).
Proof.
  split; [exact (http_fsm_waits s)|]. split.
  - intros Hidle Hleft.
    destruct (gprsReady s) eqn:Hg; destruct (frameReady s) eqn:Hf; auto;
      exfalso; apply Hleft; rewrite http_fsm_waits; auto.
  - intros Hidle Hg Hf.
    destruct (http_fsm_fires s Hg Hf (or_introl Hidle)) as [Hn _].
    rewrite Hn, Hidle. reflexivity.
Qed.

Lemma http_start_needs_both_flags_witness :
  http_fsm init_state = init_state
  /\ httpState (http_fsm (with_frameReady true (with_gprsReady true init_state)))
     = HTTP_TERM.
Proof.
  split.
  - apply (proj1 (http_start_needs_both_flags init_state)). left. reflexivity.
  - apply (proj2 (proj2 (http_start_needs_both_flags
                           (with_frameReady true (with_gprsReady true init_state)))));
      reflexivity.
Defined.

(** ** Delay comparisons across counter roll-over *)

Lemma wrap16_wrap32 z : wrap16 (wrap32 z) = wrap16 z.
Proof.
  unfold wrap16, wrap32. apply Z.mod_mod_divide.
  exists (2 ^ 16). reflexivity.
Qed.

(** The poll block's subtraction: a 32-bit difference truncated to 16
    bits, against a 16-bit copy of the start tick. *)
Lemma poll_elapsed start d :
  0 <= d < 2 ^ 16 ->
  wrap16 (wrap32 (wrap32 (start + d) - wrap16 start)) = d.
Proof.
  intros Hd. rewrite wrap16_wrap32. unfold wrap16 at 1.
  rewrite Zminus_mod. fold (wrap16 (wrap32 (start + d))). fold (wrap16 (wrap16 start)).
  rewrite wrap16_wrap32. unfold wrap16. rewrite Zmod_mod, <- Zminus_mod.
  replace (start + d - start) with d by lia. apply Z.mod_small. exact Hd.
Qed.

Lemma gprs_rank_neq s :
  gprs_rank (gprsState (gprs_fsm s)) = S (gprs_rank (gprsState s)) ->
  gprsState (gprs_fsm s) <> gprsState s.
Proof. intros H E. rewrite E in H. lia. Qed.

Lemma http_next_neq h : http_next h <> h.
Proof. destruct h; discriminate. Qed.

(** C8.  Let [d] milliseconds (ticks, for the poll block) have passed since
    the start timestamp, the counter being free to wrap around in between.
    The difference each gate computes is [d] itself, so a waiting bring-up
    state moves on exactly when [d] has reached the command delay, a waiting
    uplink state exactly when [d] has reached its delay, and the poll block
    fires exactly when [d] has reached 100 ticks. *)
Theorem delay_gates_wraparound_safe (s : state) (start d : Z) :
  0 <= d < 2 ^ 32 ->
  sub32 (wrap32 (start + d)) start = d
  /\ (gprsTimer s = start -> millisCnt s = wrap32 (start + d) ->
      gprsReady s = false ->
      gprsState s <> GPRS_IDLE -> gprsState s <> GPRS_READY ->
      (gprsState (gprs_fsm s) <> gprsState s <-> COMMAND_DELAY_MS <= d))
  /\ (httpTimer s = start -> millisCnt s = wrap32 (start + d) ->
      gprsReady s = true -> frameReady s = true ->
      httpState s <> HTTP_IDLE ->
      (httpState (http_fsm s) <> httpState s <-> http_delay_of (httpState s) <= d))
  /\ (d < 2 ^ 16 ->
      meterKickTimer s = wrap16 start -> tick10ms s = wrap32 (start + d) ->
      (100 <= d ->
       meterKickTimer (poll s) = wrap16 (tick10ms s)
       /\ meterIdx (poll s) = 0
       /\ uart0_tx (poll s) = uart0_tx s ++ [0xCC; 0x91; 0xDD])
      /\ (d < 100 -> poll s = s)).
Proof.
  intros Hd.
  assert (Hsub : forall now, now = wrap32 (start + d) -> sub32 now start = d).
  { intros now ->. apply sub32_elapsed; [apply wrap32_idem | exact Hd]. }
  split; [apply Hsub; reflexivity|]. split; [|split].
  - intros Ht Hnow Hr Hni Hnr. split.
    + intros Hmove. pose proof (gprs_fsm_gated s Hni Hmove) as Hg.
      unfold millis in Hg. rewrite Ht, (Hsub _ Hnow) in Hg. exact Hg.
    + intros Hg. apply gprs_rank_neq.
      apply (gprs_fsm_fires s Hr Hnr). right. rewrite Ht, (Hsub _ Hnow). exact Hg.
  - intros Ht Hnow Hg Hf Hni. split.
    + intros Hmove. pose proof (http_fsm_gated s Hni Hmove) as Hgate.
      unfold millis in Hgate. rewrite Ht, (Hsub _ Hnow) in Hgate. exact Hgate.
    + intros Hgate.
      destruct (http_fsm_fires s Hg Hf) as [Hn _].
      * right. rewrite Ht, (Hsub _ Hnow). exact Hgate.
      * rewrite Hn. apply http_next_neq.
  - intros Hd16 Hk Htk. unfold poll. rewrite Hk, Htk, poll_elapsed by lia.
    split; intros Hcmp.
    + replace (100 <=? d) with true by (symmetry; apply Z.leb_le; exact Hcmp).
      unfold uart0_send. project. rewrite <- !app_assoc. repeat split.
    + replace (100 <=? d) with false by (symmetry; apply Z.leb_gt; exact Hcmp).
      reflexivity.
Qed.

(** A start timestamp 1000 ms before the 32-bit counter wraps, read
    2000 ms later when the counter shows 1000: the bring-up gate is open. *)
Lemma delay_gates_wraparound_safe_witness :
  sub32 (wrap32 (4294966296 + 2000)) 4294966296 = 2000
  /\ gprsState
       (gprs_fsm (with_millisCnt 1000
                    (with_gprsTimer 4294966296
                       (with_gprsState GPRS_AT init_state))))
     <> GPRS_AT.
Proof.
  assert (Hd : 0 <= 2000 < 2 ^ 32)
    by (vm_compute; split; [discriminate | reflexivity]).
  destruct (delay_gates_wraparound_safe
              (with_millisCnt 1000
                 (with_gprsTimer 4294966296 (with_gprsState GPRS_AT init_state)))
              4294966296 2000 Hd) as (Hsub & Hgprs & _).
  split; [exact Hsub|].
  apply Hgprs; try reflexivity; try discriminate.
Defined.

(** *** One uplink cycle, round by round *)

Lemma http_rank_next h :
  h <> HTTP_COMPLETE -> http_rank (http_next h) = S (http_rank h).
Proof. destruct h; cbn; congruence. Qed.

Lemma http_rank_complete h : http_rank h = 6%nat -> h = HTTP_COMPLETE.
Proof. destruct h; cbn; congruence. Qed.

Lemma http_delay_le h : http_delay_of h <= HTTP_DELAY_MS * 2.
Proof. destruct h; cbn; unfold HTTP_DELAY_MS; lia. Qed.

(** One paced round with both flags set advances the uplink sequencer by
    one state; the step out of ACTION clears the frame-ready flag. *)
Lemma http_round isr m :
  pc m = AtPoll -> cursor_inv (st m) ->
  gprsReady (st m) = true -> frameReady (st m) = true ->
  http_armed (st m) -> httpState (st m) <> HTTP_COMPLETE ->
  paced (HTTP_DELAY_MS * 2) isr ->
  exists m', run (isr ++ loop_iter) m = Some m'
    /\ pc m' = AtPoll /\ cursor_inv (st m') /\ gprsReady (st m') = true
    /\ http_armed (st m')
    /\ httpState (st m') = http_next (httpState (st m))
    /\ frameReady (st m')
       = (if decide (httpState (st m) = HTTP_ACTION) then false else true).
Proof.
  intros Hpc Hinv Hg Hf Harm Hnc [Hisr Hpace].
  destruct (run_isr isr m Hisr Hinv)
    as (m1 & Hrun & Hpc1 & Hinv1 & Hms1 & _ & Hf1 & _ & _ & Hgr1 & Hhs1 & Hht1 & _).
  rewrite run_app, Hrun, run_loop_iter by congruence.
  eexists. split; [reflexivity|]. cbn [pc st]. unfold main_loop_body.
  set (s1 := st m1) in *. set (s2 := poll s1).
  destruct (poll_frame s1)
    as (_ & Hf2 & _ & Hms2 & _ & _ & Hgr2 & Hhs2 & Hht2 & _).
  fold s2 in Hf2, Hms2, Hgr2, Hhs2, Hht2.
  assert (Hg2 : gprsReady s2 = true) by congruence.
  rewrite (gprs_fsm_done s2 Hg2).
  assert (Hfr2 : frameReady s2 = true) by (rewrite Hf2; auto).
  destruct (http_fsm_frame s2) as (_ & _ & _ & Hms3 & _ & _ & Hgr3 & _).
  destruct (http_fsm_fires s2 Hg2 Hfr2) as (Hnext & Hfr3 & Htimer).
  { destruct Harm as [Hi | [Hc | Ht]].
    - left. congruence.
    - congruence.
    - right. rewrite Hms2, Hht2, Hht1, Ht.
      rewrite (sub32_elapsed _ (millisCnt (st m)) (10 * ticks_in isr));
        [ pose proof (http_delay_le (httpState s2)); lia
        | exact Hms1
        | unfold HTTP_DELAY_MS in Hpace; lia ]. }
  rewrite Hhs2, Hhs1 in Hnext, Hfr3, Htimer.
  split; [reflexivity|].
  split; [apply cursor_inv_http, cursor_inv_poll, Hinv1|].
  split; [congruence|]. split; [|split; [exact Hnext | exact Hfr3]].
  unfold http_armed. rewrite Hnext, Htimer, Hms3.
  destruct (decide (httpState (st m) = HTTP_ACTION \/ httpState (st m) = HTTP_COMPLETE))
    as [[E | E] | _].
  - right; left. rewrite E. reflexivity.
  - congruence.
  - right; right. reflexivity.
Qed.

Lemma http_rounds rounds : forall m,
  pc m = AtPoll -> cursor_inv (st m) -> gprsReady (st m) = true ->
  http_armed (st m) ->
  (http_rank (httpState (st m)) + length rounds <= 6)%nat ->
  (rounds <> [] -> frameReady (st m) = true) ->
  Forall (paced (HTTP_DELAY_MS * 2)) rounds ->
  exists m', run (schedule rounds) m = Some m'
    /\ pc m' = AtPoll /\ cursor_inv (st m') /\ gprsReady (st m') = true
    /\ http_armed (st m')
    /\ http_rank (httpState (st m'))
       = (http_rank (httpState (st m)) + length rounds)%nat
    /\ (rounds <> [] ->
        frameReady (st m')
        = negb (Nat.eqb (http_rank (httpState (st m'))) 6)).
Proof.
  induction rounds as [|isr rounds IH];
    intros m Hpc Hinv Hg Harm Hlen Hfr Hall.
  - exists m. cbn [schedule run length]. rewrite Nat.add_0_r.
    repeat split; try assumption; try apply Hinv; try apply Harm. congruence.
  - cbn [length] in Hlen. inversion Hall as [|? ? Hp Hrest]; subst.
    assert (Hnc : httpState (st m) <> HTTP_COMPLETE)
      by (intros E; rewrite E in Hlen; cbn in Hlen; lia).
    destruct (http_round isr m Hpc Hinv Hg (Hfr ltac:(discriminate)) Harm Hnc Hp)
      as (m1 & Hrun1 & Hpc1 & Hinv1 & Hg1 & Harm1 & Hs1 & Hf1).
    assert (Hr1 : http_rank (httpState (st m1)) = S (http_rank (httpState (st m))))
      by (rewrite Hs1; apply http_rank_next, Hnc).
    destruct (IH m1 Hpc1 Hinv1 Hg1 Harm1) as (m' & Hrun & Hpc' & Hinv' & Hg' & Harm' & Hr' & Hf').
    + lia.
    + intros Hne. rewrite Hf1.
      destruct (decide (httpState (st m) = HTTP_ACTION)) as [E|_]; [|reflexivity].
      rewrite E in Hlen. cbn in Hlen. destruct rounds; [congruence | cbn in Hlen; lia].
    + exact Hrest.
    + exists m'. cbn [schedule]. rewrite app_assoc, run_app, Hrun1.
      split; [exact Hrun|]. split; [exact Hpc'|]. split; [exact Hinv'|].
      split; [exact Hg'|]. split; [exact Harm'|].
      split; [rewrite Hr', Hr1; cbn [length]; lia|].
      intros _. destruct rounds as [|isr' rounds'].
      * cbn [schedule run] in Hrun. inversion Hrun; subst m'.
        rewrite Hf1, Hr1.
        destruct (decide (httpState (st m) = HTTP_ACTION)) as [E|E].
        -- rewrite E. reflexivity.
        -- destruct (httpState (st m)); cbn; congruence.
      * apply Hf'. discriminate.
Qed.

(** While the frame-ready flag is clear and no sentinel byte arrives, no
    schedule, however long, changes the uplink sequencer. *)
Lemma http_stuck evs : forall m,
  cursor_inv (st m) -> frameReady (st m) = false -> no_sentinel evs = true ->
  exists m', run evs m = Some m'
    /\ cursor_inv (st m') /\ frameReady (st m') = false
    /\ httpState (st m') = httpState (st m)
    /\ httpTimer (st m') = httpTimer (st m).
Proof.
  induction evs as [|ev evs IH]; intros m Hinv Hf Hns.
  - exists m. cbn [run]. repeat split; auto; apply Hinv.
  - destruct ev as [|udr0|]; cbn [no_sentinel] in Hns; cbn [run step].
    + destruct (IH (mkMachine (pc m) (TIMER0_OVF_vect (st m)))
                  (cursor_inv_tick _ Hinv) Hf Hns) as (m' & Hrun & Hrest).
      exists m'. split; [exact Hrun | exact Hrest].
    + apply andb_true_iff in Hns. destruct Hns as [Hb Hns].
      destruct (rx_frame (st m) udr0 Hinv)
        as (s' & Hrx & Hinv1 & _ & Hdown & _ & _ & _ & _ & _ & Hhs & Hht & _).
      rewrite Hrx.
      assert (Hf1 : frameReady s' = false).
      { destruct (frameReady s') eqn:E; [|reflexivity].
        destruct (Hdown eq_refl) as [H | H]; [congruence|].
        rewrite H in Hb. discriminate. }
      destruct (IH (mkMachine (pc m) s') Hinv1 Hf1 Hns)
        as (m' & Hrun & Hinv' & Hf' & Hhs' & Hht').
      exists m'. cbn [st] in *. rewrite <- Hhs, <- Hht. auto.
    + set (m1 := match pc m with
                 | AtPoll => mkMachine AtGprs (poll (st m))
                 | AtGprs => mkMachine AtHttp (gprs_fsm (st m))
                 | AtHttp => mkMachine AtPoll (http_fsm (st m))
                 end).
      assert (H1 : cursor_inv (st m1) /\ frameReady (st m1) = false
                   /\ httpState (st m1) = httpState (st m)
                   /\ httpTimer (st m1) = httpTimer (st m)).
      { subst m1. destruct (pc m); cbn [st].
        - destruct (poll_frame (st m)) as (_ & Hf2 & _ & _ & _ & _ & _ & Hhs & Hht & _).
          rewrite Hf2, Hhs, Hht. auto using cursor_inv_poll.
        - destruct (gprs_fsm_frame (st m)) as (_ & _ & Hf2 & _ & _ & Hhs & Hht & _).
          rewrite Hf2, Hhs, Hht. auto using cursor_inv_gprs.
        - rewrite http_fsm_waits by auto. auto. }
      destruct H1 as (Hinv1 & Hf1 & Hhs & Hht).
      destruct (IH m1 Hinv1 Hf1 Hns) as (m' & Hrun & Hinv' & Hf' & Hhs' & Hht').
      exists m'. rewrite <- Hhs, <- Hht. auto.
Qed.

Lemma run_reachable evs : forall m m',
  reachable m -> run evs m = Some m' -> reachable m'.
Proof.
  induction evs as [|ev evs IH]; intros m m' Hr Hrun; cbn [run] in Hrun.
  - congruence.
  - destruct (step ev m) as [m1|] eqn:Hstep; [|discriminate].
    exact (IH m1 m' (reach_step ev m m1 Hr Hstep) Hrun).
Qed.

(** C1 as stated fails.  After bring-up, one valid frame and one uplink
    cycle the machine is in COMPLETE with the frame-ready flag cleared by
    the cycle itself; from there every schedule that brings no sentinel
    byte, of whatever length and duration, leaves it in COMPLETE. *)
Lemma http_stays_in_complete :
  exists m,
    run one_cycle init_machine = Some m
    /\ httpState (st m) = HTTP_COMPLETE
    /\ gprsReady (st m) = true /\ frameReady (st m) = false
    /\ forall evs, no_sentinel evs = true ->
         exists m', run evs m = Some m' /\ httpState (st m') = HTTP_COMPLETE.
Proof.
  destruct (run one_cycle init_machine) as [m|] eqn:Hrun;
    [|vm_compute in Hrun; discriminate].
  exists m. split; [reflexivity|].
  assert (Hm : cursor_inv (st m))
    by (apply reachable_cursor_inv, (run_reachable one_cycle init_machine);
        [apply reach_init | exact Hrun]).
  assert (Hs : httpState (st m) = HTTP_COMPLETE
               /\ gprsReady (st m) = true /\ frameReady (st m) = false).
  { vm_compute in Hrun. inversion Hrun; subst m. repeat split. }
  destruct Hs as (Hs & Hg & Hf).
  repeat split; try assumption.
  intros evs Hns.
  destruct (http_stuck evs m Hm Hf Hns) as (m' & Hrun' & _ & _ & Hs' & _).
  exists m'. split; [exact Hrun' | congruence].
Qed.

Lemma http_fsm_complete_returns s :
  httpState s = HTTP_COMPLETE -> gprsReady s = true -> frameReady s = true ->
  HTTP_DELAY_MS <= sub32 (millis s) (httpTimer s) ->
  http_fsm s = with_httpState HTTP_IDLE s.
Proof.
  intros Hs Hg Hf Hgate. unfold http_fsm. rewrite Hs, Hg, Hf. cbn [negb orb].
  apply Z.leb_le in Hgate. rewrite Hgate. reflexivity.
Qed.

(** [http_fsm] writes the frame-ready flag in one place only. *)
Lemma http_fsm_flag_change s :
  frameReady (http_fsm s) <> frameReady s ->
  httpState s = HTTP_ACTION /\ httpState (http_fsm s) = HTTP_COMPLETE
  /\ frameReady (http_fsm s) = false.
Proof.
  unfold http_fsm, build_http_url. rewrite ?uart1_send_str_eq.
  destruct (negb (gprsReady s) || negb (frameReady s)); [congruence|].
  destruct (httpState s); try destruct (_ <=? _); project;
    intros H; try congruence; repeat split.
Qed.

(** *** Progress of a served uplink cycle *)

Lemma http_progress_same K s s' T g :
  millisCnt s' = millisCnt s -> httpState s' = httpState s ->
  httpTimer s' = httpTimer s -> gprsReady s' = true -> frameReady s' = true ->
  http_progress K s T g -> http_progress K s' T g.
Proof.
  intros Hms Hhs Hht Hgr Hfr (Hg & _ & _ & H). unfold http_progress, millis in *.
  rewrite Hms, Hhs, Hht. auto.
Qed.

Lemma http_progress_tick K s T g :
  g + 1 <= K ->
  http_progress K s T g -> http_progress K (TIMER0_OVF_vect s) (T + 1) (g + 1).
Proof.
  intros HgK ((Hg0 & _) & Hgr & Hfr & Hcases).
  destruct (tick_frame s)
    as (_ & _ & Hf & _ & _ & Hr & Hhs & Hht & _ & _ & _ & _ & Hms & _).
  unfold http_progress, millis. rewrite Hf, Hr, Hhs, Hht, Hms.
  split; [lia|]. split; [exact Hgr|]. split; [exact Hfr|].
  destruct Hcases as [(Hs & HT) | (Hn0 & Hn6 & e & Hge & Hlt & Hclk & HT)].
  - left. split; [exact Hs | lia].
  - right. split; [exact Hn0|]. split; [exact Hn6|].
    exists (e + 1). split; [lia|]. split; [lia|].
    split; [apply sub32_tick; exact Hclk | lia].
Qed.

(** A call of [http_fsm] keeps the progress bound or is the step from
    ACTION to COMPLETE. *)
Lemma http_progress_fsm K s T g :
  0 <= K -> HTTP_DELAY_MS * 2 + 10 * K < 2 ^ 32 ->
  http_progress K s T g ->
  http_progress K (http_fsm s) T 0
  \/ (httpState s = HTTP_ACTION /\ httpState (http_fsm s) = HTTP_COMPLETE
      /\ frameReady (http_fsm s) = false).
Proof.
  intros HK Hbig ((Hg0 & HgK) & Hgr & Hfr & Hcases).
  unfold http_progress, http_fsm, build_http_url, millis.
  rewrite Hgr, Hfr, ?uart1_send_str_eq.
  cbn [negb orb].
  destruct Hcases as [(Hs & HT) | (Hn0 & Hn6 & e & Hge & Hlt & Hclk & HT)].
  - left. rewrite Hs. project. split; [lia|]. split; [exact Hgr|].
    split; [exact Hfr|]. right. split; [discriminate|]. split; [discriminate|].
    exists 0. cbn [http_delay_of http_rank Z.of_nat Pos.of_succ_nat Pos.succ]. unfold HTTP_DELAY_MS in *.
    split; [lia|]. split; [lia|]. split; [apply sub32_self | lia].
  - assert (Hd2 : http_delay_of (httpState s) <= HTTP_DELAY_MS * 2)
      by (destruct (httpState s); cbn [http_delay_of]; unfold HTTP_DELAY_MS; lia).
    unfold millis in Hclk.
    assert (Hex : sub32 (millisCnt s) (httpTimer s) = 10 * e).
    { rewrite Hclk. apply (wrap32_exact e K (HTTP_DELAY_MS * 2)); lia. }
    destruct (httpState s) eqn:Hs; try congruence;
      (destruct (_ <=? sub32 _ _) eqn:Hd;
       [ apply Z.leb_le in Hd; rewrite Hex in Hd
       | apply Z.leb_gt in Hd; rewrite Hex in Hd;
         left; split; [lia|]; split; [exact Hgr|]; split; [exact Hfr|];
         right; rewrite Hs; split; [exact Hn0|]; split; [exact Hn6|];
         exists e; cbn [http_delay_of http_rank Z.of_nat Pos.of_succ_nat Pos.succ] in *; unfold HTTP_DELAY_MS in *;
         split; [lia|]; split; [lia|]; split; [exact Hclk | exact HT] ]);
      project;
      try (left; split; [lia|]; split; [exact Hgr|]; split; [exact Hfr|];
           right; split; [discriminate|]; split; [discriminate|];
           exists 0; cbn [http_delay_of http_rank Z.of_nat Pos.of_succ_nat Pos.succ] in *;
           unfold HTTP_DELAY_MS in *;
           split; [lia|]; split; [lia|]; split; [apply sub32_self | lia]).
    right. repeat split.
Qed.

(** A served uplink cycle reaches COMPLETE, and clears the flag there,
    once enough time has passed. *)
Lemma http_progress_run K :
  0 <= K -> HTTP_DELAY_MS * 2 + 10 * K < 2 ^ 32 ->
  forall evs m T g,
    cursor_inv (st m) -> http_progress K (st m) T g ->
    served AtHttp K (pc m) g evs = true ->
    6 * HTTP_DELAY_MS + 60 * K <= 10 * (T + ticks_in evs) ->
    exists evs1 evs2 m1,
      evs = evs1 ++ evs2 /\ run evs1 m = Some m1
      /\ cursor_inv (st m1)
      /\ httpState (st m1) = HTTP_COMPLETE /\ frameReady (st m1) = false.
Proof.
  intros HK Hbig.
  assert (Hcons : forall ev evs m m1,
            step ev m = Some m1 ->
            (exists evs1 evs2 m2,
               evs = evs1 ++ evs2 /\ run evs1 m1 = Some m2
               /\ cursor_inv (st m2)
               /\ httpState (st m2) = HTTP_COMPLETE /\ frameReady (st m2) = false) ->
            exists evs1 evs2 m2,
              ev :: evs = evs1 ++ evs2 /\ run evs1 m = Some m2
              /\ cursor_inv (st m2)
              /\ httpState (st m2) = HTTP_COMPLETE /\ frameReady (st m2) = false).
  { intros ev evs m m1 Hstep (evs1 & evs2 & m2 & -> & Hrun & Hrest).
    exists (ev :: evs1), evs2, m2. split; [reflexivity|].
    cbn [run]. rewrite Hstep. split; [exact Hrun | exact Hrest]. }
  induction evs as [|ev evs IH]; intros m T g Hinv Hp Hsv Hlong.
  - exfalso. cbn [ticks_in] in Hlong.
    destruct Hp as ((Hg0 & HgK) & _ & _ & [(Hs & HT) | (Hn0 & Hn6 & e & Hge & Hlt & Hclk & HT)]).
    + unfold HTTP_DELAY_MS in *. lia.
    + destruct (httpState (st m)); cbn [http_delay_of http_rank Z.of_nat Pos.of_succ_nat Pos.succ] in *;
        unfold HTTP_DELAY_MS in *; try congruence; lia.
  - destruct ev as [|udr0|]; cbn [served] in Hsv; cbn [ticks_in] in Hlong.
    + apply andb_true_iff in Hsv. destruct Hsv as [HgK Hsv].
      apply Z.leb_le in HgK.
      apply (Hcons EvTick evs m (mkMachine (pc m) (TIMER0_OVF_vect (st m)))
               eq_refl).
      apply (IH (mkMachine (pc m) (TIMER0_OVF_vect (st m))) (T + 1) (g + 1));
        [apply cursor_inv_tick, Hinv | apply http_progress_tick; assumption
        | exact Hsv | lia].
    + destruct (rx_frame (st m) udr0 Hinv)
        as (s' & Hrx & Hinv' & Hkeep & _ & _ & Hms & _ & _ & Hgr & Hhs & Hht & _).
      apply (Hcons (EvRx udr0) evs m (mkMachine (pc m) s'));
        [cbn [step]; rewrite Hrx; reflexivity|].
      destruct Hp as (Hg & Hgr0 & Hfr0 & Hc).
      apply (IH (mkMachine (pc m) s') T g);
        [exact Hinv'
        | apply (http_progress_same K (st m) s' T g Hms Hhs Hht);
          [congruence | apply Hkeep, Hfr0 | exact (conj Hg (conj Hgr0 (conj Hfr0 Hc)))]
        | exact Hsv | exact Hlong].
    + destruct (pc m) eqn:Hpc; cbn [next_phase same_phase] in Hsv.
      * destruct (poll_frame (st m))
          as (_ & Hf & _ & Hms & _ & _ & Hgr & Hhs & Hht & _).
        apply (Hcons EvMain evs m (mkMachine AtGprs (poll (st m))));
          [cbn [step]; rewrite Hpc; reflexivity|].
        destruct Hp as (Hg & Hgr0 & Hfr0 & Hc).
        apply (IH (mkMachine AtGprs (poll (st m))) T g);
          [apply cursor_inv_poll, Hinv
          | apply (http_progress_same K (st m) _ T g Hms Hhs Hht);
            [congruence | congruence | exact (conj Hg (conj Hgr0 (conj Hfr0 Hc)))]
          | exact Hsv | exact Hlong].
      * apply (Hcons EvMain evs m (mkMachine AtHttp (gprs_fsm (st m))));
          [cbn [step]; rewrite Hpc; reflexivity|].
        assert (Hsame : gprs_fsm (st m) = st m).
        { unfold gprs_fsm. destruct Hp as (_ & -> & _). reflexivity. }
        apply (IH (mkMachine AtHttp (gprs_fsm (st m))) T g);
          [apply cursor_inv_gprs, Hinv | cbn [st]; rewrite Hsame; exact Hp
          | exact Hsv | exact Hlong].
      * destruct (http_progress_fsm K (st m) T g HK Hbig Hp) as [Hp' | (_ & Hc & Hf)].
        -- apply (Hcons EvMain evs m (mkMachine AtPoll (http_fsm (st m))));
             [cbn [step]; rewrite Hpc; reflexivity|].
           apply (IH (mkMachine AtPoll (http_fsm (st m))) T 0);
             [apply cursor_inv_http, Hinv | exact Hp' | exact Hsv | exact Hlong].
        -- exists [EvMain], evs, (mkMachine AtPoll (http_fsm (st m))).
           split; [reflexivity|]. cbn [run step]. rewrite Hpc.
           split; [reflexivity|]. cbn [st].
           split; [apply cursor_inv_http, Hinv|]. split; assumption.
Qed.

Lemma http_fsm_next s :
  httpState (http_fsm s) = httpState s
  \/ httpState (http_fsm s) = http_next (httpState s).
Proof.
  unfold http_fsm, build_http_url. rewrite ?uart1_send_str_eq.
  destruct (negb (gprsReady s) || negb (frameReady s)); [left; reflexivity|].
  destruct (httpState s) eqn:Hs; try destruct (_ <=? _); project;
    rewrite ?Hs; cbn [http_next]; auto.
Qed.

(** C1, amended.  From idle with both flags set, the uplink cycle reaches
    COMPLETE on every schedule that keeps the sequencer served and lasts
    long enough: whatever the interleaving of interrupts and main-loop
    steps, if never more than [K] ticks pass without a call of [http_fsm]
    and the schedule has 900 + 6 K ticks or more, some initial part of it
    ends in COMPLETE with the flag clear: it was cleared by the step out of
    ACTION.  A call keeps the state or moves to its successor, so TERM,
    INIT, CID, URL and ACTION are passed in this order; six rounds that
    each let twice the HTTP delay pass go through them one per round, the
    flag staying set.  From COMPLETE the machine does not move for as long
    as no frame with a valid sentinel arrives, and it returns to idle on a
    service call at which the flag is set again and the COMPLETE gate is
    open.  A service call changes the flag only in the step from ACTION to
    COMPLETE. *)
Theorem http_cycle_reaches_complete (m : machine) :
  cursor_inv (st m) ->
  gprsReady (st m) = true -> frameReady (st m) = true ->
  httpState (st m) = HTTP_IDLE ->
  (forall K evs,
     0 <= K -> HTTP_DELAY_MS * 2 + 10 * K < 2 ^ 32 ->
     served AtHttp K (pc m) 0 evs = true ->
     6 * HTTP_DELAY_MS + 60 * K <= 10 * ticks_in evs ->
     exists evs1 evs2 m1,
       evs = evs1 ++ evs2 /\ run evs1 m = Some m1
       /\ httpState (st m1) = HTTP_COMPLETE
       /\ frameReady (st m1) = false
       /\ forall evs', no_sentinel evs' = true ->
            exists m'', run evs' m1 = Some m''
                        /\ httpState (st m'') = HTTP_COMPLETE)
  /\ (forall s,
        httpState (http_fsm s) = httpState s
        \/ httpState (http_fsm s) = http_next (httpState s))
  /\ (forall rounds,
        pc m = AtPoll ->
        length rounds = 6%nat -> Forall (paced (HTTP_DELAY_MS * 2)) rounds ->
        (forall k, (k < 6)%nat ->
           exists mk, run (schedule (take k rounds)) m = Some mk
                      /\ http_rank (httpState (st mk)) = k
                      /\ frameReady (st mk) = true)
        /\ (exists m', run (schedule rounds) m = Some m'
              /\ httpState (st m') = HTTP_COMPLETE
              /\ frameReady (st m') = false
              /\ forall evs, no_sentinel evs = true ->
                   exists m'', run evs m' = Some m''
                               /\ httpState (st m'') = HTTP_COMPLETE))
  /\ (forall s,
        httpState s = HTTP_COMPLETE ->
        gprsReady s = true -> frameReady s = true ->
        HTTP_DELAY_MS <= sub32 (millis s) (httpTimer s) ->
        httpState (http_fsm s) = HTTP_IDLE)
  /\ (forall s,
        frameReady (http_fsm s) <> frameReady s ->
        httpState s = HTTP_ACTION /\ httpState (http_fsm s) = HTTP_COMPLETE
        /\ frameReady (http_fsm s) = false).
Proof.
  intros Hinv Hg Hf Hidle.
  assert (Harm : http_armed (st m)) by (left; exact Hidle).
  split; [|split; [exact http_fsm_next
                  |split; [|split; [|exact http_fsm_flag_change]]]].
  - intros K evs HK Hbig Hsv Hlong.
    assert (H0 : http_progress K (st m) 0 0).
    { split; [lia|]. split; [exact Hg|]. split; [exact Hf|].
      left. split; [exact Hidle | lia]. }
    destruct (http_progress_run K HK Hbig evs m 0 0 Hinv H0 Hsv)
      as (evs1 & evs2 & m1 & Heq & Hrun & Hinv1 & Hs1 & Hf1);
      [rewrite Z.add_0_l; exact Hlong|].
    exists evs1, evs2, m1. split; [exact Heq|]. split; [exact Hrun|].
    split; [exact Hs1|]. split; [exact Hf1|].
    intros evs' Hns.
    destruct (http_stuck evs' m1 Hinv1 Hf1 Hns) as (m'' & Hrun' & _ & _ & Hs' & _).
    exists m''. split; [exact Hrun' | congruence].
  - intros rounds Hpc Hlen Hall. split.
    + intros k Hk.
      destruct (http_rounds (take k rounds) m Hpc Hinv Hg Harm)
        as (mk & Hrun & _ & _ & _ & _ & Hrank & Hfr).
      * rewrite Hidle, length_take. cbn. lia.
      * intros _. exact Hf.
      * apply Forall_take, Hall.
      * rewrite Hidle, length_take in Hrank. cbn [http_rank] in Hrank.
        replace (0 + k `min` length rounds)%nat with k in Hrank by lia.
        exists mk. split; [exact Hrun|]. split; [exact Hrank|].
        destruct k as [|k].
        -- cbn [take schedule run] in Hrun. inversion Hrun; subst. exact Hf.
        -- rewrite Hfr, Hrank.
           ++ do 5 (destruct k as [|k]; [reflexivity|]). lia.
           ++ destruct rounds; [discriminate Hlen | discriminate].
    + destruct (http_rounds rounds m Hpc Hinv Hg Harm)
        as (m' & Hrun & _ & Hinv' & _ & _ & Hrank & Hfr).
      * rewrite Hidle, Hlen. cbn. lia.
      * intros _. exact Hf.
      * exact Hall.
      * rewrite Hidle, Hlen in Hrank. cbn in Hrank.
        assert (Hf' : frameReady (st m') = false).
        { rewrite Hfr, Hrank; [reflexivity|]. destruct rounds; discriminate. }
        exists m'. split; [exact Hrun|].
        split; [apply http_rank_complete, Hrank|]. split; [exact Hf'|].
        intros evs Hns.
        destruct (http_stuck evs m' Hinv' Hf' Hns) as (m'' & Hrun' & _ & _ & Hs' & _).
        exists m''. split; [exact Hrun'|].
        rewrite Hs'. apply http_rank_complete, Hrank.
  - intros s Hs Hgr Hfr Hgate.
    rewrite (http_fsm_complete_returns s Hs Hgr Hfr Hgate). reflexivity.
Qed.

(** After bring-up and one valid frame, a main loop that runs once per
    tick completes the cycle within 906 ticks. *)
Lemma http_cycle_reaches_complete_witness :
  exists m0 evs1 evs2 m1,
    run (bringup_schedule ++ map EvRx valid_frame) init_machine = Some m0
    /\ concat (repeat (EvTick :: loop_iter) 906) = evs1 ++ evs2
    /\ run evs1 m0 = Some m1
    /\ httpState (st m1) = HTTP_COMPLETE
    /\ frameReady (st m1) = false.
Proof.
  destruct (run (bringup_schedule ++ map EvRx valid_frame) init_machine)
    as [m0|] eqn:Hrun0; [|vm_compute in Hrun0; discriminate].
  assert (H0 : pc m0 = AtPoll /\ cursor_inv (st m0)
               /\ gprsReady (st m0) = true /\ frameReady (st m0) = true
               /\ httpState (st m0) = HTTP_IDLE).
  { vm_compute in Hrun0. inversion Hrun0; subst m0.
    repeat split; vm_compute; congruence. }
  destruct H0 as (Hpc & Hinv & Hg & Hf & Hidle).
  destruct (proj1 (http_cycle_reaches_complete m0 Hinv Hg Hf Hidle) 1
              (concat (repeat (EvTick :: loop_iter) 906)))
    as (evs1 & evs2 & m1 & Heq & Hrun & Hs & Hfr & _).
  - lia.
  - vm_compute. reflexivity.
  - rewrite Hpc. vm_compute. reflexivity.
  - vm_compute. discriminate.
  - exists m0, evs1, evs2, m1. repeat split; assumption.
Defined.


(** *** The COMPLETE gate and counter roll-over *)

Lemma run_tick_and_loop m :
  pc m = AtPoll -> run (EvTick :: loop_iter) m = Some (tick_and_loop m).
Proof.
  intros Hpc. cbn [run step]. rewrite run_loop_iter by exact Hpc. reflexivity.
Qed.

Lemma run_rx bs : forall m,
  run (map EvRx bs) m =
    match feed bs (st m) with
    | Some s' => Some (mkMachine (pc m) s')
    | None => None
    end.
Proof.
  induction bs as [|b bs IH]; intros m; cbn [map run step feed].
  - destruct m; reflexivity.
  - destruct (USART0_RX_vect b (st m)); [|reflexivity].
    rewrite IH. reflexivity.
Qed.

(** Idle time in COMPLETE: any number of tick-and-loop rounds with the
    frame-ready flag clear keeps the sequencers where they are; only the
    clock moves. *)
Lemma idle_rounds n : forall m,
  reachable m -> pc m = AtPoll ->
  gprsReady (st m) = true -> frameReady (st m) = false ->
  meterIdx (st m) = 0 ->
  let m' := N.iter n tick_and_loop m in
  reachable m' /\ pc m' = AtPoll
  /\ gprsReady (st m') = true /\ frameReady (st m') = false
  /\ meterIdx (st m') = 0
  /\ httpState (st m') = httpState (st m)
  /\ httpTimer (st m') = httpTimer (st m)
  /\ wrap32 (millisCnt (st m')) = wrap32 (millisCnt (st m) + 10 * Z.of_N n).
Proof.
  intros m Hr Hpc Hg Hf Hi.
  induction n as [|n IH] using N.peano_ind.
  - cbn. rewrite Z.add_0_r. repeat split; assumption.
  - cbv zeta in *. rewrite N.iter_succ.
    set (m1 := N.iter n tick_and_loop m) in *.
    destruct IH as (Hr1 & Hpc1 & Hg1 & Hf1 & Hi1 & Hs1 & Ht1 & Hms1).
    split.
    { apply (run_reachable (EvTick :: loop_iter) m1); [exact Hr1|].
      apply run_tick_and_loop, Hpc1. }
    split; [reflexivity|].
    unfold tick_and_loop, main_loop_body. cbn [st].
    set (s1 := TIMER0_OVF_vect (st m1)).
    destruct (tick_frame (st m1))
      as (_ & Hi2 & Hf2 & _ & _ & Hg2 & Hs2 & Ht2 & _ & _ & _ & _ & Hms2 & _).
    fold s1 in Hi2, Hf2, Hg2, Hs2, Ht2, Hms2.
    destruct (poll_frame s1)
      as (_ & Hf3 & _ & Hms3 & _ & _ & Hg3 & Hs3 & Ht3 & _ & _ & Hi3).
    set (s2 := poll s1) in *.
    assert (Hg' : gprsReady s2 = true) by congruence.
    assert (Hf' : frameReady s2 = false) by congruence.
    rewrite (gprs_fsm_done s2 Hg'), (http_fsm_waits s2 (or_intror Hf')).
    split; [exact Hg'|]. split; [exact Hf'|].
    split; [destruct Hi3 as [E | E]; congruence|].
    split; [congruence|]. split; [congruence|].
    rewrite Hms3, Hms2, wrap32_idem, <- wrap32_add_l, Hms1, wrap32_add_l.
    f_equal. lia.
Qed.

Lemma http_fsm_gate_closed s :
  httpState s = HTTP_COMPLETE ->
  sub32 (millis s) (httpTimer s) < HTTP_DELAY_MS ->
  http_fsm s = s.
Proof.
  intros Hs Hgate. unfold http_fsm. rewrite Hs.
  destruct (negb (gprsReady s) || negb (frameReady s)); [reflexivity|].
  replace (HTTP_DELAY_MS <=? sub32 (millis s) (httpTimer s)) with false
    by (symmetry; apply Z.leb_gt; exact Hgate).
  reflexivity.
Qed.

(** A frame that arrives after [n] idle rounds in COMPLETE, followed by
    the poll block and [gprs_fsm]: the machine stands before [http_fsm] with
    both flags set and the timestamp of the cycle untouched. *)
Lemma frame_after_idle_rounds n m1 :
  reachable m1 -> pc m1 = AtPoll ->
  httpState (st m1) = HTTP_COMPLETE ->
  gprsReady (st m1) = true -> frameReady (st m1) = false ->
  meterIdx (st m1) = 0 ->
  exists s,
    run (map EvRx valid_frame ++ [EvMain; EvMain]) (N.iter n tick_and_loop m1)
    = Some (mkMachine AtHttp s)
    /\ reachable (mkMachine AtHttp s)
    /\ httpState s = HTTP_COMPLETE
    /\ gprsReady s = true /\ frameReady s = true
    /\ httpTimer s = httpTimer (st m1)
    /\ wrap32 (millisCnt s) = wrap32 (millisCnt (st m1) + 10 * Z.of_N n).
Proof.
  intros Hr1 Hpc1 Hs1 Hg1 Hf1 Hi1.
  pose proof (idle_rounds n m1 Hr1 Hpc1 Hg1 Hf1 Hi1) as H2.
  cbv zeta in H2.
  remember (N.iter n tick_and_loop m1) as m2 eqn:Em2. clear Em2.
  destruct H2 as (Hr2 & Hpc2 & Hg2 & Hf2 & Hi2 & Hs2 & Ht2 & Hms2).
  pose proof (reachable_cursor_inv m2 Hr2) as [Hlen2 _].
  pose proof (feed_frame (st m2) valid_frame Hlen2 Hi2 eq_refl) as Hfeed.
  remember (with_meterIdx 0
              (with_frameReady (frameReady (st m2) || frame_valid valid_frame)
                 (with_meterBuf (map wrap8 valid_frame) (st m2)))) as s3 eqn:Es3.
  assert (H3 : frameReady s3 = true /\ millisCnt s3 = millisCnt (st m2)
               /\ httpTimer s3 = httpTimer (st m2)
               /\ httpState s3 = httpState (st m2)
               /\ gprsReady s3 = gprsReady (st m2)).
  { subst s3. project. rewrite Hf2. repeat split. }
  clear Es3. destruct H3 as (Hf3 & Hms3 & Ht3 & Hs3 & Hg3).
  destruct (poll_frame s3)
    as (_ & Hf4 & _ & Hms4 & _ & _ & Hg4 & Hs4 & Ht4 & _).
  remember (poll s3) as s4 eqn:Es4.
  assert (Hg4' : gprsReady s4 = true) by congruence.
  assert (Hrun : run (map EvRx valid_frame ++ [EvMain; EvMain]) m2
                 = Some (mkMachine AtHttp s4)).
  { rewrite run_app, run_rx, Hfeed. cbn [run step pc st]. rewrite Hpc2.
    cbn [run step pc st].
    rewrite <- Es4, (gprs_fsm_done s4 Hg4'). reflexivity. }
  exists s4. split; [exact Hrun|].
  split; [exact (run_reachable _ m2 _ Hr2 Hrun)|].
  split; [congruence|]. split; [exact Hg4'|]. split; [congruence|].
  split; [congruence|]. rewrite Hms4, Hms3. exact Hms2.
Qed.

(** C10 as stated fails at counter roll-over.  After [one_cycle] the
    machine is in COMPLETE with the timestamp 3000 ms old.  Let
    [ticks_to_wrap] rounds of one tick and one loop iteration pass with no
    frame (the flag stays clear throughout), then let a valid frame arrive
    and the loop reach [http_fsm]: both flags hold, for the first time since
    COMPLETE was entered, but the 32-bit difference [now - httpTimer] reads
    4, so the call leaves the machine in COMPLETE. *)
Lemma http_complete_gate_closed_after_wrap :
  exists m1 m,
    run one_cycle init_machine = Some m1
    /\ httpState (st m1) = HTTP_COMPLETE /\ frameReady (st m1) = false
    /\ run (map EvRx valid_frame ++ [EvMain; EvMain])
           (N.iter ticks_to_wrap tick_and_loop m1) = Some m
    /\ reachable m /\ pc m = AtHttp
    /\ httpState (st m) = HTTP_COMPLETE
    /\ gprsReady (st m) = true /\ frameReady (st m) = true
    /\ sub32 (millis (st m)) (httpTimer (st m)) = 4
    /\ httpState (http_fsm (st m)) = HTTP_COMPLETE.
Proof.
  destruct (run one_cycle init_machine) as [m1|] eqn:Hrun1;
    [|vm_compute in Hrun1; discriminate].
  assert (Hr1 : reachable m1)
    by (apply (run_reachable one_cycle init_machine); [apply reach_init | exact Hrun1]).
  assert (H1 : pc m1 = AtPoll /\ httpState (st m1) = HTTP_COMPLETE
               /\ gprsReady (st m1) = true /\ frameReady (st m1) = false
               /\ meterIdx (st m1) = 0
               /\ wrap32 (millisCnt (st m1) + 10 * Z.of_N ticks_to_wrap)
                  = wrap32 (httpTimer (st m1) + 4)).
  { vm_compute in Hrun1. inversion Hrun1; subst m1. repeat split. }
  destruct H1 as (Hpc1 & Hs1 & Hg1 & Hf1 & Hi1 & Hclock).
  destruct (frame_after_idle_rounds ticks_to_wrap m1 Hr1 Hpc1 Hs1 Hg1 Hf1 Hi1)
    as (s & Hrun & Hr & Hs & Hg & Hf & Ht & Hms).
  assert (Hgate : sub32 (millis s) (httpTimer s) = 4).
  { unfold millis. rewrite Ht. apply sub32_elapsed.
    - rewrite Hms. exact Hclock.
    - vm_compute. split; [discriminate | reflexivity]. }
  exists m1, (mkMachine AtHttp s). cbn [pc st].
  split; [reflexivity|]. split; [exact Hs1|]. split; [exact Hf1|].
  split; [exact Hrun|]. split; [exact Hr|].
  split; [reflexivity|]. split; [exact Hs|]. split; [exact Hg|].
  split; [exact Hf|]. split; [exact Hgate|].
  rewrite http_fsm_gate_closed; [exact Hs | exact Hs |].
  rewrite Hgate. reflexivity.
Qed.

Lemma sub32_later now t d :
  0 <= d -> sub32 now t + d < 2 ^ 32 ->
  sub32 (wrap32 (now + d)) t = sub32 now t + d.
Proof.
  intros Hd Hlt.
  assert (H0 : 0 <= sub32 now t) by (unfold sub32; apply wrap32_range).
  apply sub32_elapsed; [|lia].
  rewrite wrap32_idem. unfold sub32, wrap32.
  replace (t + ((now - t) mod 2 ^ 32 + d))
    with ((now - t) mod 2 ^ 32 + (t + d)) by lia.
  rewrite Zplus_mod_idemp_l. f_equal. lia.
Qed.

(** C10, amended.  The step out of ACTION (taken at [s0], with both flags
    set and twice the HTTP delay elapsed) clears the frame-ready flag and
    leaves [httpTimer] as it was, so the COMPLETE gate is open on entry.
    At a later service call [s] in COMPLETE with both flags set, [d]
    milliseconds after that step, the machine returns to idle at once,
    changing nothing else, provided the millisecond counter has not
    completed a full 2^32 turn since the timestamp was written. *)
Theorem http_complete_returns_before_wrap (s0 s : state) (d : Z) :
  httpState s0 = HTTP_ACTION -> gprsReady s0 = true -> frameReady s0 = true ->
  HTTP_DELAY_MS * 2 <= sub32 (millis s0) (httpTimer s0) ->
  0 <= d -> sub32 (millis s0) (httpTimer s0) + d < 2 ^ 32 ->
  httpState s = HTTP_COMPLETE -> httpTimer s = httpTimer s0 ->
  millisCnt s = wrap32 (millisCnt s0 + d) ->
  gprsReady s = true -> frameReady s = true ->
  (http_fsm s0 = with_httpState HTTP_COMPLETE (with_frameReady false s0)
   /\ httpTimer (http_fsm s0) = httpTimer s0
   /\ HTTP_DELAY_MS <= sub32 (millis (http_fsm s0)) (httpTimer (http_fsm s0)))
  /\ http_fsm s = with_httpState HTTP_IDLE s.
Proof.
  intros Hs0 Hg0 Hf0 Hgate0 Hd Hwrap Hs Ht Hms Hg Hf.
  assert (Hstep : http_fsm s0 = with_httpState HTTP_COMPLETE (with_frameReady false s0)).
  { unfold http_fsm. rewrite Hs0, Hg0, Hf0. cbn [negb orb].
    apply Z.leb_le in Hgate0. rewrite Hgate0. reflexivity. }
  split.
  - split; [exact Hstep|]. rewrite Hstep. project.
    split; [reflexivity|]. unfold millis in *. project.
    unfold HTTP_DELAY_MS in *. lia.
  - apply http_fsm_complete_returns; try assumption.
    unfold millis in *. rewrite Hms, Ht, sub32_later by assumption.
    unfold HTTP_DELAY_MS in *. lia.
Qed.

(** ACTION entered at time 0 and left at 3000 ms; a new frame is serviced
    one second later. *)
Lemma http_complete_returns_before_wrap_witness :
  http_fsm (with_millisCnt 4000
              (with_httpState HTTP_COMPLETE
                 (with_frameReady true (with_gprsReady true init_state))))
  = with_httpState HTTP_IDLE
      (with_millisCnt 4000
         (with_httpState HTTP_COMPLETE
            (with_frameReady true (with_gprsReady true init_state)))).
Proof.
  apply (http_complete_returns_before_wrap
           (with_millisCnt 3000
              (with_httpState HTTP_ACTION
                 (with_frameReady true (with_gprsReady true init_state))))
           _ 1000);
    try reflexivity; vm_compute; congruence.
Defined.

(** ** Field decoding and URL formatting *)




(** Every stored byte is a byte. *)







(** ** The URL buffer is never overrun *)

Lemma snprintf_length dst size out :
  length dst = size -> length (snprintf dst size out) = size.
Proof.
  intros Hlen. unfold snprintf. destruct size as [|n]; [exact Hlen|].
  rewrite length_app, length_skipn, length_app, length_take. cbn [length].
  lia.
Qed.

Lemma snprintf_prefix dst n out :
  take (length out `min` n) (snprintf dst (S n) out) = take n out
  /\ snprintf dst (S n) out !! (length out `min` n)%nat = Some NUL.
Proof.
  unfold snprintf. split.
  - rewrite <- app_assoc.
    rewrite take_app_le by (rewrite length_take; lia).
    rewrite take_take.
    destruct (decide (length out <= n)%nat).
    + rewrite Nat.min_l, !take_ge by lia. reflexivity.
    + rewrite !Nat.min_r by lia. reflexivity.
  - rewrite <- app_assoc. rewrite lookup_app_r by (rewrite length_take; lia).
    rewrite length_take.
    replace ((length out `min` n) - (n `min` length out))%nat with 0%nat by lia.
    reflexivity.
Qed.

Lemma http_fsm_url_length s :
  length (httpUrl s) = sizeof_httpUrl ->
  length (httpUrl (http_fsm s)) = sizeof_httpUrl.
Proof.
  intros Hlen. unfold http_fsm, build_http_url. rewrite ?uart1_send_str_eq.
  destruct (negb (gprsReady s) || negb (frameReady s)); [exact Hlen|].
  destruct (httpState s); try destruct (_ <=? _); project;
    try exact Hlen.
  apply snprintf_length, Hlen.
Qed.

(** The URL buffer keeps its declared size throughout every execution. *)
Lemma reachable_url_length m :
  reachable m -> length (httpUrl (st m)) = sizeof_httpUrl.
Proof.
  induction 1 as [|ev m m' _ IH Hstep].
  - reflexivity.
  - destruct ev as [|udr0|]; cbn [step] in Hstep.
    + inversion Hstep; subst. exact IH.
    + destruct (USART0_RX_vect udr0 (st m)) as [s'|] eqn:Hrx; [|discriminate].
      inversion Hstep; subst. cbn [st].
      unfold USART0_RX_vect in Hrx.
      destruct ((0 <=? meterIdx (st m)) && (meterIdx (st m) <? METER_BUF_LEN));
        [|discriminate].
      revert Hrx. project. destruct (wrap8 (meterIdx (st m) + 1) =? 44).
      * destruct (buf_get _ IDX_FRAME_END =? 0xDD);
          intros Hrx; inversion Hrx; subst; exact IH.
      * intros Hrx; inversion Hrx; subst; exact IH.
    + inversion Hstep; subst. destruct (pc m); cbn [st].
      * destruct (poll_frame (st m)) as (_ & _ & _ & _ & _ & _ & _ & _ & _ & Hu & _).
        rewrite Hu. exact IH.
      * destruct (gprs_fsm_frame (st m)) as (_ & _ & _ & _ & _ & _ & _ & Hu & _).
        rewrite Hu. exact IH.
      * apply http_fsm_url_length, IH.
Qed.

(** C7.  Whatever the frame buffer holds, [build_http_url] leaves the URL
    buffer at its declared 256 bytes and changes nothing else: it stores the
    first [min (length text) 255] characters of the formatted text (the
    whole text, or its first 255 characters when it is longer) followed by
    a NUL, which therefore sits at an index below 256.  The size assumed of
    the buffer holds in every reachable state. *)
Theorem http_url_fits_buffer (s : state) :
  length (httpUrl s) = sizeof_httpUrl ->
  length (httpUrl (build_http_url s)) = sizeof_httpUrl
  /\ (exists k, (k < sizeof_httpUrl)%nat
                /\ k = (length (http_url_text s) `min` 255)%nat
                /\ take k (httpUrl (build_http_url s)) = take 255 (http_url_text s)
                /\ httpUrl (build_http_url s) !! k = Some NUL)
  /\ build_http_url s = with_httpUrl (httpUrl (build_http_url s)) s
  /\ (forall m, reachable m -> length (httpUrl (st m)) = sizeof_httpUrl).
Proof.
  intros Hlen. unfold build_http_url. project.
  split; [apply snprintf_length, Hlen|].
  split; [|split; [reflexivity | exact reachable_url_length]].
  exists (length (http_url_text s) `min` 255)%nat.
  split; [unfold sizeof_httpUrl; lia|]. split; [reflexivity|].
  apply (snprintf_prefix (httpUrl s) 255 (http_url_text s)).
Qed.

Lemma http_url_fits_buffer_witness :
  length (httpUrl (build_http_url (with_meterBuf (repeat 255 44) init_state)))
  = sizeof_httpUrl.
Proof.
  apply (http_url_fits_buffer (with_meterBuf (repeat 255 44) init_state)).
  reflexivity.
Defined.

(** * Further properties of the program *)

(** ** An induction principle over the operations *)

(** What start-up establishes and every operation keeps, from reachable
    states, holds in every reachable state. *)
Lemma reachable_state_ind (P : state -> Prop) :
  P init_state ->
  (forall m, reachable m -> P (st m) -> P (TIMER0_OVF_vect (st m))) ->
  (forall m udr0 s', reachable m -> P (st m) ->
     USART0_RX_vect udr0 (st m) = Some s' -> P s') ->
  (forall m, reachable m -> P (st m) -> P (poll (st m))) ->
  (forall m, reachable m -> P (st m) -> P (gprs_fsm (st m))) ->
  (forall m, reachable m -> P (st m) -> P (http_fsm (st m))) ->
  forall m, reachable m -> P (st m).
Proof.
  intros Hinit Htick Hrx Hpoll Hgprs Hhttp m Hr.
  induction Hr as [|ev m m' Hr IH Hstep]; [exact Hinit|].
  destruct ev as [|udr0|]; cbn [step] in Hstep.
  - inversion Hstep; subst. apply Htick; assumption.
  - destruct (USART0_RX_vect udr0 (st m)) as [s'|] eqn:E; [|discriminate].
    inversion Hstep; subst. exact (Hrx _ _ _ Hr IH E).
  - inversion Hstep; subst. destruct (pc m); cbn [st]; auto.
Qed.

(** The receive interrupt on a reachable state, with what it leaves alone. *)
Lemma rx_reachable m udr0 s' :
  reachable m -> USART0_RX_vect udr0 (st m) = Some s' ->
  tick10ms s' = tick10ms (st m) /\ millisCnt s' = millisCnt (st m)
  /\ gprsState s' = gprsState (st m) /\ gprsTimer s' = gprsTimer (st m)
  /\ gprsReady s' = gprsReady (st m)
  /\ httpState s' = httpState (st m) /\ httpTimer s' = httpTimer (st m)
  /\ httpUrl s' = httpUrl (st m)
  /\ meterKickTimer s' = meterKickTimer (st m)
  /\ portb1 s' = portb1 (st m)
  /\ uart0_tx s' = uart0_tx (st m) /\ uart1_tx s' = uart1_tx (st m).
Proof.
  intros Hr Hrx. unfold USART0_RX_vect in Hrx.
  destruct ((0 <=? meterIdx (st m)) && (meterIdx (st m) <? METER_BUF_LEN));
    [|discriminate].
  revert Hrx. project. destruct (wrap8 (meterIdx (st m) + 1) =? 44).
  - destruct (buf_get _ IDX_FRAME_END =? 0xDD);
      intros Hrx; inversion Hrx; subst; repeat split.
  - intros Hrx; inversion Hrx; subst; repeat split.
Qed.

(** ** Time base *)



(** ** Who writes the shared variables *)

(** X2.  The frame-ready flag has one writer in each direction.  A step
    raises it only if it is the receive interrupt storing a sentinel byte at
    offset 43; a step clears it only if it is [http_fsm] leaving ACTION for
    COMPLETE. *)
Theorem frame_ready_writers (ev : event) (m m' : machine) :
  cursor_inv (st m) ->
  step ev m = Some m' ->
  (frameReady (st m) = false -> frameReady (st m') = true ->
   exists udr0, ev = EvRx udr0 /\ meterIdx (st m) = 43 /\ wrap8 udr0 = 0xDD)
  /\ (frameReady (st m) = true -> frameReady (st m') = false ->
      ev = EvMain /\ pc m = AtHttp
      /\ httpState (st m) = HTTP_ACTION /\ httpState (st m') = HTTP_COMPLETE).
Proof.
  intros Hinv Hstep. destruct ev as [|udr0|]; cbn [step] in Hstep.
  - inversion Hstep; subst; cbn [st].
    change (frameReady (TIMER0_OVF_vect (st m))) with (frameReady (st m)).
    split; congruence.
  - destruct Hinv as [Hlen Hidx].
    destruct (Z.eq_dec (meterIdx (st m)) 43) as [E|E].
    + rewrite (rx_last _ udr0 Hlen E) in Hstep. inversion Hstep; subst; cbn [st].
      project. split.
      * intros Hf Ht. rewrite Hf in Ht. cbn [orb] in Ht.
        exists udr0. repeat split; [exact E | apply Z.eqb_eq, Ht].
      * intros Hf Ht. rewrite Hf in Ht. discriminate.
    + rewrite rx_before_last in Hstep by lia. inversion Hstep; subst; cbn [st].
      project. split; congruence.
  - inversion Hstep; subst. destruct (pc m) eqn:Hpc; cbn [st].
    + rewrite (proj1 (proj2 (poll_frame (st m)))). split; congruence.
    + destruct (gprs_fsm_frame (st m)) as (_ & _ & Hf & _). rewrite Hf.
      split; congruence.
    + split.
      * intros Hf Ht.
        destruct (http_fsm_flag_change (st m)) as (_ & _ & Hc); congruence.
      * intros Hf Ht.
        destruct (http_fsm_flag_change (st m)) as (Ha & Hc & _); [congruence|].
        auto.
Qed.

Lemma frame_ready_writers_witness :
  exists udr0, EvRx 0xDD = EvRx udr0
               /\ meterIdx (with_meterIdx 43 init_state) = 43
               /\ wrap8 udr0 = 0xDD.
Proof.
  apply (proj1 (frame_ready_writers (EvRx 0xDD)
                  (mkMachine AtPoll (with_meterIdx 43 init_state))
                  (mkMachine AtPoll
                     (with_frameReady true
                        (with_meterBuf (<[43%nat := 0xDD]> (repeat 0 44)) init_state)))
                  ltac:(split; [reflexivity | vm_compute; split; congruence])
                  eq_refl));
    reflexivity.
Defined.

(** X3.  The URL buffer has one writer: a step changes it only if it is
    [http_fsm] leaving idle, and the new content is what [snprintf] makes of
    the frame buffer as it is at that step.  Nothing that happens during an
    uplink cycle, further frames included, changes the URL being sent. *)
Theorem http_url_writer (ev : event) (m m' : machine) :
  step ev m = Some m' ->
  httpUrl (st m') <> httpUrl (st m) ->
  ev = EvMain /\ pc m = AtHttp
  /\ httpState (st m) = HTTP_IDLE /\ httpState (st m') = HTTP_TERM
  /\ httpUrl (st m')
     = snprintf (httpUrl (st m)) sizeof_httpUrl (http_url_text (st m)).
Proof.
  intros Hstep Hne. destruct ev as [|udr0|]; cbn [step] in Hstep.
  - inversion Hstep; subst. contradiction Hne. reflexivity.
  - destruct (USART0_RX_vect udr0 (st m)) as [s'|] eqn:Hrx; [|discriminate].
    inversion Hstep; subst. cbn [st] in Hne. contradiction Hne.
    unfold USART0_RX_vect in Hrx.
    destruct ((0 <=? meterIdx (st m)) && (meterIdx (st m) <? METER_BUF_LEN));
      [|discriminate].
    revert Hrx. project. destruct (wrap8 (meterIdx (st m) + 1) =? 44).
    + destruct (buf_get _ IDX_FRAME_END =? 0xDD);
        intros Hrx; inversion Hrx; subst; reflexivity.
    + intros Hrx; inversion Hrx; subst; reflexivity.
  - inversion Hstep; subst. destruct (pc m) eqn:Hpc; cbn [st] in *.
    + contradiction Hne. apply (poll_frame (st m)).
    + contradiction Hne. apply (gprs_fsm_frame (st m)).
    + revert Hne. unfold http_fsm, build_http_url. rewrite ?uart1_send_str_eq.
      destruct (negb (gprsReady (st m)) || negb (frameReady (st m)));
        [congruence|].
      destruct (httpState (st m)) eqn:Hs; try destruct (_ <=? _); project;
        intros Hne; try congruence.
      repeat split.
Qed.

Lemma http_url_writer_witness :
  httpState (with_frameReady true (with_gprsReady true init_state)) = HTTP_IDLE.
Proof.
  apply (http_url_writer EvMain
           (mkMachine AtHttp (with_frameReady true (with_gprsReady true init_state)))
           (mkMachine AtPoll
              (http_fsm (with_frameReady true (with_gprsReady true init_state))))
           eq_refl).
  vm_compute. discriminate.
Defined.

(** [gprsReady] is set exactly in READY, and the uplink machine waits in
    idle until then. *)
Lemma reachable_ready_inv m :
  reachable m ->
  (gprsReady (st m) = true <-> gprsState (st m) = GPRS_READY)
  /\ (gprsReady (st m) = false -> httpState (st m) = HTTP_IDLE).
Proof.
  revert m.
  apply (reachable_state_ind
           (fun s => (gprsReady s = true <-> gprsState s = GPRS_READY)
                     /\ (gprsReady s = false -> httpState s = HTTP_IDLE))).
  - split; [split; discriminate | reflexivity].
  - auto.
  - intros m0 udr0 s' Hr0 H Hrx.
    destruct (rx_reachable m0 udr0 s' Hr0 Hrx)
      as (_ & _ & Hgs & _ & Hgr & Hhs & _).
    rewrite Hgs, Hgr, Hhs. exact H.
  - intros m0 _ H.
    destruct (poll_frame (st m0)) as (_ & _ & _ & _ & Hgs & _ & Hgr & Hhs & _).
    rewrite Hgs, Hgr, Hhs. exact H.
  - intros m0 _ [Hiff Hidle]. set (s := st m0) in *.
    destruct (gprs_fsm_frame s) as (_ & _ & _ & _ & _ & Hhs & _). rewrite Hhs.
    destruct (gprsReady s) eqn:Hg.
    + rewrite (gprs_fsm_done s Hg), Hg. split; [exact Hiff | discriminate].
    + destruct (decide (gprsState s = GPRS_READY)) as [E|E].
      * apply Hiff in E. discriminate.
      * split; [|intros _; auto].
        unfold gprs_fsm. rewrite Hg, ?uart1_send_str_eq.
        destruct (gprsState s) eqn:Hs; try destruct (_ <=? _); project;
          rewrite ?Hg, ?Hs; split; congruence.
  - intros m0 _ [Hiff Hidle]. set (s := st m0) in *.
    destruct (http_fsm_frame s) as (_ & _ & _ & _ & Hgs & _ & Hgr & _).
    rewrite Hgs, Hgr. split; [exact Hiff|].
    intros Hg. rewrite http_fsm_waits by auto. auto.
Qed.

Lemma step_keeps_ready ev m m' :
  cursor_inv (st m) -> step ev m = Some m' ->
  gprsReady (st m) = true -> gprsReady (st m') = true.
Proof.
  intros Hinv Hstep Hg. destruct ev as [|udr0|]; cbn [step] in Hstep.
  - inversion Hstep; subst. exact Hg.
  - destruct (rx_frame (st m) udr0 Hinv)
      as (s1 & Hrx1 & _ & _ & _ & _ & _ & _ & _ & Hgr & _).
    rewrite Hrx1 in Hstep. inversion Hstep; subst. cbn [st]. congruence.
  - inversion Hstep; subst. destruct (pc m); cbn [st].
    + destruct (poll_frame (st m)) as (_ & _ & _ & _ & _ & _ & Hgr & _). congruence.
    + rewrite gprs_fsm_done; assumption.
    + destruct (http_fsm_frame (st m)) as (_ & _ & _ & _ & _ & _ & Hgr & _).
      congruence.
Qed.

(** X4.  Modem readiness is permanent and tied to the READY state: in every
    reachable state [gprsReady] is set exactly when the bring-up machine is
    in READY, the uplink machine has not left idle while it is clear, and
    once it is set no schedule clears it. *)
Theorem gprs_ready_permanent (m : machine) :
  reachable m ->
  (gprsReady (st m) = true <-> gprsState (st m) = GPRS_READY)
  /\ (gprsReady (st m) = false -> httpState (st m) = HTTP_IDLE)
  /\ (forall evs m', run evs m = Some m' ->
        gprsReady (st m) = true ->
        gprsReady (st m') = true /\ gprsState (st m') = GPRS_READY).
Proof.
  intros Hr. destruct (reachable_ready_inv m Hr) as [Hiff Hidle].
  split; [exact Hiff|]. split; [exact Hidle|].
  intros evs m' Hrun Hg.
  pose proof (run_reachable evs m m' Hr Hrun) as Hr'.
  destruct (reachable_ready_inv m' Hr') as [Hiff' _].
  assert (Hg' : gprsReady (st m') = true); [|split; [exact Hg' | apply Hiff', Hg']].
  clear Hiff' Hr' Hiff Hidle.
  revert m Hr Hrun Hg. induction evs as [|ev evs IH]; intros m Hr Hrun Hg;
    cbn [run] in Hrun.
  - congruence.
  - destruct (step ev m) as [m1|] eqn:Hstep; [|discriminate].
    apply (IH m1 (reach_step ev m m1 Hr Hstep) Hrun).
    exact (step_keeps_ready ev m m1 (reachable_cursor_inv m Hr) Hstep Hg).
Qed.

(** After bring-up the flag is set, and it is still set, with the machine
    in READY, after a frame and a whole uplink cycle. *)
Lemma gprs_ready_permanent_witness :
  exists m m',
    run bringup_schedule init_machine = Some m
    /\ run (map EvRx valid_frame ++ cycle_schedule) m = Some m'
    /\ gprsReady (st m) = true /\ gprsState (st m) = GPRS_READY
    /\ httpState (st m') = HTTP_COMPLETE
    /\ gprsReady (st m') = true /\ gprsState (st m') = GPRS_READY.
Proof.
  destruct (run bringup_schedule init_machine) as [m|] eqn:Hrun0;
    [|vm_compute in Hrun0; discriminate].
  pose proof (run_reachable _ _ _ reach_init Hrun0) as Hr.
  assert (Hg : gprsReady (st m) = true)
    by (vm_compute in Hrun0; inversion Hrun0; reflexivity).
  destruct (run (map EvRx valid_frame ++ cycle_schedule) m) as [m'|] eqn:Hrun1;
    [|vm_compute in Hrun0; inversion Hrun0; subst m;
      vm_compute in Hrun1; discriminate].
  assert (Hc : httpState (st m') = HTTP_COMPLETE)
    by (vm_compute in Hrun0; inversion Hrun0; subst m;
        vm_compute in Hrun1; inversion Hrun1; reflexivity).
  destruct (gprs_ready_permanent m Hr) as (Hiff & _ & Hperm).
  destruct (Hperm _ m' Hrun1 Hg) as (Hg' & Hs').
  exists m, m'. repeat split; try assumption. apply Hiff, Hg.
Defined.

(** ** What the modem link carries *)

Lemma c_str_no_nul mem : Forall (fun c => c <> NUL) (c_str mem).
Proof.
  induction mem as [|c mem IH]; cbn [c_str]; [constructor|].
  destruct (Ascii.eqb c NUL) eqn:E; [constructor|].
  constructor; [|exact IH]. intros ->. rewrite Ascii.eqb_refl in E. discriminate.
Qed.

Lemma c_str_id mem : Forall (fun c => c <> NUL) mem -> c_str mem = mem.
Proof.
  induction 1 as [|c mem Hc _ IH]; cbn [c_str]; [reflexivity|].
  destruct (Ascii.eqb c NUL) eqn:E.
  - apply Ascii.eqb_eq in E. contradiction.
  - rewrite IH. reflexivity.
Qed.

Lemma c_str_app_nul pre rest :
  Forall (fun c => c <> NUL) pre -> c_str (pre ++ NUL :: rest) = pre.
Proof.
  induction 1 as [|c pre Hc _ IH]; cbn [c_str app].
  - reflexivity.
  - destruct (Ascii.eqb c NUL) eqn:E.
    + apply Ascii.eqb_eq in E. contradiction.
    + rewrite IH. reflexivity.
Qed.

Lemma http_url_cmd_app pre url :
  ((pre ++ c_str (lit "AT+HTTPPARA=" ++ [DQUOTE] ++ lit "URL" ++ [DQUOTE]
                  ++ lit "," ++ [DQUOTE]))
   ++ url) ++ c_str ([DQUOTE] ++ CRLF)
  = pre ++ http_url_cmd url.
Proof.
  unfold http_url_cmd.
  change (c_str (lit "AT+HTTPPARA=" ++ [DQUOTE] ++ lit "URL" ++ [DQUOTE]
                 ++ lit "," ++ [DQUOTE]))
    with (lit "AT+HTTPPARA=" ++ [DQUOTE] ++ lit "URL" ++ [DQUOTE]
          ++ lit "," ++ [DQUOTE]).
  change (c_str ([DQUOTE] ++ CRLF)) with ([DQUOTE] ++ CRLF).
  rewrite <- !app_assoc. reflexivity.
Qed.

(** X5.  The modem link carries a well-formed command stream and nothing
    else.  In every reachable state the bytes sent on UART1 are: the
    bring-up commands up to the current bring-up state, each once and in
    order; then, for some list of request targets, one complete uplink
    cycle per target (TERM, INIT, CID, URL with the target in quotes,
    ACTION); then the commands of the cycle in progress up to the current
    uplink state, its target being the current content of the URL buffer.
    Until the modem is ready no uplink command has been sent. *)
Theorem uart1_command_stream (m : machine) :
  reachable m ->
  exists urls,
    uart1_tx (st m)
    = gprs_sent (gprsState (st m))
      ++ concat (map http_cycle urls)
      ++ http_sent (httpState (st m)) (c_str (httpUrl (st m)))
    /\ (gprsReady (st m) = false -> urls = []).
Proof.
  revert m.
  apply (reachable_state_ind
           (fun s => exists urls,
                uart1_tx s
                = gprs_sent (gprsState s) ++ concat (map http_cycle urls)
                  ++ http_sent (httpState s) (c_str (httpUrl s))
                /\ (gprsReady s = false -> urls = []))).
  - exists []. split; reflexivity.
  - intros m _ H. exact H.
  - intros m udr0 s' Hr H Hrx.
    destruct (rx_reachable m udr0 s' Hr Hrx)
      as (_ & _ & Hgs & _ & Hgr & Hhs & _ & Hu & _ & _ & _ & Htx).
    rewrite Hgs, Hgr, Hhs, Hu, Htx. exact H.
  - intros m _ H.
    destruct (poll_frame (st m))
      as (_ & _ & _ & _ & Hgs & _ & Hgr & Hhs & _ & Hu & Htx & _).
    rewrite Hgs, Hgr, Hhs, Hu, Htx. exact H.
  - intros m Hr (urls & Htx & Hnone).
    destruct (reachable_ready_inv m Hr) as (Hiff & Hidle).
    set (s := st m) in *.
    destruct (gprsReady s) eqn:Hg.
    { rewrite (gprs_fsm_done s Hg), Hg. exists urls. split; [exact Htx | discriminate]. }
    specialize (Hnone eq_refl). specialize (Hidle eq_refl). subst urls.
    rewrite Hidle in Htx. cbn [map concat http_sent] in Htx.
    rewrite !app_nil_r in Htx.
    exists [].
    destruct (gprs_fsm_frame s) as (_ & _ & _ & _ & _ & Hhs & _ & Hu & _).
    rewrite Hhs, Hu, Hidle. cbn [map concat http_sent]. rewrite !app_nil_r.
    split; [|reflexivity].
    unfold gprs_fsm. rewrite Hg, ?uart1_send_str_eq.
    destruct (gprsState s) eqn:Hs; try destruct (_ <=? _); project;
      rewrite ?Hs, Htx; reflexivity.
  - intros m Hr (urls & Htx & Hnone).
    destruct (reachable_ready_inv m Hr) as (Hiff & Hidle).
    set (s := st m) in *.
    destruct (http_fsm_frame s) as (_ & _ & _ & _ & Hgs & _ & Hgr & _).
    rewrite Hgs, Hgr.
    destruct (negb (gprsReady s) || negb (frameReady s)) eqn:Hguard.
    { unfold http_fsm. rewrite Hguard. exists urls. split; assumption. }
    apply orb_false_iff in Hguard. destruct Hguard as [Hg Hf].
    apply negb_false_iff in Hg. rewrite Hg.
    unfold http_fsm, build_http_url. rewrite Hg, Hf. cbn [negb orb].
    rewrite ?uart1_send_str_eq.
    destruct (httpState s) eqn:Hs;
      try (destruct (_ <=? _); [|exists urls; project; rewrite ?Hs;
                                  split; [exact Htx | discriminate]]);
      project; cbn [http_sent] in Htx |- *; rewrite Htx.
    + exists urls. split; [|discriminate].
      rewrite app_nil_r, <- !app_assoc. reflexivity.
    + exists urls. split; [|discriminate].
      rewrite <- !app_assoc. reflexivity.
    + exists urls. split; [|discriminate].
      rewrite <- !app_assoc. reflexivity.
    + exists urls. split; [|discriminate].
      rewrite http_url_cmd_app. rewrite <- !app_assoc. reflexivity.
    + exists urls. split; [|discriminate].
      rewrite <- !app_assoc. reflexivity.
    + exists urls. split; [|discriminate]. reflexivity.
    + exists (urls ++ [c_str (httpUrl s)]). split; [|discriminate].
      rewrite map_app, concat_app. cbn [map concat].
      change (http_cycle (c_str (httpUrl s)))
        with (http_sent HTTP_COMPLETE (c_str (httpUrl s))).
      cbn [http_sent]. rewrite ?app_nil_r, <- ?app_assoc. reflexivity.
Qed.

(** After bring-up, one whole uplink cycle, a second valid frame and the
    first command of a second cycle. *)
Lemma uart1_command_stream_witness :
  exists m urls,
    run (one_cycle ++ map EvRx valid_frame ++ loop_iter ++ loop_iter)
      init_machine = Some m
    /\ gprsState (st m) = GPRS_READY /\ httpState (st m) = HTTP_TERM
    /\ (length (uart1_tx (st m)) > 200)%nat
    /\ uart1_tx (st m)
       = gprs_sent (gprsState (st m))
         ++ concat (map http_cycle urls)
         ++ http_sent (httpState (st m)) (c_str (httpUrl (st m))).
Proof.
  destruct (run (one_cycle ++ map EvRx valid_frame ++ loop_iter ++ loop_iter)
              init_machine) as [m|] eqn:Hrun0;
    [|vm_compute in Hrun0; discriminate].
  pose proof (run_reachable _ _ _ reach_init Hrun0) as Hr.
  assert (H0 : gprsState (st m) = GPRS_READY /\ httpState (st m) = HTTP_TERM
               /\ (length (uart1_tx (st m)) > 200)%nat).
  { vm_compute in Hrun0. inversion Hrun0. repeat split. vm_compute. lia. }
  destruct H0 as (Hs & Hh & Hlen).
  destruct (uart1_command_stream m Hr) as (urls & Htx & _).
  exists m, urls. repeat split; assumption.
Defined.

(** X6.  [uart1_send_str] transmits the characters before the first NUL of
    its argument, in order, and touches nothing but the transmit trace;
    consequently no NUL byte is ever sent to the modem. *)
Theorem uart1_never_sends_nul (m : machine) :
  reachable m ->
  Forall (fun c => c <> NUL) (uart1_tx (st m))
  /\ (forall str s,
        uart1_send_str str s = with_uart1_tx (uart1_tx s ++ c_str str) s)
  /\ (forall pre rest,
        Forall (fun c => c <> NUL) pre -> c_str (pre ++ NUL :: rest) = pre).
Proof.
  intros Hr. split; [|split; [exact uart1_send_str_eq | exact c_str_app_nul]].
  revert m Hr.
  apply (reachable_state_ind (fun s => Forall (fun c => c <> NUL) (uart1_tx s))).
  - constructor.
  - intros m _ H. exact H.
  - intros m udr0 s' Hr H Hrx.
    destruct (rx_reachable m udr0 s' Hr Hrx)
      as (_ & _ & _ & _ & _ & _ & _ & _ & _ & _ & _ & Htx).
    rewrite Htx. exact H.
  - intros m _ H.
    destruct (poll_frame (st m)) as (_ & _ & _ & _ & _ & _ & _ & _ & _ & _ & Htx & _).
    rewrite Htx. exact H.
  - intros m _ H. unfold gprs_fsm. rewrite ?uart1_send_str_eq.
    destruct (gprsReady (st m)); [exact H|].
    destruct (gprsState (st m)); try destruct (_ <=? _); project;
      try exact H; apply Forall_app; split; try exact H; apply c_str_no_nul.
  - intros m _ H. unfold http_fsm, build_http_url. rewrite ?uart1_send_str_eq.
    destruct (negb (gprsReady (st m)) || negb (frameReady (st m))); [exact H|].
    destruct (httpState (st m)); try destruct (_ <=? _); project;
      try exact H;
      repeat (apply Forall_app; split); try exact H; apply c_str_no_nul.
Qed.

(** The stream of the end-to-end history. *)
Lemma uart1_never_sends_nul_witness :
  exists m,
    run example_run init_machine = Some m
    /\ uart1_tx (st m) = example_uart1
    /\ Forall (fun c => c <> NUL) (uart1_tx (st m)).
Proof.
  destruct (run example_run init_machine) as [m|] eqn:Hrun0;
    [|vm_compute in Hrun0; discriminate].
  pose proof (run_reachable _ _ _ reach_init Hrun0) as Hr.
  assert (Htx : uart1_tx (st m) = example_uart1)
    by (vm_compute in Hrun0; inversion Hrun0; reflexivity).
  exists m. split; [reflexivity|]. split; [exact Htx|].
  exact (proj1 (uart1_never_sends_nul m Hr)).
Defined.

(** ** The poll driver *)

Lemma concat_repeat_snoc (cmd : list Z) n :
  concat (repeat cmd n) ++ cmd = concat (repeat cmd (S n)).
Proof.
  induction n as [|n IH]; cbn [repeat concat].
  - rewrite app_nil_r. reflexivity.
  - rewrite <- app_assoc, IH. reflexivity.
Qed.

(** When the poll block fires and when it does not. *)
Lemma poll_fires s :
  100 <= wrap16 (wrap32 (tick10ms s - meterKickTimer s)) ->
  poll s =
    with_uart0_tx (uart0_tx s ++ poll_cmd)
      (with_meterIdx 0
         (with_portb1 (negb (portb1 s))
            (with_meterKickTimer (wrap16 (tick10ms s)) s))).
Proof.
  intros H. unfold poll.
  replace (100 <=? _) with true by (symmetry; apply Z.leb_le; exact H).
  unfold uart0_send, poll_cmd. project. rewrite <- !app_assoc. reflexivity.
Qed.

Lemma poll_idle s :
  wrap16 (wrap32 (tick10ms s - meterKickTimer s)) < 100 -> poll s = s.
Proof.
  intros H. unfold poll.
  replace (100 <=? _) with false by (symmetry; apply Z.leb_gt; exact H).
  reflexivity.
Qed.

(** X7.  The meter link carries whole poll commands only, and the
    heartbeat LED counts them: in every reachable state the bytes sent on
    UART0 are some number [n] of repetitions of 0xCC 0x91 0xDD, and the LED,
    lit at start-up, is lit exactly when [n] is even. *)
Theorem uart0_poll_stream (m : machine) :
  reachable m ->
  exists n : nat,
    uart0_tx (st m) = concat (repeat poll_cmd n)
    /\ portb1 (st m) = Nat.even n.
Proof.
  revert m.
  apply (reachable_state_ind
           (fun s => exists n : nat,
                uart0_tx s = concat (repeat poll_cmd n)
                /\ portb1 s = Nat.even n)).
  - exists 0%nat. split; reflexivity.
  - intros m _ H. exact H.
  - intros m udr0 s' Hr H Hrx.
    destruct (rx_reachable m udr0 s' Hr Hrx)
      as (_ & _ & _ & _ & _ & _ & _ & _ & _ & Hp & Htx & _).
    rewrite Hp, Htx. exact H.
  - intros m _ (n & Htx & Hled).
    destruct (Z_lt_le_dec (wrap16 (wrap32 (tick10ms (st m) - meterKickTimer (st m)))) 100)
      as [Hlt|Hge].
    + rewrite poll_idle by exact Hlt. exists n. split; assumption.
    + rewrite poll_fires by exact Hge. project. exists (S n).
      rewrite Htx, Hled, concat_repeat_snoc, Nat.even_succ, <- Nat.negb_even.
      split; reflexivity.
  - intros m _ H.
    destruct (gprs_fsm_frame (st m)) as (_ & _ & _ & _ & _ & _ & _ & _ & _ & Htx).
    rewrite Htx.
    replace (portb1 (gprs_fsm (st m))) with (portb1 (st m)); [exact H|].
    unfold gprs_fsm. rewrite ?uart1_send_str_eq.
    destruct (gprsReady (st m)); [reflexivity|].
    destruct (gprsState (st m)); try destruct (_ <=? _); reflexivity.
  - intros m _ H.
    destruct (http_fsm_frame (st m)) as (_ & _ & _ & _ & _ & _ & _ & _ & Htx).
    rewrite Htx.
    replace (portb1 (http_fsm (st m))) with (portb1 (st m)); [exact H|].
    unfold http_fsm, build_http_url. rewrite ?uart1_send_str_eq.
    destruct (negb (gprsReady (st m)) || negb (frameReady (st m))); [reflexivity|].
    destruct (httpState (st m)); try destruct (_ <=? _); reflexivity.
Qed.

(** After 150 ticks one poll command has gone out and the LED is off. *)
Lemma uart0_poll_stream_witness :
  exists m n,
    run (concat (repeat (EvTick :: loop_iter) 150)) init_machine = Some m
    /\ uart0_tx (st m) = poll_cmd /\ portb1 (st m) = false
    /\ uart0_tx (st m) = concat (repeat poll_cmd n)
    /\ portb1 (st m) = Nat.even n.
Proof.
  destruct (run (concat (repeat (EvTick :: loop_iter) 150)) init_machine)
    as [m|] eqn:Hrun0; [|vm_compute in Hrun0; discriminate].
  pose proof (run_reachable _ _ _ reach_init Hrun0) as Hr.
  assert (H0 : uart0_tx (st m) = poll_cmd /\ portb1 (st m) = false)
    by (vm_compute in Hrun0; inversion Hrun0; split; reflexivity).
  destruct H0 as (Htx & Hled).
  destruct (uart0_poll_stream m Hr) as (n & Hn & Heven).
  exists m, n. repeat split; assumption.
Defined.

Lemma since_poll_range s : 0 <= since_poll s < 65536.
Proof. unfold since_poll, wrap16. apply Z.mod_pos_bound. lia. Qed.

Lemma wrap16_succ a k :
  wrap16 (wrap32 (wrap32 (a + 1) - k)) = wrap16 (wrap16 (wrap32 (a - k)) + 1).
Proof.
  rewrite !wrap16_wrap32. unfold wrap16, wrap32.
  rewrite Zplus_mod_idemp_l.
  replace (a - k + 1) with (a + 1 - k) by lia.
  rewrite (Zminus_mod ((a + 1) mod 2 ^ 32)).
  rewrite (Z.mod_mod_divide (a + 1) (2 ^ 32) (2 ^ 16))
    by (exists (2 ^ 16); reflexivity).
  rewrite <- Zminus_mod. reflexivity.
Qed.

Lemma since_poll_tick s :
  since_poll s < 65535 ->
  since_poll (TIMER0_OVF_vect s) = since_poll s + 1.
Proof.
  intros Hlt. pose proof (since_poll_range s) as Hr.
  unfold since_poll in *. unfold TIMER0_OVF_vect. project.
  rewrite wrap16_succ. unfold wrap16 at 1. apply Z.mod_small. lia.
Qed.

Lemma since_poll_after_poll s :
  100 <= since_poll s -> since_poll (poll s) = 0.
Proof.
  intros H. rewrite poll_fires by exact H. unfold since_poll. project.
  rewrite wrap16_wrap32. unfold wrap16. rewrite Zminus_mod, Zmod_mod, <- Zminus_mod.
  replace (tick10ms s - tick10ms s) with 0 by lia. reflexivity.
Qed.

Lemma ticks_in_nonneg evs : 0 <= ticks_in evs.
Proof.
  induction evs as [|ev evs IH]; cbn [ticks_in]; [lia|].
  destruct ev; lia.
Qed.

(** No poll while fewer than 100 ticks have been counted. *)
Lemma no_poll_before_period evs : forall m m',
  run evs m = Some m' ->
  since_poll (st m) + ticks_in evs < 100 ->
  uart0_tx (st m') = uart0_tx (st m)
  /\ meterKickTimer (st m') = meterKickTimer (st m)
  /\ since_poll (st m') = since_poll (st m) + ticks_in evs.
Proof.
  induction evs as [|ev evs IH]; intros m m' Hrun Hlt; cbn [run ticks_in] in *.
  - inversion Hrun; subst. rewrite Z.add_0_r. auto.
  - pose proof (ticks_in_nonneg evs) as Hn.
    pose proof (since_poll_range (st m)) as Hr.
    destruct (step ev m) as [m1|] eqn:Hstep; [|discriminate].
    assert (H1 : uart0_tx (st m1) = uart0_tx (st m)
                 /\ meterKickTimer (st m1) = meterKickTimer (st m)
                 /\ since_poll (st m1)
                    = since_poll (st m) + match ev with EvTick => 1 | _ => 0 end).
    { destruct ev as [|udr0|]; cbn [step] in Hstep.
      - inversion Hstep; subst. cbn [st].
        rewrite since_poll_tick by lia. repeat split.
      - destruct (USART0_RX_vect udr0 (st m)) as [s'|] eqn:Hrx; [|discriminate].
        inversion Hstep; subst. cbn [st].
        unfold USART0_RX_vect in Hrx.
        destruct ((0 <=? meterIdx (st m)) && (meterIdx (st m) <? METER_BUF_LEN));
          [|discriminate].
        revert Hrx. unfold since_poll. project.
        destruct (wrap8 (meterIdx (st m) + 1) =? 44).
        + destruct (buf_get _ IDX_FRAME_END =? 0xDD);
            intros Hrx; inversion Hrx; subst; project;
            rewrite Z.add_0_r; repeat split.
        + intros Hrx; inversion Hrx; subst; project;
            rewrite Z.add_0_r; repeat split.
      - inversion Hstep; subst. rewrite Z.add_0_r.
        destruct (pc m); cbn [st].
        + rewrite poll_idle by (fold (since_poll (st m)); lia). repeat split.
        + destruct (gprs_fsm_frame (st m))
            as (_ & _ & _ & Htk & _ & _ & _ & _ & Hk & Htx).
          unfold since_poll. rewrite Htk, Hk, Htx. repeat split.
        + destruct (http_fsm_frame (st m))
            as (_ & _ & Htk & _ & _ & _ & _ & Hk & Htx).
          unfold since_poll. rewrite Htk, Hk, Htx. repeat split. }
    destruct H1 as (Htx1 & Hk1 & Hs1).
    destruct (IH m1 m' Hrun) as (Htx & Hk & Hs).
    + rewrite Hs1. destruct ev; lia.
    + rewrite Htx, Hk, Hs, Htx1, Hk1, Hs1. repeat split. destruct ev; lia.
Qed.

(** X8.  Poll commands are at least 100 ticks apart.  The count the poll
    block tests is zero at start-up and right after a poll; from a state
    where it is [e], no schedule with fewer than [100 - e] ticks, whatever
    else it contains, makes the program send a byte to the meter. *)
Theorem poll_commands_spaced (evs : list event) (m m' : machine) :
  run evs m = Some m' ->
  since_poll (st m) + ticks_in evs < 100 ->
  uart0_tx (st m') = uart0_tx (st m)
  /\ since_poll init_state = 0
  /\ (forall s, 100 <= since_poll s ->
        uart0_tx (poll s) = uart0_tx s ++ poll_cmd /\ since_poll (poll s) = 0).
Proof.
  intros Hrun Hlt.
  split; [exact (proj1 (no_poll_before_period evs m m' Hrun Hlt))|].
  split; [reflexivity|].
  intros s Hs. split; [|exact (since_poll_after_poll s Hs)].
  rewrite poll_fires by exact Hs. reflexivity.
Qed.

Lemma poll_commands_spaced_witness :
  uart0_tx (st (mkMachine AtGprs (TIMER0_OVF_vect init_state)))
  = uart0_tx (st init_machine).
Proof.
  apply (proj1 (poll_commands_spaced [EvTick; EvMain] init_machine
                  (mkMachine AtGprs (TIMER0_OVF_vect init_state))
                  eq_refl ltac:(vm_compute; reflexivity))).
Defined.

Lemma run_ticks_and_loops n : forall m,
  pc m = AtPoll ->
  run (concat (repeat (EvTick :: loop_iter) n)) m
  = Some (Nat.iter n tick_and_loop m).
Proof.
  induction n as [|n IH]; intros m Hpc.
  - reflexivity.
  - change (repeat (EvTick :: loop_iter) (S n))
      with ((EvTick :: loop_iter) :: repeat (EvTick :: loop_iter) n).
    cbn [concat]. rewrite run_app, run_tick_and_loop by exact Hpc.
    rewrite IH by reflexivity.
    rewrite <- Nat.iter_succ_r. reflexivity.
Qed.

Lemma tick_and_loop_poll m :
  since_poll (st m) < 100 ->
  (since_poll (st m) < 99 ->
     uart0_tx (st (tick_and_loop m)) = uart0_tx (st m)
     /\ since_poll (st (tick_and_loop m)) = since_poll (st m) + 1)
  /\ (since_poll (st m) = 99 ->
     uart0_tx (st (tick_and_loop m)) = uart0_tx (st m) ++ poll_cmd
     /\ since_poll (st (tick_and_loop m)) = 0).
Proof.
  intros Hlt. pose proof (since_poll_range (st m)) as Hr.
  pose proof (since_poll_tick (st m) ltac:(lia)) as Ht.
  assert (Hfr : forall s,
            uart0_tx (http_fsm (gprs_fsm s)) = uart0_tx s
            /\ since_poll (http_fsm (gprs_fsm s)) = since_poll s).
  { intros s.
    destruct (gprs_fsm_frame s) as (_ & _ & _ & Htk & _ & _ & _ & _ & Hk & Htx).
    destruct (http_fsm_frame (gprs_fsm s))
      as (_ & _ & Htk' & _ & _ & _ & _ & Hk' & Htx').
    unfold since_poll. rewrite Htk', Hk', Htx', Htk, Hk, Htx. split; reflexivity. }
  unfold tick_and_loop, main_loop_body. cbn [st].
  split; intros He.
  - destruct (Hfr (poll (TIMER0_OVF_vect (st m)))) as [-> ->].
    rewrite poll_idle by (fold (since_poll (TIMER0_OVF_vect (st m))); lia).
    split; [reflexivity | exact Ht].
  - destruct (Hfr (poll (TIMER0_OVF_vect (st m)))) as [-> ->].
    rewrite since_poll_after_poll by lia.
    rewrite poll_fires by (fold (since_poll (TIMER0_OVF_vect (st m))); lia).
    split; reflexivity.
Qed.

Lemma poll_count_iter n : forall m,
  since_poll (st m) < 100 ->
  uart0_tx (st (Nat.iter n tick_and_loop m))
  = uart0_tx (st m)
    ++ concat (repeat poll_cmd
                 (Z.to_nat ((since_poll (st m) + Z.of_nat n) / 100)))
  /\ since_poll (st (Nat.iter n tick_and_loop m))
     = (since_poll (st m) + Z.of_nat n) mod 100.
Proof.
  induction n as [|n IH]; intros m Hlt;
    pose proof (since_poll_range (st m)) as Hr.
  - cbn [Nat.iter nat_rect]. rewrite Z.add_0_r.
    rewrite Z.div_small, Z.mod_small by lia.
    cbn. rewrite app_nil_r. split; reflexivity.
  - destruct (IH m Hlt) as [Htx Hs]. cbn [Nat.iter nat_rect].
    fold (Nat.iter n tick_and_loop m).
    set (mn := Nat.iter n tick_and_loop m) in *.
    set (e := since_poll (st m)) in *.
    assert (Hmn : since_poll (st mn) < 100)
      by (rewrite Hs; apply Z.mod_pos_bound; lia).
    destruct (tick_and_loop_poll mn Hmn) as [Hidle Hfire].
    replace (e + Z.of_nat (S n)) with (e + Z.of_nat n + 1) by lia.
    pose proof (Z.div_mod (e + Z.of_nat n) 100 ltac:(lia)) as Hdm.
    pose proof (Z.mod_pos_bound (e + Z.of_nat n) 100 ltac:(lia)) as Hm.
    assert (Hq : 0 <= (e + Z.of_nat n) / 100) by (apply Z.div_pos; lia).
    destruct (Z.eq_dec (since_poll (st mn)) 99) as [H99|Hn99].
    + destruct (Hfire H99) as [-> ->]. rewrite Htx.
      assert (Hd : (e + Z.of_nat n + 1) / 100 = (e + Z.of_nat n) / 100 + 1).
      { symmetry. apply (Z.div_unique _ 100 _ 0); lia. }
      assert (Hr' : (e + Z.of_nat n + 1) mod 100 = 0).
      { symmetry. apply (Z.mod_unique _ 100 ((e + Z.of_nat n) / 100 + 1)); lia. }
      rewrite Hd, Hr', Z2Nat.inj_add by lia.
      change (Z.to_nat 1) with 1%nat. rewrite Nat.add_1_r.
      rewrite <- app_assoc, concat_repeat_snoc. split; reflexivity.
    + destruct (Hidle ltac:(lia)) as [-> ->]. rewrite Htx.
      assert (Hd : (e + Z.of_nat n + 1) / 100 = (e + Z.of_nat n) / 100).
      { symmetry. apply (Z.div_unique _ 100 _ ((e + Z.of_nat n) mod 100 + 1)); lia. }
      assert (Hr' : (e + Z.of_nat n + 1) mod 100 = (e + Z.of_nat n) mod 100 + 1).
      { symmetry. apply (Z.mod_unique _ 100 ((e + Z.of_nat n) / 100)); lia. }
      rewrite Hd, Hr', Hs. split; reflexivity.
Qed.

(** X9.  When the main loop runs once per timer tick, the meter is polled
    exactly once every 100 ticks: after [n] ticks from a state whose poll
    count stands at [e] the program has sent [(e + n) / 100] further poll
    commands and nothing else on the meter link, and the count stands at
    [(e + n) mod 100]. *)
Theorem poll_once_per_100_ticks (n : nat) (m : machine) :
  pc m = AtPoll ->
  since_poll (st m) < 100 ->
  exists m',
    run (concat (repeat (EvTick :: loop_iter) n)) m = Some m'
    /\ uart0_tx (st m')
       = uart0_tx (st m)
         ++ concat (repeat poll_cmd
                      (Z.to_nat ((since_poll (st m) + Z.of_nat n) / 100)))
    /\ since_poll (st m') = (since_poll (st m) + Z.of_nat n) mod 100.
Proof.
  intros Hpc Hlt. exists (Nat.iter n tick_and_loop m).
  split; [exact (run_ticks_and_loops n m Hpc)|].
  exact (poll_count_iter n m Hlt).
Qed.

Lemma poll_once_per_100_ticks_witness :
  exists m',
    run (concat (repeat (EvTick :: loop_iter) 250)) init_machine = Some m'
    /\ uart0_tx (st m')
       = uart0_tx (st init_machine)
         ++ concat (repeat poll_cmd
                      (Z.to_nat ((since_poll (st init_machine) + Z.of_nat 250) / 100)))
    /\ since_poll (st m') = (since_poll (st init_machine) + Z.of_nat 250) mod 100.
Proof.
  apply (poll_once_per_100_ticks 250 init_machine eq_refl).
  vm_compute. reflexivity.
Defined.

(** ** Pacing of the modem commands *)

(** Induction over a schedule with the ticks counted. *)
Lemma run_ticks_ind (P : state -> Z -> Prop) :
  (forall s T, P s T -> P (TIMER0_OVF_vect s) (T + 1)) ->
  (forall s T udr0 s', P s T -> USART0_RX_vect udr0 s = Some s' -> P s' T) ->
  (forall s T, P s T -> P (poll s) T) ->
  (forall s T, P s T -> P (gprs_fsm s) T) ->
  (forall s T, P s T -> P (http_fsm s) T) ->
  forall evs m m' T,
    P (st m) T -> run evs m = Some m' -> P (st m') (T + ticks_in evs).
Proof.
  intros Htick Hrx Hpoll Hgprs Hhttp.
  induction evs as [|ev evs IH]; intros m m' T HP Hrun; cbn [run ticks_in] in *.
  - inversion Hrun; subst. rewrite Z.add_0_r. exact HP.
  - destruct (step ev m) as [m1|] eqn:Hstep; [|discriminate].
    destruct ev as [|udr0|]; cbn [step] in Hstep.
    + inversion Hstep; subst.
      replace (T + (1 + ticks_in evs)) with (T + 1 + ticks_in evs) by lia.
      apply (IH (mkMachine (pc m) (TIMER0_OVF_vect (st m))) m' (T + 1)
               (Htick _ _ HP) Hrun).
    + destruct (USART0_RX_vect udr0 (st m)) as [s'|] eqn:E; [|discriminate].
      inversion Hstep; subst.
      apply (IH (mkMachine (pc m) s') m' T (Hrx _ _ _ _ HP E) Hrun).
    + inversion Hstep; subst.
      destruct (pc m);
        [ apply (IH (mkMachine AtGprs (poll (st m))) m' T (Hpoll _ _ HP) Hrun)
        | apply (IH (mkMachine AtHttp (gprs_fsm (st m))) m' T (Hgprs _ _ HP) Hrun)
        | apply (IH (mkMachine AtPoll (http_fsm (st m))) m' T (Hhttp _ _ HP) Hrun) ].
Qed.

Lemma rx_clocks s udr0 s' :
  USART0_RX_vect udr0 s = Some s' ->
  millisCnt s' = millisCnt s
  /\ gprsState s' = gprsState s /\ gprsTimer s' = gprsTimer s
  /\ gprsReady s' = gprsReady s
  /\ httpState s' = httpState s /\ httpTimer s' = httpTimer s.
Proof.
  intros Hrx. unfold USART0_RX_vect in Hrx.
  destruct ((0 <=? meterIdx s) && (meterIdx s <? METER_BUF_LEN)); [|discriminate].
  revert Hrx. project. destruct (wrap8 (meterIdx s + 1) =? 44).
  - destruct (buf_get _ IDX_FRAME_END =? 0xDD);
      intros Hrx; inversion Hrx; subst; repeat split.
  - intros Hrx; inversion Hrx; subst; repeat split.
Qed.

Lemma wrap32_le z : 0 <= z -> wrap32 z <= z.
Proof. intros H. unfold wrap32. apply Z.mod_le; lia. Qed.

Lemma gprs_clock_fsm s T : gprs_clock s T -> gprs_clock (gprs_fsm s) T.
Proof.
  intros (HT & e & He & Hle & Hclk). unfold gprs_fsm.
  destruct (gprsReady s) eqn:Hg;
    [split; [exact HT|]; exists e; repeat split; auto; congruence|].
  rewrite ?uart1_send_str_eq.
  assert (Hgate : gprsState s <> GPRS_IDLE ->
                  COMMAND_DELAY_MS <= sub32 (millis s) (gprsTimer s) ->
                  COMMAND_DELAY_MS <= 10 * e).
  { intros Hne Hge. rewrite (Hclk eq_refl Hne) in Hge.
    pose proof (wrap32_le (10 * e)). lia. }
  unfold gprs_clock, gprs_min_ms in *.
  destruct (gprsState s) eqn:Hs;
    try (destruct (COMMAND_DELAY_MS <=? _) eqn:Hd;
         [apply Z.leb_le in Hd; specialize (Hgate ltac:(discriminate) Hd)
         | split; [exact HT|]; exists e; rewrite Hg, Hs; auto]);
    project; (split; [exact HT|]);
    try (exists 0; unfold COMMAND_DELAY_MS in *; cbn [gprs_rank] in *;
         split; [lia|]; split; [lia|]; intros; try discriminate;
         apply sub32_self).
  exists e. rewrite Hg, Hs. auto.
Qed.

Lemma gprs_clock_run evs m m' T :
  gprs_clock (st m) T -> run evs m = Some m' ->
  gprs_clock (st m') (T + ticks_in evs).
Proof.
  apply (run_ticks_ind gprs_clock).
  - intros s T0 (HT & e & He & Hle & Hclk).
    destruct (tick_frame s)
      as (_ & _ & _ & Hgs & Hgt & Hgr & _ & _ & _ & _ & _ & _ & Hms & _).
    split; [lia|]. exists (e + 1). unfold millis in *.
    rewrite Hgs, Hgt, Hgr, Hms. split; [lia|]. split; [lia|].
    intros Hr Hne. apply sub32_tick, Hclk; assumption.
  - intros s T0 udr0 s' (HT & e & He & Hle & Hclk) Hrx.
    destruct (rx_clocks s udr0 s' Hrx) as (Hms & Hgs & Hgt & Hgr & _).
    split; [exact HT|]. exists e. unfold millis in *.
    rewrite Hgs, Hgt, Hgr, Hms. auto.
  - intros s T0 (HT & e & He & Hle & Hclk).
    destruct (poll_frame s) as (_ & _ & _ & Hms & Hgs & Hgt & Hgr & _).
    split; [exact HT|]. exists e. unfold millis in *.
    rewrite Hgs, Hgt, Hgr, Hms. auto.
  - exact gprs_clock_fsm.
  - intros s T0 (HT & e & He & Hle & Hclk).
    destruct (http_fsm_frame s) as (_ & _ & _ & Hms & Hgs & Hgt & Hgr & _).
    split; [exact HT|]. exists e. unfold millis in *.
    rewrite Hgs, Hgt, Hgr, Hms. auto.
Qed.

(** X10.  The bring-up cannot be hurried.  Whatever the schedule, a
    bring-up state is not entered before the delays of the states in front
    of it have passed (2000 ms each, counted in ticks of 10 ms from
    start-up); in particular the modem is not reported ready before 1600
    ticks. *)
Theorem gprs_bringup_takes_time (evs : list event) (m' : machine) :
  run evs init_machine = Some m' ->
  gprs_min_ms (gprsState (st m')) <= 10 * ticks_in evs
  /\ (gprsReady (st m') = true -> 1600 <= ticks_in evs).
Proof.
  intros Hrun.
  assert (H0 : gprs_clock (st init_machine) 0).
  { split; [lia|]. exists 0. vm_compute. repeat split; congruence. }
  destruct (gprs_clock_run evs init_machine m' 0 H0 Hrun)
    as (_ & e & He & Hle & _).
  rewrite Z.add_0_l in Hle. split; [lia|].
  intros Hg.
  assert (Hr : reachable m') by (apply (run_reachable evs init_machine); [constructor | exact Hrun]).
  apply (proj1 (reachable_ready_inv m' Hr)) in Hg.
  rewrite Hg in Hle. unfold gprs_min_ms, COMMAND_DELAY_MS in Hle.
  cbn [gprs_rank] in Hle. lia.
Qed.

(** A main loop that runs once per tick reports the modem ready after
    1601 ticks. *)
Lemma gprs_bringup_takes_time_witness :
  exists m',
    run (concat (repeat (EvTick :: loop_iter) 1601)) init_machine = Some m'
    /\ gprsReady (st m') = true
    /\ gprs_min_ms (gprsState (st m'))
       <= 10 * ticks_in (concat (repeat (EvTick :: loop_iter) 1601))
    /\ 1600 <= ticks_in (concat (repeat (EvTick :: loop_iter) 1601)).
Proof.
  destruct (run (concat (repeat (EvTick :: loop_iter) 1601)) init_machine)
    as [m'|] eqn:Hrun0; [|vm_compute in Hrun0; discriminate].
  assert (Hg : gprsReady (st m') = true)
    by (vm_compute in Hrun0; inversion Hrun0; reflexivity).
  destruct (gprs_bringup_takes_time _ m' Hrun0) as (Hmin & Hready).
  exists m'. split; [reflexivity|]. split; [exact Hg|].
  split; [exact Hmin | exact (Hready Hg)].
Defined.

Lemma http_clock_fsm s T : http_clock s T -> http_clock (http_fsm s) T.
Proof.
  intros (HT & e & He & Hle & Hclk). unfold http_fsm, build_http_url.
  destruct (negb (gprsReady s) || negb (frameReady s));
    [split; [exact HT|]; exists e; auto|].
  rewrite ?uart1_send_str_eq.
  assert (Hgate : forall d, httpState s <> HTTP_IDLE ->
                  d <= sub32 (millis s) (httpTimer s) ->
                  d <= 10 * (e + http_carry (httpState s))).
  { intros d Hne Hge. rewrite (Hclk Hne) in Hge.
    assert (0 <= http_carry (httpState s))
      by (destruct (httpState s); vm_compute; congruence).
    pose proof (wrap32_le (10 * (e + http_carry (httpState s)))). lia. }
  unfold http_clock, http_min_ms in *.
  destruct (httpState s) eqn:Hs;
    try (destruct (_ <=? sub32 _ _) eqn:Hd;
         [apply Z.leb_le in Hd; specialize (Hgate _ ltac:(discriminate) Hd)
         | split; [exact HT|]; exists e; rewrite Hs; auto]);
    project; (split; [exact HT|]);
    try (exists 0; unfold HTTP_DELAY_MS, http_carry in *;
         change (1500 * 2 / 10) with 300 in *;
         split; [lia|]; split; [lia|]; intros; try congruence;
         rewrite Z.add_0_r; apply sub32_self).
  exists (e - 300). unfold HTTP_DELAY_MS, http_carry in *.
  change (1500 * 2 / 10) with 300 in *.
  split; [lia|]. split; [lia|]. intros _.
  change (millis (with_httpState HTTP_COMPLETE (with_frameReady false s)))
    with (millis s).
  rewrite (Hclk ltac:(discriminate)). f_equal.
  change (HTTP_DELAY_MS * 2 / 10) with 300. lia.
Qed.

Lemma http_clock_run evs m m' T :
  http_clock (st m) T -> run evs m = Some m' ->
  http_clock (st m') (T + ticks_in evs).
Proof.
  apply (run_ticks_ind http_clock).
  - intros s T0 (HT & e & He & Hle & Hclk).
    destruct (tick_frame s)
      as (_ & _ & _ & _ & _ & _ & Hhs & Hht & _ & _ & _ & _ & Hms & _).
    split; [lia|]. exists (e + 1). unfold millis in *.
    rewrite Hhs, Hht, Hms. split; [lia|]. split; [lia|].
    intros Hne.
    replace (e + 1 + http_carry (httpState s))
      with (e + http_carry (httpState s) + 1) by lia.
    apply sub32_tick, Hclk; assumption.
  - intros s T0 udr0 s' (HT & e & He & Hle & Hclk) Hrx.
    destruct (rx_clocks s udr0 s' Hrx) as (Hms & _ & _ & _ & Hhs & Hht).
    split; [exact HT|]. exists e. unfold millis in *.
    rewrite Hhs, Hht, Hms. auto.
  - intros s T0 (HT & e & He & Hle & Hclk).
    destruct (poll_frame s)
      as (_ & _ & _ & Hms & _ & _ & _ & Hhs & Hht & _).
    split; [exact HT|]. exists e. unfold millis in *.
    rewrite Hhs, Hht, Hms. auto.
  - intros s T0 (HT & e & He & Hle & Hclk).
    destruct (gprs_fsm_frame s) as (_ & _ & _ & _ & Hms & Hhs & Hht & _).
    split; [exact HT|]. exists e. unfold millis in *.
    rewrite Hhs, Hht, Hms. auto.
  - exact http_clock_fsm.
Qed.

(** X11.  An uplink cycle cannot be hurried either.  From a state with the
    uplink sequencer idle, whatever the schedule, an uplink state is not
    entered before the delays in front of it have passed; in particular
    the frame-ready flag, which only the step into COMPLETE clears, is not
    cleared by a cycle before 900 ticks. *)
Theorem http_cycle_takes_time (evs : list event) (m m' : machine) :
  httpState (st m) = HTTP_IDLE ->
  run evs m = Some m' ->
  http_min_ms (httpState (st m')) <= 10 * ticks_in evs
  /\ (httpState (st m') = HTTP_COMPLETE -> 900 <= ticks_in evs).
Proof.
  intros Hidle Hrun.
  assert (H0 : http_clock (st m) 0).
  { split; [lia|]. exists 0. rewrite Hidle. cbn [http_min_ms].
    repeat split; try lia. congruence. }
  destruct (http_clock_run evs m m' 0 H0 Hrun) as (_ & e & He & Hle & _).
  rewrite Z.add_0_l in Hle. split; [lia|].
  intros Hc. rewrite Hc in Hle. unfold http_min_ms, HTTP_DELAY_MS in Hle. lia.
Qed.

(** After bring-up and one valid frame, a main loop that runs once per
    tick reaches COMPLETE after 901 ticks. *)
Lemma http_cycle_takes_time_witness :
  exists m0 m',
    run (bringup_schedule ++ map EvRx valid_frame) init_machine = Some m0
    /\ run (concat (repeat (EvTick :: loop_iter) 901)) m0 = Some m'
    /\ httpState (st m') = HTTP_COMPLETE
    /\ http_min_ms (httpState (st m'))
       <= 10 * ticks_in (concat (repeat (EvTick :: loop_iter) 901))
    /\ 900 <= ticks_in (concat (repeat (EvTick :: loop_iter) 901)).
Proof.
  destruct (run (bringup_schedule ++ map EvRx valid_frame) init_machine)
    as [m0|] eqn:Hrun0; [|vm_compute in Hrun0; discriminate].
  assert (Hidle : httpState (st m0) = HTTP_IDLE)
    by (vm_compute in Hrun0; inversion Hrun0; reflexivity).
  destruct (run (concat (repeat (EvTick :: loop_iter) 901)) m0)
    as [m'|] eqn:Hrun1;
    [|vm_compute in Hrun0; inversion Hrun0; subst m0;
      vm_compute in Hrun1; discriminate].
  assert (Hc : httpState (st m') = HTTP_COMPLETE)
    by (vm_compute in Hrun0; inversion Hrun0; subst m0;
        vm_compute in Hrun1; inversion Hrun1; reflexivity).
  destruct (http_cycle_takes_time _ m0 m' Hidle Hrun1) as (Hmin & Hdone).
  exists m0, m'. split; [reflexivity|]. split; [exact Hrun1|].
  split; [exact Hc|]. split; [exact Hmin | exact (Hdone Hc)].
Defined.

(** ** Frame capture across frames *)

Lemma list_inserts_mid (l buf : list Z) (k : nat) :
  (k + length l <= length buf)%nat ->
  list_inserts k l buf = take k buf ++ l ++ drop (k + length l) buf.
Proof.
  intros Hle.
  rewrite <- (take_drop k buf) at 1.
  rewrite <- (take_drop (length l) (drop k buf)) at 1.
  rewrite drop_drop.
  replace k with (length (take k buf) + 0)%nat at 1
    by (rewrite length_take; lia).
  rewrite list_inserts_app_r. f_equal.
  apply list_inserts_0_r. rewrite length_take, length_drop. lia.
Qed.

(** The bytes that complete a frame from a cursor anywhere in the buffer:
    the last of them lands at offset 43 and is the one tested. *)
Lemma feed_to_end s bs :
  length (meterBuf s) = 44%nat ->
  0 <= meterIdx s <= 43 ->
  Z.of_nat (length bs) = 44 - meterIdx s ->
  feed bs s =
    Some (with_meterIdx 0
            (with_frameReady
               (frameReady s
                || (wrap8 (nth (Z.to_nat (43 - meterIdx s)) bs 0) =? 0xDD))
               (with_meterBuf
                  (take (Z.to_nat (meterIdx s)) (meterBuf s) ++ map wrap8 bs) s))).
Proof.
  intros Hbuf Hidx Hlen.
  destruct bs as [|b0 bs0] using rev_ind; [cbn in Hlen; lia|]. clear IHbs0.
  rewrite length_app in Hlen. cbn [length] in Hlen.
  rewrite feed_app, feed_partial by lia. cbn [feed].
  rewrite rx_last;
    cbn [meterIdx meterBuf frameReady with_meterIdx with_meterBuf with_frameReady];
    [| rewrite length_inserts; exact Hbuf | lia].
  replace (Z.to_nat (43 - meterIdx s)) with (length bs0) by lia.
  rewrite app_nth2, Nat.sub_diag by lia. cbn [nth].
  rewrite list_inserts_mid by (rewrite length_map; lia).
  rewrite length_map.
  rewrite !app_assoc.
  rewrite insert_app_r_alt
    by (rewrite length_app, length_take, length_map; lia).
  rewrite length_app, length_take, length_map.
  replace (43 - (Z.to_nat (meterIdx s) `min` length (meterBuf s) + length bs0))%nat
    with 0%nat by lia.
  destruct (drop (Z.to_nat (meterIdx s) + length bs0) (meterBuf s)) as [|y rest] eqn:Hd.
  { apply (f_equal length) in Hd. rewrite length_drop in Hd. cbn in Hd. lia. }
  assert (Hrest : rest = []).
  { apply (f_equal length) in Hd. rewrite length_drop in Hd. cbn in Hd.
    destruct rest; [reflexivity | cbn in Hd; lia]. }
  subst rest. cbn [insert list_insert].
  rewrite map_app. cbn [map]. rewrite <- !app_assoc.
  destruct s; reflexivity.
Qed.

(** A frame received from a cursor [k] that is not at the start of the
    buffer. *)
Lemma feed_frame_from s f :
  length (meterBuf s) = 44%nat ->
  0 <= meterIdx s <= 43 ->
  length f = 44%nat ->
  feed f s =
    Some (with_meterIdx (meterIdx s)
            (with_frameReady
               (frameReady s
                || (wrap8 (nth (Z.to_nat (43 - meterIdx s)) f 0) =? 0xDD))
               (with_meterBuf
                  (map wrap8 (drop (Z.to_nat (44 - meterIdx s)) f
                              ++ take (Z.to_nat (44 - meterIdx s)) f)) s))).
Proof.
  intros Hbuf Hidx Hf.
  set (n := Z.to_nat (44 - meterIdx s)).
  rewrite <- (take_drop n f) at 1.
  rewrite feed_app, (feed_to_end s (take n f))
    by (rewrite ?length_take; unfold n; lia).
  rewrite feed_partial;
    cbn [meterIdx meterBuf frameReady with_meterIdx with_meterBuf with_frameReady];
    [| lia | rewrite length_drop; unfold n; lia].
  change (Z.to_nat 0) with 0%nat.
  rewrite list_inserts_0_r
    by (rewrite length_map, length_take, length_drop; unfold n; lia).
  rewrite length_drop, map_app.
  replace (nth (Z.to_nat (43 - meterIdx s)) (take n f) 0)
    with (nth (Z.to_nat (43 - meterIdx s)) f 0).
  2:{ rewrite <- (take_drop n f) at 1.
      rewrite app_nth1 by (rewrite length_take; unfold n; lia). reflexivity. }
  replace (0 + Z.of_nat (length f - n)) with (meterIdx s) by (unfold n; lia).
  destruct s; reflexivity.
Qed.

(** X12.  A misaligned capture stays misaligned.  From a cursor [k]
    anywhere in the buffer, 44 received bytes leave the cursor at [k]
    again; the buffer then holds the last [k] of them followed by the first
    [44 - k], and the byte compared with the sentinel is the one that
    landed at offset 43, byte [43 - k] of the 44.  The receive handler
    alone never brings the cursor back in step with the frames. *)
Theorem misaligned_capture_persists (s : state) (f : list Z) :
  length (meterBuf s) = 44%nat ->
  0 <= meterIdx s <= 43 ->
  length f = 44%nat ->
  exists s',
    feed f s = Some s'
    /\ meterIdx s' = meterIdx s
    /\ length (meterBuf s') = 44%nat
    /\ meterBuf s'
       = map wrap8 (drop (Z.to_nat (44 - meterIdx s)) f
                    ++ take (Z.to_nat (44 - meterIdx s)) f)
    /\ frameReady s'
       = (frameReady s
          || (wrap8 (nth (Z.to_nat (43 - meterIdx s)) f 0) =? 0xDD)).
Proof.
  intros Hbuf Hidx Hf. eexists. split; [apply feed_frame_from; assumption|].
  project. repeat split.
  rewrite length_map, length_app, length_drop, length_take. lia.
Qed.

Lemma misaligned_capture_persists_witness :
  exists s',
    feed valid_frame (with_meterIdx 3 init_state) = Some s'
    /\ meterIdx s' = meterIdx (with_meterIdx 3 init_state)
    /\ length (meterBuf s') = 44%nat
    /\ meterBuf s'
       = map wrap8
           (drop (Z.to_nat (44 - meterIdx (with_meterIdx 3 init_state))) valid_frame
            ++ take (Z.to_nat (44 - meterIdx (with_meterIdx 3 init_state))) valid_frame)
    /\ frameReady s'
       = (frameReady (with_meterIdx 3 init_state)
          || (wrap8 (nth (Z.to_nat (43 - meterIdx (with_meterIdx 3 init_state)))
                       valid_frame 0) =? 0xDD)).
Proof.
  apply (misaligned_capture_persists (with_meterIdx 3 init_state) valid_frame).
  - reflexivity.
  - vm_compute. split; congruence.
  - reflexivity.
Defined.

Lemma http_fsm_builds_url s :
  gprsReady s = true -> frameReady s = true -> httpState s = HTTP_IDLE ->
  httpUrl (http_fsm s) = snprintf (httpUrl s) sizeof_httpUrl (http_url_text s).
Proof.
  intros Hg Hf Hh. unfold http_fsm, build_http_url.
  rewrite ?uart1_send_str_eq, Hg, Hf, Hh. reflexivity.
Qed.

(** X13.  The frame buffer is not protected while a frame waits for its
    uplink.  After a valid frame has raised the flag, the bytes that follow
    are stored over it: with [n <= 44] further bytes received the buffer
    holds those [n] bytes followed by the rest of the valid frame, and the
    flag is still set, also when the [n] bytes are a whole frame without
    the sentinel.  An uplink cycle that starts now formats the URL from
    this buffer. *)
Theorem pending_frame_overwritten (s : state) (f1 f2 : list Z) :
  length (meterBuf s) = 44%nat -> meterIdx s = 0 ->
  length f1 = 44%nat -> frame_valid f1 = true ->
  (length f2 <= 44)%nat ->
  exists s',
    feed (f1 ++ f2) s = Some s'
    /\ frameReady s' = true
    /\ meterBuf s' = map wrap8 f2 ++ drop (length f2) (map wrap8 f1)
    /\ meterIdx s' = Z.of_nat (length f2) mod 44
    /\ (gprsReady s' = true -> httpState s' = HTTP_IDLE ->
        httpUrl (http_fsm s')
        = snprintf (httpUrl s') sizeof_httpUrl (http_url_text s')).
Proof.
  intros Hbuf Hidx Hf1 Hv Hf2.
  rewrite feed_app, (feed_frame s f1 Hbuf Hidx Hf1), Hv, orb_true_r.
  set (s1 := with_meterIdx 0 (with_frameReady true (with_meterBuf (map wrap8 f1) s))).
  assert (Hb1 : length (meterBuf s1) = 44%nat)
    by (unfold s1; project; rewrite length_map; exact Hf1).
  assert (Hurl : forall s', frameReady s' = true ->
            gprsReady s' = true -> httpState s' = HTTP_IDLE ->
            httpUrl (http_fsm s')
            = snprintf (httpUrl s') sizeof_httpUrl (http_url_text s'))
    by (intros; apply http_fsm_builds_url; assumption).
  destruct (decide (length f2 = 44%nat)) as [H44|Hlt].
  - rewrite (feed_frame s1 f2 Hb1 eq_refl H44). eexists. split; [reflexivity|].
    split; [reflexivity|].
    split; [|split; [rewrite H44; reflexivity | apply Hurl; reflexivity]].
    project.
    rewrite drop_ge by (rewrite length_map; lia). rewrite app_nil_r. reflexivity.
  - rewrite feed_partial by (unfold s1; project; lia).
    eexists. split; [reflexivity|].
    split; [reflexivity|].
    split; [|split; [| apply Hurl; reflexivity]]; unfold s1; project.
    + change (Z.to_nat 0) with 0%nat.
      rewrite <- (take_drop (length f2) (map wrap8 f1)) at 1.
      apply list_inserts_0_r. rewrite length_take, !length_map. lia.
    + rewrite Z.mod_small by lia. lia.
Qed.

Lemma pending_frame_overwritten_witness :
  exists s',
    feed (valid_frame ++ [1; 2; 3]) init_state = Some s'
    /\ frameReady s' = true
    /\ meterBuf s'
       = map wrap8 [1; 2; 3] ++ drop (length [1; 2; 3]) (map wrap8 valid_frame)
    /\ meterIdx s' = Z.of_nat (length [1; 2; 3]) mod 44
    /\ (gprsReady s' = true -> httpState s' = HTTP_IDLE ->
        httpUrl (http_fsm s')
        = snprintf (httpUrl s') sizeof_httpUrl (http_url_text s')).
Proof.
  apply (pending_frame_overwritten init_state valid_frame [1; 2; 3]).
  - reflexivity.
  - reflexivity.
  - reflexivity.
  - reflexivity.
  - cbn. lia.
Defined.

(** X14.  A poll brings the capture back in step.  When the poll block
    fires it resets the cursor, whatever part of a frame has been received;
    the 44 bytes received after it are stored as one frame from offset 0,
    and the flag is raised exactly when their last byte is the sentinel
    (or it was set before). *)
Theorem poll_realigns_capture (s : state) (f : list Z) :
  length (meterBuf s) = 44%nat ->
  100 <= since_poll s ->
  length f = 44%nat ->
  exists s',
    feed f (poll s) = Some s'
    /\ meterBuf s' = map wrap8 f
    /\ meterIdx s' = 0
    /\ frameReady s' = (frameReady s || frame_valid f).
Proof.
  intros Hbuf Hp Hf.
  rewrite poll_fires by exact Hp.
  rewrite feed_frame; [| project; solve [assumption | reflexivity] ..].
  eexists. split; [reflexivity|]. project. repeat split.
Qed.

Lemma poll_realigns_capture_witness :
  exists s',
    feed valid_frame
      (poll (with_meterIdx 3 (with_tick10ms 100 init_state))) = Some s'
    /\ meterBuf s' = map wrap8 valid_frame
    /\ meterIdx s' = 0
    /\ frameReady s'
       = (frameReady (with_meterIdx 3 (with_tick10ms 100 init_state))
          || frame_valid valid_frame).
Proof.
  apply (poll_realigns_capture
           (with_meterIdx 3 (with_tick10ms 100 init_state)) valid_frame).
  - reflexivity.
  - vm_compute. congruence.
  - reflexivity.
Defined.

(** ** What the formatter reads *)

(** X15.  The request target depends on 19 bytes of the frame only: the
    offsets of the decoded fields, 0-7, 11-13 and 29-36.  Two buffers that
    agree there give the same text and, written into the same URL buffer,
    the same URL; the other 25 bytes, the sentinel at offset 43 among them,
    never reach the server. *)
Theorem url_reads_field_bytes_only (s s' : state) :
  same_fields s s' = true ->
  http_url_text s = http_url_text s'
  /\ (httpUrl s = httpUrl s' ->
      httpUrl (build_http_url s) = httpUrl (build_http_url s')).
Proof.
  intros H.
  assert (Ht : http_url_text s = http_url_text s').
  { unfold same_fields, url_offsets in H. cbn [forallb] in H.
    repeat match type of H with
           | (_ && _) = true =>
               let Hx := fresh "Hx" in
               apply andb_prop in H; destruct H as [Hx H];
               apply Z.eqb_eq in Hx
           end.
    clear H. unfold http_url_text, get_u16, get_u24.
    repeat match goal with
           | Hx : buf_get (meterBuf s) _ = _ |- _ => rewrite Hx; clear Hx
           end.
    reflexivity. }
  split; [exact Ht|].
  intros Hu. unfold build_http_url. project. rewrite Ht, Hu. reflexivity.
Qed.

Lemma url_reads_field_bytes_only_witness :
  http_url_text init_state
  = http_url_text (with_meterBuf (repeat 0 43 ++ [0xDD]) init_state).
Proof.
  apply (proj1 (url_reads_field_bytes_only init_state
                  (with_meterBuf (repeat 0 43 ++ [0xDD]) init_state)
                  eq_refl)).
Defined.
